(** * super-dl: a shallow embedding of the CLI dispatcher and its site modules

    The development follows the layout of the Python package:
    - [Py]        the string operations the package calls;
    - [Re]        a backtracking matcher for the patterns given to [re];
    - [Exn]       Python exceptions and results that may raise;
    - [Url]       [urlsplit] and [urlparse] of [urllib.parse];
    - [Path]      the part of [pathlib] the package uses, on POSIX;
    - [Soup]      the part of the BeautifulSoup tree API the extractors use;
    - [Eff]       the effects of a run (HTTP requests, subprocesses, file
                  writes, prints) as a trace, with the answers of the outside
                  world as an environment;
    - one module per file of [super_dl/sites], with the source's names;
    - [cli]       [super_dl/main.py].
    The properties come last, one part per subject, each with the facts
    about strings, URLs and patterns it needs.

    Strings are [string]: a character is a code point below 256 and the
    classes ([\s], [\w]) and the case mapping are Python's on that range. *)

From Stdlib Require Import Bool Arith List String Ascii ZArith Lia DecimalString.
Import ListNotations.

Local Open Scope list_scope.
Local Open Scope string_scope.
Local Open Scope nat_scope.

(** ** Python values and strings *)

Module Py.

(** Truth value of an [Optional[str]]: [None] and [''] are false. *)
Definition truthy (o : option string) : bool :=
  match o with
  | None => false
  | Some s => negb (String.eqb s "")
  end.

Definition code (c : ascii) : nat := nat_of_ascii c.

Definition in_range (lo hi : nat) (c : ascii) : bool :=
  (lo <=? code c) && (code c <=? hi).

Definition is_upper_az (c : ascii) : bool := in_range 65 90 c.
Definition is_lower_az (c : ascii) : bool := in_range 97 122 c.
Definition is_digit (c : ascii) : bool := in_range 48 57 c.
Definition is_ascii_alpha (c : ascii) : bool := is_upper_az c || is_lower_az c.

(** [str.lower] on one character: A-Z, and the Latin-1 capitals
    U+00C0..U+00DE without the multiplication sign U+00D7. *)
Definition lower_char (c : ascii) : ascii :=
  if is_upper_az c then ascii_of_nat (code c + 32)
  else if in_range 192 222 c && negb (code c =? 215) then ascii_of_nat (code c + 32)
  else c.

Fixpoint lower (s : string) : string :=
  match s with
  | EmptyString => EmptyString
  | String c s' => String (lower_char c) (lower s')
  end.

(** [\s] of a [str] pattern: the characters for which [str.isspace] holds. *)
Definition is_space (c : ascii) : bool :=
  in_range 9 13 c || in_range 28 32 c || (code c =? 133) || (code c =? 160).

(** [\w] of a [str] pattern: alphanumeric (alphabetic, decimal, digit or
    numeric) or the underscore. *)
Definition is_word (c : ascii) : bool :=
  is_ascii_alpha c || is_digit c || (code c =? 95)
  || (code c =? 170) || (code c =? 181) || (code c =? 186)
  || (code c =? 178) || (code c =? 179) || (code c =? 185)
  || in_range 188 190 c
  || (in_range 192 255 c && negb (code c =? 215) && negb (code c =? 247)).

(** [s.startswith(p)] *)
Fixpoint startswith (s p : string) : bool :=
  match p with
  | EmptyString => true
  | String a p' =>
      match s with
      | EmptyString => false
      | String b s' => Ascii.eqb a b && startswith s' p'
      end
  end.

(** [p in s] *)
Fixpoint contains (s p : string) : bool :=
  startswith s p ||
  match s with
  | EmptyString => false
  | String _ s' => contains s' p
  end.

Definition rev (s : string) : string :=
  string_of_list_ascii (List.rev (list_ascii_of_string s)).

(** [s.endswith(p)] *)
Definition endswith (s p : string) : bool := startswith (rev s) (rev p).

(** [c in s] for a single character *)
Fixpoint has_char (c : ascii) (s : string) : bool :=
  match s with
  | EmptyString => false
  | String a s' => Ascii.eqb a c || has_char c s'
  end.

(** [s.lstrip(chars)] with the set given as a predicate *)
Fixpoint lstrip (p : ascii -> bool) (s : string) : string :=
  match s with
  | EmptyString => EmptyString
  | String c s' => if p c then lstrip p s' else s
  end.

(** [s.rstrip(chars)] *)
Definition rstrip (p : ascii -> bool) (s : string) : string :=
  rev (lstrip p (rev s)).

(** [s.strip(chars)] *)
Definition strip (p : ascii -> bool) (s : string) : string :=
  rstrip p (lstrip p s).

Definition is_slash (c : ascii) : bool := Ascii.eqb c "/".

(** [s.replace(c, '')] *)
Fixpoint remove_chars (p : ascii -> bool) (s : string) : string :=
  match s with
  | EmptyString => EmptyString
  | String c s' => if p c then remove_chars p s' else String c (remove_chars p s')
  end.

(** [s.partition(c)] as (head, found, tail): the text before the first
    [c], whether there is one, and the text after it. *)
Fixpoint partition (c : ascii) (s : string) : string * bool * string :=
  match s with
  | EmptyString => (EmptyString, false, EmptyString)
  | String a s' =>
      if Ascii.eqb a c then (EmptyString, true, s')
      else let '(h, f, t) := partition c s' in (String a h, f, t)
  end.

(** [s.split(c)]: every occurrence separates, empty fields are kept, and
    the result is never empty. *)
Fixpoint split (c : ascii) (s : string) : list string :=
  match s with
  | EmptyString => [EmptyString]
  | String a s' =>
      if Ascii.eqb a c then EmptyString :: split c s'
      else match split c s' with
           | [] => [String a EmptyString]
           | h :: t => String a h :: t
           end
  end.

(** [s.split(c, 1)[-1]] *)
Definition split1_last (c : ascii) (s : string) : string :=
  let '(h, f, t) := partition c s in if f then t else s.

(** [s.split(c, 1)[0]], the left part of [url.split('#', 1)] *)
Definition split1_first (c : ascii) (s : string) : string :=
  let '(h, _, _) := partition c s in h.

(** [[p for p in parts if p]] *)
Definition nonempty (parts : list string) : list string :=
  filter (fun p => negb (String.eqb p "")) parts.

(** [parts[-1] if parts else d] *)
Definition last_or (parts : list string) (d : string) : string :=
  List.last parts d.

(** [re.sub(r"[^A-Za-z0-9._-]", "-", name)] works character by character:
    the class has width one, so every character outside the set is replaced
    on its own. *)
Definition is_safe_char (c : ascii) : bool :=
  is_ascii_alpha c || is_digit c
  || Ascii.eqb c "." || Ascii.eqb c "_" || Ascii.eqb c "-".

Fixpoint sanitize (s : string) : string :=
  match s with
  | EmptyString => EmptyString
  | String c s' => String (if is_safe_char c then c else "-"%char) (sanitize s')
  end.

Fixpoint forallb_str (p : ascii -> bool) (s : string) : bool :=
  match s with
  | EmptyString => true
  | String c s' => p c && forallb_str p s'
  end.

(** [s[:n]] *)
Fixpoint take (n : nat) (s : string) : string :=
  match n, s with
  | S n', String c s' => String c (take n' s')
  | _, _ => EmptyString
  end.

(** [s[n:]] *)
Fixpoint drop (n : nat) (s : string) : string :=
  match n, s with
  | S n', String _ s' => drop n' s'
  | _, _ => s
  end.

(** [posixpath.basename]: the text after the last slash. *)
Definition basename (p : string) : string := last_or (split "/" p) "".

(** [s.rpartition(c)[2]]: the text after the last [c], all of [s] when
    there is none. *)
Definition rpartition_tail (c : ascii) (s : string) : string :=
  let '(h, _, _) := partition c (rev s) in rev h.

(** [int(s)] for a text of decimal digits *)
Definition digits_value (s : string) : N :=
  fold_left (fun n c => (10 * n + N.of_nat (code c - 48))%N)
            (list_ascii_of_string s) 0%N.

Definition hex_digit (n : nat) : ascii :=
  if n <? 10 then ascii_of_nat (48 + n) else ascii_of_nat (87 + n).

(** [str.isprintable] on one character: the controls, U+007F to U+00A0
    and the soft hyphen are not. *)
Definition is_printable (c : ascii) : bool :=
  (32 <=? code c) && negb (in_range 127 160 c) && negb (code c =? 173).

Definition repr_char (quote c : ascii) : string :=
  if Ascii.eqb c quote || Ascii.eqb c "\" then String "\" (String c "")
  else if code c =? 9 then "\t"
  else if code c =? 10 then "\n"
  else if code c =? 13 then "\r"
  else if is_printable c then String c ""
  else "\x" ++ String (hex_digit (code c / 16))
                 (String (hex_digit (code c mod 16)) "").

Fixpoint repr_body (quote : ascii) (s : string) : string :=
  match s with
  | EmptyString => EmptyString
  | String c s' => repr_char quote c ++ repr_body quote s'
  end.

(** [repr(s)]: single quotes, unless the text has one and no double
    quote. *)
Definition repr (s : string) : string :=
  let quote :=
    if has_char (ascii_of_nat 39) s && negb (has_char (ascii_of_nat 34) s)
    then ascii_of_nat 34 else ascii_of_nat 39 in
  String quote (repr_body quote s ++ String quote "").

End Py.

(** ** The [re] module: a backtracking matcher

    The patterns of the package are sequences of literals, single-character
    classes, an optional character, starred classes (greedy or lazy) and
    [\b], with one capturing group.  The matcher tries the alternatives in
    the order of Python's engine: a greedy star takes the longest run first
    and gives characters back one by one, a lazy star takes the shortest
    first; [search] takes the leftmost start at which a match exists. *)

Module Re.

Inductive atom :=
| Lit (s : string)                        (* literal text *)
| Cls (p : ascii -> bool)                 (* one character of a class *)
| Opt (c : ascii)                         (* [c?] *)
| Star (greedy : bool) (p : ascii -> bool)  (* [[...]*] and [[...]*?] *)
| WordB.                                  (* [\b] *)

(** [[...]+] and [[...]+?] *)
Definition Plus (greedy : bool) (p : ascii -> bool) : list atom :=
  [Cls p; Star greedy p].

(** A pattern with its group: [pre (grp) post]; [icase] is [re.IGNORECASE]. *)
Record pattern := {
  icase : bool;
  pre : list atom;
  grp : list atom;
  post : list atom
}.

Section Matcher.
Context {R : Type}.

(** A continuation receives the character before the current position
    ([None] at the start of the text) and the rest of the text. *)
Definition cont := option ascii -> string -> option R.

Definition chr_eq (ic : bool) (a b : ascii) : bool :=
  if ic then Ascii.eqb (Py.lower_char a) (Py.lower_char b) else Ascii.eqb a b.

Fixpoint lit (ic : bool) (l : string) (prev : option ascii) (s : string)
         (k : cont) : option R :=
  match l with
  | EmptyString => k prev s
  | String a l' =>
      match s with
      | EmptyString => None
      | String b s' => if chr_eq ic a b then lit ic l' (Some b) s' k else None
      end
  end.

Fixpoint star_greedy (p : ascii -> bool) (prev : option ascii) (s : string)
         (k : cont) : option R :=
  match s with
  | EmptyString => k prev s
  | String c s' =>
      if p c then
        match star_greedy p (Some c) s' k with
        | Some r => Some r
        | None => k prev s
        end
      else k prev s
  end.

Fixpoint star_lazy (p : ascii -> bool) (prev : option ascii) (s : string)
         (k : cont) : option R :=
  match k prev s with
  | Some r => Some r
  | None =>
      match s with
      | EmptyString => None
      | String c s' => if p c then star_lazy p (Some c) s' k else None
      end
  end.

Definition is_word_opt (o : option ascii) : bool :=
  match o with
  | None => false
  | Some c => Py.is_word c
  end.

Definition next_char (s : string) : option ascii :=
  match s with
  | EmptyString => None
  | String c _ => Some c
  end.

Definition match_atom (ic : bool) (a : atom) (prev : option ascii)
           (s : string) (k : cont) : option R :=
  match a with
  | Lit l => lit ic l prev s k
  | Cls p =>
      match s with
      | EmptyString => None
      | String c s' => if p c then k (Some c) s' else None
      end
  | Opt c =>
      match s with
      | EmptyString => k prev s
      | String b s' =>
          if chr_eq ic c b then
            match k (Some b) s' with
            | Some r => Some r
            | None => k prev s
            end
          else k prev s
      end
  | Star true p => star_greedy p prev s k
  | Star false p => star_lazy p prev s k
  | WordB =>
      if xorb (is_word_opt prev) (is_word_opt (next_char s)) then k prev s
      else None
  end.

Fixpoint match_seq (ic : bool) (rs : list atom) (prev : option ascii)
         (s : string) (k : cont) : option R :=
  match rs with
  | [] => k prev s
  | a :: rs' =>
      match_atom ic a prev s (fun prev' s' => match_seq ic rs' prev' s' k)
  end.
End Matcher.

(** A match of [pat] that starts at the current position: the text of
    group 1 and the length of the whole match. *)
Definition match_here (pat : pattern) (prev : option ascii) (s : string)
  : option (string * nat) :=
  match_seq (icase pat) (pre pat) prev s (fun p1 s1 =>
  match_seq (icase pat) (grp pat) p1 s1 (fun p2 s2 =>
  match_seq (icase pat) (post pat) p2 s2 (fun _ s3 =>
    Some (Py.take (String.length s1 - String.length s2) s1,
          String.length s - String.length s3)))).

Fixpoint search_from (pat : pattern) (prev : option ascii) (s : string)
  : option string :=
  match match_here pat prev s with
  | Some (g, _) => Some g
  | None =>
      match s with
      | EmptyString => None
      | String c s' => search_from pat (Some c) s'
      end
  end.

(** [m = re.search(pat, s)] followed by [m.group(1) if m else None] *)
Definition search (pat : pattern) (s : string) : option string :=
  search_from pat None s.

(** [re.findall(pat, s)] for a pattern with one group that matches no
    empty text: the group of every match, the scan resuming where the
    previous match ended ([skip] characters further). *)
Fixpoint findall_from (pat : pattern) (skip : nat) (prev : option ascii)
         (s : string) : list string :=
  match skip with
  | S k =>
      match s with
      | EmptyString => []
      | String c s' => findall_from pat k (Some c) s'
      end
  | O =>
      match match_here pat prev s with
      | Some (g, n) =>
          g :: match s with
               | EmptyString => []
               | String c s' => findall_from pat (Nat.pred n) (Some c) s'
               end
      | None =>
          match s with
          | EmptyString => []
          | String c s' => findall_from pat 0 (Some c) s'
          end
      end
  end.

Definition findall (pat : pattern) (s : string) : list string :=
  findall_from pat 0 None s.

(** Character classes of the package's patterns ([dq] is the double
    quote, [sq] the single quote). *)
Definition dq : ascii := ascii_of_nat 34.
Definition sq : ascii := ascii_of_nat 39.

Definition not_space_quote (c : ascii) : bool :=      (* [^\s sq dq] *)
  negb (Py.is_space c || Ascii.eqb c sq || Ascii.eqb c dq).
Definition not_quote (c : ascii) : bool :=            (* [^ dq sq] *)
  negb (Ascii.eqb c dq || Ascii.eqb c sq).
Definition not_gt (c : ascii) : bool :=               (* [^>] *)
  negb (Ascii.eqb c ">").
Definition not_apos (c : ascii) : bool :=             (* [^ sq] *)
  negb (Ascii.eqb c sq).
Definition not_dquote_space (c : ascii) : bool :=     (* [^ dq space] *)
  negb (Ascii.eqb c dq || Ascii.eqb c " ").
Definition not_quote_space_gt (c : ascii) : bool :=   (* [^ dq sq dq space >] *)
  negb (Ascii.eqb c dq || Ascii.eqb c sq || Ascii.eqb c " " || Ascii.eqb c ">").
Definition quote (c : ascii) : bool :=                (* [dq sq] *)
  Ascii.eqb c dq || Ascii.eqb c sq.

(** [https?://] *)
Definition http_scheme : list atom := [Lit "http"; Opt "s"; Lit "://"].

End Re.

(** ** Exceptions *)

Module Exn.

Inductive exn :=
| ValueError (msg : string)
| RuntimeError (msg : string)
| Other (cls msg : string).   (* raised by a library or by the system *)

(** [str(exc)] *)
Definition message (e : exn) : string :=
  match e with
  | ValueError m | RuntimeError m | Other _ m => m
  end.

(** The result of a call that may raise. *)
Definition res (A : Type) : Type := exn + A.

Definition ok {A} (a : A) : res A := inr a.
Definition raise {A} (e : exn) : res A := inl e.

Definition rbind {A B} (r : res A) (k : A -> res B) : res B :=
  match r with
  | inl e => inl e
  | inr a => k a
  end.

End Exn.
Import Exn.

(** ** [urllib.parse]

    [urlsplit] and [urlparse] of CPython 3.12, in its current maintenance
    release, on [str] arguments.  Brackets in the network location raise
    [ValueError] when they are unbalanced, and, when both are there,
    unless the host is a bracketed IPv6 or IPvFuture address
    ([_check_bracketed_netloc] and [_check_bracketed_host], with
    [ip_address] of [ipaddress]).  [_checknetloc] never raises on the
    characters of [string]: the NFKC form of no code point below 256 holds
    one of [/?#@:]. *)

Module Url.

Record ParseResult := {
  scheme : string;
  netloc : string;
  path : string;
  params : string;
  query : string;
  fragment : string
}.

(** [_WHATWG_C0_CONTROL_OR_SPACE] *)
Definition c0_or_space (c : ascii) : bool := Py.code c <=? 32.

(** [_UNSAFE_URL_BYTES_TO_REMOVE] *)
Definition unsafe_byte (c : ascii) : bool :=
  (Py.code c =? 9) || (Py.code c =? 13) || (Py.code c =? 10).

Definition scheme_char (c : ascii) : bool :=
  Py.is_ascii_alpha c || Py.is_digit c
  || Ascii.eqb c "+" || Ascii.eqb c "-" || Ascii.eqb c ".".

Definition first_is_alpha (s : string) : bool :=
  match s with
  | EmptyString => false
  | String c _ => Py.is_ascii_alpha c
  end.

(** The scheme and the rest of [url]:
    [i = url.find(':')], [i > 0], a letter first and only scheme characters
    before the colon. *)
Definition split_scheme (url : string) : string * string :=
  let '(h, found, t) := Py.partition ":" url in
  if found && negb (String.eqb h "") && first_is_alpha url
     && Py.forallb_str scheme_char h
  then (Py.lower h, t) else ("", url).

Definition netloc_delim (c : ascii) : bool :=
  Ascii.eqb c "/" || Ascii.eqb c "?" || Ascii.eqb c "#".

(** [url[:n]] up to the first character of [p], and the rest from it *)
Fixpoint span_until (p : ascii -> bool) (s : string) : string * string :=
  match s with
  | EmptyString => (EmptyString, EmptyString)
  | String c s' =>
      if p c then (EmptyString, s)
      else let '(a, b) := span_until p s' in (String c a, b)
  end.

(** [_splitnetloc(url, 2)] when [url[:2] == '//'] *)
Definition split_netloc (url : string) : string * string :=
  match url with
  | String "/" (String "/" rest) => span_until netloc_delim rest
  | _ => ("", url)
  end.

Definition brackets_ok (nl : string) : bool :=
  Bool.eqb (Py.has_char "[" nl) (Py.has_char "]" nl).

(** [IPv4Address._parse_octet] returns *)
Definition octet_ok (o : string) : bool :=
  negb (String.eqb o "") && Py.forallb_str Py.is_digit o
  && (String.length o <=? 3)
  && (String.eqb o "0" || negb (Py.startswith o "0"))
  && (Py.digits_value o <=? 255)%N.

(** [IPv4Address(s)] returns *)
Definition ipv4_ok (s : string) : bool :=
  negb (Py.has_char "/" s) && negb (String.eqb s "")
  && (List.length (Py.split "." s) =? 4)
  && forallb octet_ok (Py.split "." s).

Definition is_hex_digit (c : ascii) : bool :=
  Py.is_digit c || Py.in_range 65 70 c || Py.in_range 97 102 c.

(** [IPv6Address._parse_hextet] returns; [int(h, 16)] rejects the empty
    text. *)
Definition hextet_ok (h : string) : bool :=
  Py.forallb_str is_hex_digit h && (String.length h <=? 4)
  && negb (String.eqb h "").

Definition is_empty (s : string) : bool := String.eqb s "".

(** The indices [i] of [range(1, len(parts) - 1)] with [parts[i]] empty *)
Definition skip_indices (parts : list string) : list nat :=
  filter (fun i => is_empty (nth i parts "x"))
         (seq 1 (List.length parts - 2)).

(** [IPv6Address._ip_int_from_string(s)] returns.  An IPv4 suffix is
    replaced by its two hextets, which are valid whatever the address. *)
Definition ipv6_int_ok (s : string) : bool :=
  let parts0 := Py.split ":" s in
  negb (String.eqb s "") && (3 <=? List.length parts0) &&
  let last := List.last parts0 "" in
  let v4 := Py.has_char "." last in
  (negb v4 || ipv4_ok last) &&
  let parts := if v4 then (removelast parts0 ++ ["0"; "0"])%list else parts0 in
  let n := List.length parts in
  (n <=? 9) &&
  match skip_indices parts with
  | [] =>
      (n =? 8) && negb (is_empty (nth 0 parts ""))
      && negb (is_empty (List.last parts ""))
      && forallb hextet_ok parts
  | [i] =>
      let hi := if is_empty (nth 0 parts "") then i - 1 else i in
      let lo := if is_empty (List.last parts "") then n - i - 2
                else n - i - 1 in
      (negb (is_empty (nth 0 parts "")) || (hi =? 0))
      && (negb (is_empty (List.last parts "")) || (lo =? 0))
      && (hi + lo <=? 7)
      && forallb hextet_ok (firstn hi parts)
      && forallb hextet_ok (skipn (n - lo) parts)
  | _ => false
  end.

(** [IPv6Address(s)] returns: no slash, and a scope id after [%] is not
    empty and has no [%]. *)
Definition ipv6_ok (s : string) : bool :=
  negb (Py.has_char "/" s) &&
  let '(addr, sep, scope) := Py.partition "%" s in
  (negb sep || (negb (String.eqb scope "") && negb (Py.has_char "%" scope)))
  && ipv6_int_ok addr.

(** [re.match(r"\Av[a-fA-F0-9]+\..+\Z", h)] *)
Definition ipvfuture_ok (h : string) : bool :=
  match h with
  | String "v" t =>
      let '(hex, rest) := span_until (fun c => negb (is_hex_digit c)) t in
      negb (String.eqb hex "") &&
      match rest with
      | String "." r =>
          negb (String.eqb r "")
          && Py.forallb_str (fun c => negb (Py.code c =? 10)) r
      | _ => false
      end
  | _ => false
  end.

(** [_check_bracketed_host]: [None] when it returns *)
Definition check_bracketed_host (hostname : string) : option exn :=
  if Py.startswith hostname "v" then
    if ipvfuture_ok hostname then None
    else Some (ValueError "IPvFuture address is invalid")
  else if ipv4_ok hostname then
    Some (ValueError "An IPv4 address cannot be in brackets")
  else if ipv6_ok hostname then None
  else Some (ValueError (Py.repr hostname ++
                         " does not appear to be an IPv4 or IPv6 address")).

(** [_check_bracketed_netloc] *)
Definition check_bracketed_netloc (nl : string) : option exn :=
  let hostname_and_port := Py.rpartition_tail "@" nl in
  let '(before_bracket, have_open_br, bracketed) :=
    Py.partition "[" hostname_and_port in
  if have_open_br then
    if negb (String.eqb before_bracket "") then
      Some (ValueError "Invalid IPv6 URL")
    else
      let '(hostname, _, port) := Py.partition "]" bracketed in
      if negb (String.eqb port "") && negb (Py.startswith port ":") then
        Some (ValueError "Invalid IPv6 URL")
      else check_bracketed_host hostname
  else
    let '(hostname, _, _) := Py.partition ":" hostname_and_port in
    check_bracketed_host hostname.

(** The checks of [urlsplit] on the network location: [None] when it
    passes them. *)
Definition netloc_error (nl : string) : option exn :=
  if negb (brackets_ok nl) then Some (ValueError "Invalid IPv6 URL")
  else if Py.has_char "[" nl then check_bracketed_netloc nl
  else None.

(** [url.split(c, 1)] when [c in url] *)
Definition cut (c : ascii) (s : string) : string * string :=
  let '(h, found, t) := Py.partition c s in
  if found then (h, t) else (s, "").

Definition urlsplit (url0 : string) : res ParseResult :=
  let url := Py.remove_chars unsafe_byte (Py.lstrip c0_or_space url0) in
  let '(sch, url) := split_scheme url in
  let '(nl, url) := split_netloc url in
  match netloc_error nl with
  | Some e => raise e
  | None =>
      let '(url, frag) := cut "#" url in
      let '(url, q) := cut "?" url in
      ok {| scheme := sch; netloc := nl; path := url; params := "";
            query := q; fragment := frag |}
  end.

Definition uses_params : list string :=
  [""; "ftp"; "hdl"; "prospero"; "http"; "imap"; "https"; "shttp"; "rtsp";
   "rtspu"; "sip"; "sips"; "mms"; "sftp"; "tel"].

Definition mem (s : string) (l : list string) : bool :=
  existsb (String.eqb s) l.

(** [_splitparams]: the parameters start at the first semicolon of the
    last path segment. *)
Definition splitparams (url : string) : string * string :=
  let '(rlast, found, rinit) := Py.partition "/" (Py.rev url) in
  let '(h, semi, t) := Py.partition ";" (Py.rev rlast) in
  if semi then
    ((if found then Py.rev rinit ++ "/" else "") ++ h, t)
  else (url, "").

Definition urlparse (url : string) : res ParseResult :=
  rbind (urlsplit url) (fun r =>
    if mem (scheme r) uses_params && Py.has_char ";" (path r) then
      let '(p, ps) := splitparams (path r) in
      ok {| scheme := scheme r; netloc := netloc r; path := p; params := ps;
            query := query r; fragment := fragment r |}
    else ok r).

End Url.

(** ** [pathlib] on a POSIX system *)

Module Path.

Record path := { root : string; parts : list string }.

Definition is_part (s : string) : bool :=
  negb (String.eqb s "") && negb (String.eqb s ".").

(** Exactly two leading slashes are kept as the root, by POSIX. *)
Definition root_of (s : string) : string :=
  match s with
  | String "/" (String "/" (String "/" _)) => "/"
  | String "/" (String "/" _) => "//"
  | String "/" _ => "/"
  | _ => ""
  end.

(** [Path(s)] *)
Definition of_string (s : string) : path :=
  {| root := root_of s; parts := filter is_part (Py.split "/" s) |}.

(** [p.name] *)
Definition name (p : path) : string := Py.last_or (parts p) "".

(** [p.parent] *)
Definition parent (p : path) : path :=
  {| root := root p; parts := List.removelast (parts p) |}.

(** [p / s] *)
Definition join (p : path) (s : string) : path :=
  let q := of_string s in
  if String.eqb (root q) "" then {| root := root p; parts := (parts p ++ parts q)%list |}
  else q.

(** [str(p)] *)
Definition to_string (p : path) : string :=
  match root p, parts p with
  | EmptyString, [] => "."
  | r, ps => r ++ String.concat "/" ps
  end.

End Path.

(** ** BeautifulSoup trees

    The parser itself ([BeautifulSoup(html, 'html.parser')]) is a library
    and stays a parameter of the environment; what the package does with
    the tree ([find], [select_one], [has_attr], indexing) is modelled on
    it.  A tag carries its attributes as the parser's dictionary in the
    order of writing. *)

Module Soup.

#[warnings="-register-all"]
Inductive node :=
| Tag (name : string) (attrs : list (string * string)) (children : list node)
| Text (s : string).

Definition soup := list node.

(** [tag[key]] when [tag.has_attr(key)] *)
Fixpoint attr (attrs : list (string * string)) (key : string) : option string :=
  match attrs with
  | [] => None
  | (k, v) :: rest => if String.eqb k key then Some v else attr rest key
  end.

(** The first tag, in document order, that satisfies [p]; the result is
    the tag's attribute dictionary. *)
Fixpoint find_node (p : string -> list (string * string) -> bool) (n : node)
  : option (list (string * string)) :=
  match n with
  | Text _ => None
  | Tag nm at_ ch =>
      if p nm at_ then Some at_
      else (fix go (l : list node) :=
              match l with
              | [] => None
              | x :: l' =>
                  match find_node p x with
                  | Some t => Some t
                  | None => go l'
                  end
              end) ch
  end.

Fixpoint find_first (p : string -> list (string * string) -> bool) (s : soup)
  : option (list (string * string)) :=
  match s with
  | [] => None
  | n :: s' =>
      match find_node p n with
      | Some t => Some t
      | None => find_first p s'
      end
  end.

(** [soup.find(name, {key: value})] *)
Definition find (s : soup) (name : string) (filter : option (string * string))
  : option (list (string * string)) :=
  find_first (fun nm at_ =>
    String.eqb nm name &&
    match filter with
    | None => true
    | Some (k, v) =>
        match attr at_ k with
        | Some v' => String.eqb v' v
        | None => false
        end
    end) s.

(** The whitespace-separated words of a [class] attribute. *)
Fixpoint words_aux (cur : string) (s : string) : list string :=
  match s with
  | EmptyString => if String.eqb cur "" then [] else [Py.rev cur]
  | String c s' =>
      if Py.is_space c then
        ((if String.eqb cur "" then [] else [Py.rev cur]) ++ words_aux "" s')%list
      else words_aux (String c cur) s'
  end.

Definition has_class (at_ : list (string * string)) (cls : string) : bool :=
  match attr at_ "class" with
  | None => false
  | Some v => Url.mem cls (words_aux "" v)
  end.

(** [soup.select_one('.video-player .responsive-player iframe')]: the first
    [iframe] below an element of class [responsive-player] that is itself
    below an element of class [video-player].  [vp] says that an ancestor
    has the outer class, [rp] that an ancestor has the inner class under
    such an ancestor. *)
Fixpoint select_player_iframe_node (vp rp : bool) (n : node)
  : option (list (string * string)) :=
  match n with
  | Text _ => None
  | Tag nm at_ ch =>
      if String.eqb nm "iframe" && rp then Some at_
      else
        let rp' := rp || (vp && has_class at_ "responsive-player") in
        let vp' := vp || has_class at_ "video-player" in
        (fix go (l : list node) :=
           match l with
           | [] => None
           | x :: l' =>
               match select_player_iframe_node vp' rp' x with
               | Some t => Some t
               | None => go l'
               end
           end) ch
  end.

Fixpoint select_player_iframe (s : soup) : option (list (string * string)) :=
  match s with
  | [] => None
  | n :: s' =>
      match select_player_iframe_node false false n with
      | Some t => Some t
      | None => select_player_iframe s'
      end
  end.

End Soup.

(** ** Effects

    A run leaves a trace of what it did to the outside: HTTP requests,
    subprocesses, directories created, files opened for writing and the
    chunks written, and lines printed.  What the outside answers is the
    environment [Env]; the libraries the package only calls
    ([BeautifulSoup], [urljoin]) are part of it. *)

Module Eff.

Definition headers := list (string * string).

Inductive event :=
| Get (url : string) (hs : headers) (timeout : nat)   (* requests.get *)
| Run (cmd : list string)                             (* subprocess.run *)
| Mkdir (p : Path.path)                               (* mkdir(parents, exist_ok) *)
| OpenWrite (p : Path.path)                           (* open(p, 'wb') *)
| Write (p : Path.path) (chunk : string)              (* fh.write *)
| Print (to_stderr : bool) (line : string).           (* print *)

Definition trace := list event.

(** The answer to a GET: what [raise_for_status] does, the decoded text,
    and the chunks [iter_content] yields with the error that may end them. *)
Record response := {
  status_error : option exn;
  text : string;
  chunks : list string;
  stream_error : option exn
}.

Record Env := {
  requests_get : string -> headers -> res response;
  subprocess_run : list string -> res Z;
  subprocess_stderr : list string -> string;
  shutil_which : string -> option string;
  os_getcwd : string;
  path_exists : Path.path -> bool;
  mkdir_error : Path.path -> option exn;
  open_error : Path.path -> option exn;
  random_randrange : Z -> Z -> Z;
  import_error : string -> option exn;
  BeautifulSoup : string -> Soup.soup;
  urljoin : string -> string -> string
}.

(** A computation: from the trace so far to a result and the new trace. *)
Definition M (A : Type) : Type := trace -> res A * trace.

Definition ret {A} (a : A) : M A := fun t => (inr a, t).
Definition throw {A} (e : exn) : M A := fun t => (inl e, t).
Definition bind {A B} (m : M A) (k : A -> M B) : M B :=
  fun t =>
    match m t with
    | (inl e, t') => (inl e, t')
    | (inr a, t') => k a t'
    end.
Definition emit (e : event) : M unit := fun t => (inr tt, (t ++ [e])%list).
Definition lift {A} (r : res A) : M A := fun t => (r, t).

(** [try: m except Exception as exc: h exc] *)
Definition catch {A} (m : M A) (h : exn -> M A) : M A :=
  fun t =>
    match m t with
    | (inl e, t') => h e t'
    | (inr a, t') => (inr a, t')
    end.

Definition fail_if (o : option exn) : M unit :=
  match o with
  | Some e => throw e
  | None => ret tt
  end.

Definition run {A} (m : M A) : res A * trace := m [].

End Eff.
Import Eff.

Notation "x <- m ;; k" := (Eff.bind m (fun x => k))
  (at level 61, m at next level, right associativity).
Notation "m ;;; k" := (Eff.bind m (fun _ => k))
  (at level 61, right associativity).

(** [requests.get(url, headers=hs, timeout=n)], [raise_for_status()] and
    [resp.text]: the body of every module's [fetch_page]. *)
Definition http_get_text (w : Env) (url : string) (hs : headers) (n : nat)
  : M string :=
  emit (Get url hs n) ;;;
  r <- lift (requests_get w url hs) ;;
  fail_if (status_error r) ;;;
  ret (text r).

(** [proc = subprocess.run(cmd)] and [proc.returncode] *)
Definition subprocess_returncode (w : Env) (cmd : list string) : M Z :=
  emit (Run cmd) ;;;
  lift (subprocess_run w cmd).

(** [p.mkdir(parents=True, exist_ok=True)] *)
Definition mkdir_p (w : Env) (p : Path.path) : M unit :=
  emit (Mkdir p) ;;;
  fail_if (mkdir_error w p).

Fixpoint write_chunks (p : Path.path) (cs : list string) : M unit :=
  match cs with
  | [] => ret tt
  | c :: cs' =>
      (if String.eqb c "" then ret tt else emit (Write p c)) ;;;
      write_chunks p cs'
  end.

(** The streaming download of thothub and thotfans:
    [with requests.get(url, headers=hs, stream=True, timeout=30) as r:]
    [raise_for_status], then [open(out_file, 'wb')] and one [write] per
    non-empty chunk. *)
Definition stream_to_file (w : Env) (url : string) (hs : headers)
           (out_file : Path.path) : M unit :=
  emit (Get url hs 30) ;;;
  r <- lift (requests_get w url hs) ;;
  fail_if (status_error r) ;;;
  emit (OpenWrite out_file) ;;;
  fail_if (open_error w out_file) ;;;
  write_chunks out_file (chunks r) ;;;
  fail_if (stream_error r).

Definition crlf : string := String (ascii_of_nat 13) (String (ascii_of_nat 10) "").
Definition q : string := String Re.dq "".

(** [str(n)] for a non-negative integer *)
Definition decimal (n : Z) : string :=
  DecimalString.NilZero.string_of_uint (N.to_uint (Z.to_N n)).

(** The value of an [Optional[str]] known to be a string. *)
Definition str_of (o : option string) : string :=
  match o with
  | Some s => s
  | None => ""
  end.

(** The textual scan of cumslutx, simpthots, eroleaked and amateurdoporn:
    [https?://], one or more characters that are neither white space nor
    a quote (greedy), and the extension; the whole pattern is group 1. *)
Definition bare_url_pattern (ext : string) : Re.pattern :=
  {| Re.icase := false;
     Re.pre := [];
     Re.grp := (Re.http_scheme ++ Re.Plus true Re.not_space_quote ++ [Re.Lit ext])%list;
     Re.post := [] |}.

(** ** [super_dl/sites/influencersgonewild.py] *)

Module influencersgonewild.

Definition USER_AGENT : string :=
  "Mozilla/5.0 (Windows NT 10.0; Win64; x64) " ++
  "AppleWebKit/537.36 (KHTML, like Gecko) " ++
  "Chrome/91.0.4472.124 Safari/537.36".
Definition REFERER : string := "https://influencersgonewild.com/".

Definition extract_mp4_url (w : Env) (html : string) : option string :=
  let soup := BeautifulSoup w html in
  match Soup.find soup "source" (Some ("type", "video/mp4")) with
  | Some source_tag =>
      match Soup.attr source_tag "src" with
      | Some src => Some src
      | None => None
      end
  | None => None
  end.

Definition download (w : Env) (mp4_url out_path : option string) : M Z :=
  if negb (Py.truthy mp4_url) then throw (ValueError "mp4_url is empty or None")
  else
    let cmd := ["wget"; "--user-agent"; USER_AGENT; "--referer"; REFERER] in
    cmd <- (if Py.truthy out_path then
              let out_dir := Path.parent (Path.of_string (str_of out_path)) in
              (if negb (path_exists w out_dir) then mkdir_p w out_dir else ret tt) ;;;
              ret (cmd ++ ["-O"; str_of out_path])%list
            else ret cmd) ;;
    let cmd := (cmd ++ [str_of mp4_url])%list in
    subprocess_returncode w cmd.

Definition fetch_page (w : Env) (url : string) : M string :=
  http_get_text w url [("User-Agent", USER_AGENT); ("Referer", REFERER)] 15.

End influencersgonewild.

(** ** [super_dl/sites/cumslutx.py] *)

Module cumslutx.

Definition USER_AGENT : string :=
  "Mozilla/5.0 (Windows NT 10.0; Win64; x64) " ++
  "AppleWebKit/537.36 (KHTML, like Gecko) " ++
  "Chrome/141.0.0.0 Safari/537.36".

Definition fetch_page (w : Env) (url : string) : M string :=
  http_get_text w url [("User-Agent", USER_AGENT); ("Referer", url)] 15.

(** The meta tag is taken only when its content ends in [.mp4]. *)
Definition meta_url (soup : Soup.soup) : option string :=
  match Soup.find soup "meta" (Some ("itemprop", "contentURL")) with
  | Some meta =>
      match Soup.attr meta "content" with
      | Some url => if Py.endswith url ".mp4" then Some url else None
      | None => None
      end
  | None => None
  end.

Definition source_url (soup : Soup.soup) : option string :=
  match Soup.find soup "source" (Some ("type", "video/mp4")) with
  | Some source => Soup.attr source "src"
  | None => None
  end.

Definition extract_mp4_url (w : Env) (html : string) : option string :=
  let soup := BeautifulSoup w html in
  match meta_url soup with
  | Some url => Some url
  | None =>
      match source_url soup with
      | Some src => Some src
      | None => Re.search (bare_url_pattern ".mp4") html
      end
  end.

Definition derive_filename_from_url (url : string) : res string :=
  rbind (Url.urlparse url) (fun parsed =>
    let parts := Py.nonempty (Py.split "/" (Url.path parsed)) in
    let name := Py.last_or parts "video" in
    let name := Py.sanitize name in
    ok (if negb (Py.endswith (Py.lower name) ".mp4") then name ++ ".mp4" else name)).

Definition download (w : Env) (mp4_url out_path : option string) : M Z :=
  if negb (Py.truthy mp4_url) then throw (ValueError "mp4_url required")
  else
    out_path <- match out_path with
                | None => lift (derive_filename_from_url (str_of mp4_url))
                | Some p => ret p
                end ;;
    let cmd := ["curl"; "-L"; "--fail"; "--output"; out_path;
                "--user-agent"; USER_AGENT;
                "--referer"; "https://cumslutx.com/"; str_of mp4_url] in
    subprocess_returncode w cmd.

Definition full_download_from_page (w : Env) (url : string)
           (out_path : option string) : M Z :=
  html <- fetch_page w url ;;
  let mp4 := extract_mp4_url w html in
  if negb (Py.truthy mp4) then throw (RuntimeError "No .mp4 URL found on page")
  else
    out_path <- match out_path with
                | None => lift (derive_filename_from_url url)
                | Some p => ret p
                end ;;
    download w mp4 (Some out_path).

End cumslutx.

(** ** [super_dl/sites/simpthots.py] *)

Module simpthots.

Definition USER_AGENT : string := cumslutx.USER_AGENT.
Definition REFERER : string := "https://simpthots.com/".

Definition fetch_page (w : Env) (url : string) : M string :=
  http_get_text w url [("User-Agent", USER_AGENT); ("Referer", url)] 15.

Definition og_content (soup : Soup.soup) (property : string) : option string :=
  match Soup.find soup "meta" (Some ("property", property)) with
  | Some og => Soup.attr og "content"
  | None => None
  end.

Definition extract_mp4_url (w : Env) (html : string) : option string :=
  let soup := BeautifulSoup w html in
  match og_content soup "og:video" with
  | Some c => Some c
  | None =>
      match og_content soup "og:video:secure_url" with
      | Some c => Some c
      | None => Re.search (bare_url_pattern ".mp4") html
      end
  end.

Definition derive_filename_from_url (url : string) : res string :=
  rbind (Url.urlparse url) (fun parsed =>
    let parts := Py.nonempty (Py.split "/" (Url.path parsed)) in
    let name := Py.last_or parts "video" in
    let name := Py.sanitize name in
    ok (if negb (Py.endswith (Py.lower name) ".mp4") then name ++ ".mp4" else name)).

Definition download (w : Env) (mp4_url out_path : option string) : M Z :=
  if negb (Py.truthy mp4_url) then throw (ValueError "mp4_url required")
  else
    out_path <- match out_path with
                | None => lift (derive_filename_from_url (str_of mp4_url))
                | Some p => ret p
                end ;;
    let cmd := ["curl"; "-L"; "--fail"; "--output"; out_path;
                "--user-agent"; USER_AGENT;
                "--referer"; REFERER; str_of mp4_url] in
    subprocess_returncode w cmd.

Definition full_download_from_page (w : Env) (url : string)
           (out_path : option string) : M Z :=
  html <- fetch_page w url ;;
  let mp4 := extract_mp4_url w html in
  if negb (Py.truthy mp4) then throw (RuntimeError "No .mp4 URL found on page")
  else
    out_path <- match out_path with
                | None => lift (derive_filename_from_url url)
                | Some p => ret p
                end ;;
    download w mp4 (Some out_path).

End simpthots.

(** ** [super_dl/sites/eroleaked.py] *)

Module eroleaked.

Definition USER_AGENT : string := cumslutx.USER_AGENT.
Definition REFERER : string := "https://eroleaked.com/".

Definition fetch_page (w : Env) (url : string) : M string :=
  http_get_text w url [("User-Agent", USER_AGENT); ("Referer", REFERER)] 15.

Definition extract_iframe_src (w : Env) (html : string) : option string :=
  let soup := BeautifulSoup w html in
  match match Soup.select_player_iframe soup with
        | Some iframe => Soup.attr iframe "src"
        | None => None
        end
  with
  | Some src => Some src
  | None =>
      match Soup.find soup "iframe" None with
      | Some iframe => Soup.attr iframe "src"
      | None => None
      end
  end.

Definition extract_m3u8_from_html (html : string) : option string :=
  match Re.findall (bare_url_pattern ".m3u8") html with
  | first :: _ => Some first
  | [] => None
  end.

Definition derive_filename_from_url (url : string) : string :=
  let path := Py.rstrip Py.is_slash url in
  let name := Path.name (Path.of_string path) in
  let name :=
    if String.eqb name "" then
      Py.last_or (Py.nonempty (Py.split "/" path)) "video"
    else name in
  Py.sanitize name.

Definition ffmpeg_headers : string :=
  "sec-ch-ua-platform: " ++ q ++ "Windows" ++ q ++ crlf ++
  "Referer: " ++ REFERER ++ crlf ++
  "User-Agent: " ++ USER_AGENT ++ crlf ++
  "sec-ch-ua: " ++ q ++ "Google Chrome" ++ q ++ ";v=" ++ q ++ "141" ++ q ++ ", "
    ++ q ++ "Not?A_Brand" ++ q ++ ";v=" ++ q ++ "8" ++ q ++ ", "
    ++ q ++ "Chromium" ++ q ++ ";v=" ++ q ++ "141" ++ q ++ crlf ++
  "sec-ch-ua-mobile: ?0" ++ crlf.

Definition download (w : Env) (m3u8_url out_path : option string) : M Z :=
  if negb (Py.truthy m3u8_url) then throw (ValueError "m3u8_url is required")
  else
    let out_path :=
      match out_path with
      | None => derive_filename_from_url REFERER ++ ".mp4"
      | Some p => p
      end in
    let cmd := ["ffmpeg"; "-headers"; ffmpeg_headers; "-i"; str_of m3u8_url;
                "-c"; "copy"; out_path] in
    subprocess_returncode w cmd.

(** The absolute form the module gives to an iframe address. *)
Definition resolve_iframe_src (iframe_src : string) : string :=
  if Py.startswith iframe_src "//" then "https:" ++ iframe_src
  else if Py.startswith iframe_src "/" then "https://eroleaked.com" ++ iframe_src
  else iframe_src.

Definition full_download_from_page (w : Env) (url : string)
           (out_path : option string) : M Z :=
  page_html <- fetch_page w url ;;
  let iframe_src := extract_iframe_src w page_html in
  if negb (Py.truthy iframe_src) then throw (RuntimeError "No iframe found on page")
  else
    let iframe_src := resolve_iframe_src (str_of iframe_src) in
    iframe_html <- fetch_page w iframe_src ;;
    let m3u8 := extract_m3u8_from_html iframe_html in
    if negb (Py.truthy m3u8) then throw (RuntimeError "No .m3u8 found in iframe page")
    else
      let out_path :=
        match out_path with
        | None => derive_filename_from_url url ++ ".mp4"
        | Some p => p
        end in
      download w m3u8 (Some out_path).

End eroleaked.

(** ** [super_dl/sites/amateurdoporn.py] *)

Module amateurdoporn.

Definition USER_AGENT : string := cumslutx.USER_AGENT.
Definition REFERER : string := "https://amateurdoporn.com/".

Definition fetch_page (w : Env) (url : string) : M string :=
  http_get_text w url [("User-Agent", USER_AGENT); ("Referer", REFERER)] 15.

Definition extract_iframe_src (w : Env) (html : string) : option string :=
  let soup := BeautifulSoup w html in
  match Soup.find soup "iframe" None with
  | Some iframe => Soup.attr iframe "src"
  | None => None
  end.

Definition extract_m3u8_from_text (text : string) : option string :=
  Re.search (bare_url_pattern ".m3u8") text.

Definition derive_filename_from_url (url : string) : string :=
  let path := Py.rstrip Py.is_slash url in
  let name := Path.name (Path.of_string path) in
  let name :=
    if String.eqb name "" then
      Py.last_or (Py.nonempty (Py.split "/" path)) "video"
    else name in
  Py.sanitize name.

Definition ffmpeg_headers : string :=
  "sec-ch-ua-platform: " ++ q ++ "Windows" ++ q ++ crlf ++
  "Referer: " ++ REFERER ++ crlf ++
  "User-Agent: " ++ USER_AGENT ++ crlf.

Definition download (w : Env) (m3u8_url out_path : option string) : M Z :=
  if negb (Py.truthy m3u8_url) then throw (ValueError "m3u8_url is required")
  else
    let out_path :=
      match out_path with
      | None => derive_filename_from_url (str_of m3u8_url) ++ ".mp4"
      | Some p => p
      end in
    let cmd := ["ffmpeg"; "-headers"; ffmpeg_headers; "-i"; str_of m3u8_url;
                "-c"; "copy"; out_path] in
    subprocess_returncode w cmd.

Definition full_download_from_page (w : Env) (url : string)
           (out_path : option string) : M Z :=
  page_html <- fetch_page w url ;;
  (* 1) the playlist directly on the page *)
  let m3u8 := extract_m3u8_from_text page_html in
  if Py.truthy m3u8 then download w m3u8 out_path
  else
    (* 2) the iframe and the playlist inside it *)
    let iframe_src := extract_iframe_src w page_html in
    if Py.truthy iframe_src then
      let iframe_src := urljoin w url (str_of iframe_src) in
      iframe_html <- fetch_page w iframe_src ;;
      let m3u8 := extract_m3u8_from_text iframe_html in
      if Py.truthy m3u8 then download w m3u8 out_path
      else throw (RuntimeError "No .m3u8 URL found on page or iframe")
    else
      (* 3) nothing found *)
      throw (RuntimeError "No .m3u8 URL found on page or iframe").

End amateurdoporn.

(** The cache-busting parameter of the streaming downloaders:
    [random.randrange(10**12, 10**14)] appended as [rnd]. *)
Definition append_rnd (url : string) (rnd : Z) : string :=
  let sep := if Py.has_char "?" url then "&" else "?" in
  url ++ sep ++ "rnd=" ++ decimal rnd.

(** ** [super_dl/sites/thothub.py] *)

Module thothub.

Definition USER_AGENT : string :=
  "Mozilla/5.0 (Windows NT 10.0; Win64; x64) " ++
  "AppleWebKit/537.36 (KHTML, like Gecko) " ++
  "Chrome/114.0.0.0 Safari/537.36".

Definition fetch_page (w : Env) (url : string) : M string :=
  http_get_text w url [("User-Agent", USER_AGENT)] 15.

(** [video_url:\s*'function/0/(https?://[^']+\.mp4)\b] *)
Definition video_url_pattern : Re.pattern :=
  {| Re.icase := false;
     Re.pre := [Re.Lit "video_url:"; Re.Star true Py.is_space; Re.Lit "'function/0/"];
     Re.grp := (Re.http_scheme ++ Re.Plus true Re.not_apos ++ [Re.Lit ".mp4"])%list;
     Re.post := [Re.WordB] |}.

(** The fallback: [https?://], one or more characters other than the
    double quote and the space (lazy), [.mp4]. *)
Definition any_mp4_pattern : Re.pattern :=
  {| Re.icase := false;
     Re.pre := [];
     Re.grp := (Re.http_scheme ++ Re.Plus false Re.not_dquote_space ++ [Re.Lit ".mp4"])%list;
     Re.post := [] |}.

Definition extract_mp4_url (html : string) : option string :=
  if String.eqb html "" then None
  else
    match Re.search video_url_pattern html with
    | Some u => Some u
    | None =>
        match Re.search any_mp4_pattern html with
        | Some u => Some u
        | None => None
        end
    end.

Definition _append_random_rnd (w : Env) (url : string) : string :=
  let rnd := random_randrange w (10 ^ 12)%Z (10 ^ 14)%Z in
  append_rnd url rnd.

Definition _filename_from_url (url : string) : res string :=
  rbind (Url.urlparse url) (fun parsed =>
    let path := Py.rstrip Py.is_slash (Url.path parsed) in
    let name := Py.basename path in
    ok name).

Definition request_headers : headers :=
  [("Accept", "text/html,application/xhtml+xml,application/xml;q=0.9,image/avif,image/webp,image/apng,*/*;q=0.8");
   ("Accept-Language", "en-US,en;q=0.9");
   ("Cache-Control", "no-cache");
   ("Connection", "keep-alive");
   ("Upgrade-Insecure-Requests", "1");
   ("User-Agent", USER_AGENT);
   ("DNT", "1")].

Definition download (w : Env) (mp4_url out_path : option string) : M Z :=
  if negb (Py.truthy mp4_url) then throw (ValueError "mp4_url is empty or None")
  else
    let url_with_rnd := _append_random_rnd w (str_of mp4_url) in
    out_file <- (if Py.truthy out_path then ret (Path.of_string (str_of out_path))
                 else
                   filename <- lift (_filename_from_url (str_of mp4_url)) ;;
                   ret (Path.join (Path.of_string (os_getcwd w)) filename)) ;;
    mkdir_p w (Path.parent out_file) ;;;
    stream_to_file w url_with_rnd request_headers out_file ;;;
    ret 0%Z.

End thothub.

(** ** [super_dl/sites/thotfans.py] *)

Module thotfans.

Definition USER_AGENT : string := thothub.USER_AGENT.

Definition fetch_page (w : Env) (url : string) : M string :=
  http_get_text w url [("User-Agent", USER_AGENT)] 15.

(** [<TAG[^>]+ATTR=[quote](https?://[^quotes]+?\.mp4)[quote]], ignoring
    case: the pattern of the [source] tag and of the anchor. *)
Definition tag_attr_pattern (tag attr_eq : string) : Re.pattern :=
  {| Re.icase := true;
     Re.pre := ([Re.Lit tag] ++ Re.Plus true Re.not_gt
                ++ [Re.Lit attr_eq; Re.Cls Re.quote])%list;
     Re.grp := (Re.http_scheme ++ Re.Plus false Re.not_quote ++ [Re.Lit ".mp4"])%list;
     Re.post := [Re.Cls Re.quote] |}.

Definition source_pattern : Re.pattern := tag_attr_pattern "<source" "src=".
Definition anchor_pattern : Re.pattern := tag_attr_pattern "<a" "href=".

(** The fallback: [https?://], one or more characters other than the
    quotes, the space and [>] (lazy), [.mp4]. *)
Definition any_mp4_pattern : Re.pattern :=
  {| Re.icase := false;
     Re.pre := [];
     Re.grp := (Re.http_scheme ++ Re.Plus false Re.not_quote_space_gt ++ [Re.Lit ".mp4"])%list;
     Re.post := [] |}.

Definition extract_mp4_url (html : string) : option string :=
  if String.eqb html "" then None
  else
    match Re.search source_pattern html with
    | Some u => Some u
    | None =>
        match Re.search anchor_pattern html with
        | Some u => Some u
        | None =>
            match Re.search any_mp4_pattern html with
            | Some u => Some u
            | None => None
            end
        end
    end.

Definition _append_random_rnd (w : Env) (url : string) : string :=
  let rnd := random_randrange w (10 ^ 12)%Z (10 ^ 14)%Z in
  append_rnd url rnd.

Definition _filename_from_url (url : string) : res string :=
  rbind (Url.urlparse url) (fun parsed =>
    let path := Py.rstrip Py.is_slash (Url.path parsed) in
    let name := Py.basename path in
    ok name).

Definition request_headers : headers :=
  [("Accept", "text/html,application/xhtml+xml,application/xml;q=0.9,*/*;q=0.8");
   ("Accept-Language", "en-US,en;q=0.9");
   ("Cache-Control", "no-cache");
   ("Connection", "keep-alive");
   ("Upgrade-Insecure-Requests", "1");
   ("User-Agent", USER_AGENT);
   ("DNT", "1")].

Definition download (w : Env) (mp4_url out_path : option string) : M Z :=
  if negb (Py.truthy mp4_url) then throw (ValueError "mp4_url is empty or None")
  else
    let url_with_rnd := _append_random_rnd w (str_of mp4_url) in
    out_file <- (if Py.truthy out_path then ret (Path.of_string (str_of out_path))
                 else
                   filename <- lift (_filename_from_url (str_of mp4_url)) ;;
                   ret (Path.join (Path.of_string (os_getcwd w)) filename)) ;;
    mkdir_p w (Path.parent out_file) ;;;
    stream_to_file w url_with_rnd request_headers out_file ;;;
    ret 0%Z.

End thotfans.

(** ** [super_dl/sites/fapnut.py] *)

Module fapnut.

Definition USER_AGENT : string := thothub.USER_AGENT.

Definition fetch_page (w : Env) (url : string) : M string :=
  http_get_text w url [("User-Agent", USER_AGENT); ("Referer", "https://fapnut.net/")] 15.

(** [<iframe[^>]+src=[quote]([^quotes]+)[quote]], ignoring case *)
Definition iframe_pattern : Re.pattern :=
  {| Re.icase := true;
     Re.pre := ([Re.Lit "<iframe"] ++ Re.Plus true Re.not_gt
                ++ [Re.Lit "src="; Re.Cls Re.quote])%list;
     Re.grp := Re.Plus true Re.not_quote;
     Re.post := [Re.Cls Re.quote] |}.

Definition extract_iframe_src (html : string) : option string :=
  if String.eqb html "" then None
  else
    match Re.search iframe_pattern html with
    | Some u => Some u
    | None => None
    end.

(** [src=], a quote, the group ([https?://], lazily one or more non-quote
    characters, [.m3u8], greedily any non-quote characters), a quote;
    ignoring case. *)
Definition src_m3u8_pattern : Re.pattern :=
  {| Re.icase := true;
     Re.pre := [Re.Lit "src="; Re.Cls Re.quote];
     Re.grp := (Re.http_scheme ++ Re.Plus false Re.not_quote
                ++ [Re.Lit ".m3u8"; Re.Star true Re.not_quote])%list;
     Re.post := [Re.Cls Re.quote] |}.

(** The same group with a word boundary after [.m3u8] and nothing around
    it; ignoring case. *)
Definition any_m3u8_pattern : Re.pattern :=
  {| Re.icase := true;
     Re.pre := [];
     Re.grp := (Re.http_scheme ++ Re.Plus false Re.not_quote
                ++ [Re.Lit ".m3u8"; Re.WordB; Re.Star true Re.not_quote])%list;
     Re.post := [] |}.

Definition extract_m3u8_from_html (html : string) : option string :=
  if String.eqb html "" then None
  else
    match Re.search src_m3u8_pattern html with
    | Some u => Some u
    | None =>
        match Re.search any_m3u8_pattern html with
        | Some u => Some u
        | None => None
        end
    end.

Definition _filename_from_page_url (page_url : string) : res string :=
  rbind (Url.urlparse page_url) (fun parsed =>
    let path := Py.strip Py.is_slash (Url.path parsed) in
    if String.eqb path "" then ok "fapnut.mp4"
    else
      let name := Py.last_or (Py.split "/" path) "" in
      let name := if String.eqb name "" then "fapnut" else name in
      ok (name ++ ".mp4")).

Definition download (w : Env) (m3u8_url out_path page_url : option string) : M Z :=
  if negb (Py.truthy m3u8_url) then throw (ValueError "m3u8_url is empty or None")
  else
    match shutil_which w "ffmpeg" with
    | None => throw (RuntimeError "ffmpeg is required to download m3u8 streams")
    | Some ffmpeg_path =>
        if String.eqb ffmpeg_path "" then
          throw (RuntimeError "ffmpeg is required to download m3u8 streams")
        else
        out_file <-
          (if Py.truthy out_path then ret (Path.of_string (str_of out_path))
           else if Py.truthy page_url then
             n <- lift (_filename_from_page_url (str_of page_url)) ;;
             ret (Path.join (Path.of_string (os_getcwd w)) n)
           else
             parsed <- lift (Url.urlparse (str_of m3u8_url)) ;;
             let name := Path.name (Path.of_string (Url.path parsed)) in
             let name := if String.eqb name "" then "fapnut" else name in
             ret (Path.join (Path.of_string (os_getcwd w)) (name ++ ".mp4"))) ;;
        mkdir_p w (Path.parent out_file) ;;;
        let cmd := [ffmpeg_path; "-y"; "-hide_banner"; "-loglevel"; "error";
                    "-headers"; "Referer: https://fapnut.net/" ++ crlf;
                    "-i"; str_of m3u8_url; "-c"; "copy"; Path.to_string out_file] in
        returncode <- subprocess_returncode w cmd ;;
        if negb (returncode =? 0)%Z then
          throw (RuntimeError ("ffmpeg failed: " ++ subprocess_stderr w cmd))
        else ret 0%Z
    end.

End fapnut.

(** ** [super_dl/main.py] *)

Module cli.

Record site_info := { module : string; hosts : list string }.

(** The registry is a dictionary literal; its iteration order is the order
    of writing, which is what [infer_site_from_url] relies on. *)
Definition _site_registry : list (string * site_info) :=
  [("influencersgonewild",
    {| module := "super_dl.sites.influencersgonewild";
       hosts := ["influencersgonewild.com"] |});
   ("eroleaked",
    {| module := "super_dl.sites.eroleaked";
       hosts := ["eroleaked.com"] |});
   ("amateurdoporn",
    {| module := "super_dl.sites.amateurdoporn";
       hosts := ["amateurdoporn.com"] |});
   ("cumslutx",
    {| module := "super_dl.sites.cumslutx";
       hosts := ["cumslutx.com"; "girlxnude.com"; "fapplay.com"] |});
   ("simpthots",
    {| module := "super_dl.sites.simpthots";
       hosts := ["simpthots.com"] |});
   ("thothub",
    {| module := "super_dl.sites.thothub";
       hosts := ["thothub.to"; "thothub.org"] |});
   ("thotfans",
    {| module := "super_dl.sites.thotfans";
       hosts := ["thotfans.com"] |})].

(** [registry.get(key)] *)
Fixpoint get (registry : list (string * site_info)) (key : string)
  : option site_info :=
  match registry with
  | [] => None
  | (k, info) :: rest => if String.eqb k key then Some info else get rest key
  end.

(** The host the patterns are matched against: the lowered network
    location without what precedes the first [@] and without a leading
    [www.]. *)
Definition normalize_netloc (netloc : string) : string :=
  let netloc := Py.lower netloc in
  let netloc := if Py.has_char "@" netloc then Py.split1_last "@" netloc else netloc in
  if Py.startswith netloc "www." then Py.drop 4 netloc else netloc.

(** [for host in hosts: if host and host in netloc: return key] *)
Definition host_matches (netloc : string) (hs : list string) : bool :=
  existsb (fun host => negb (String.eqb host "") && Py.contains netloc host) hs.

(** [for key, info in registry.items(): ...; return None] *)
Fixpoint first_match (registry : list (string * site_info)) (netloc : string)
  : option string :=
  match registry with
  | [] => None
  | (key, info) :: rest =>
      if host_matches netloc (hosts info) then Some key
      else first_match rest netloc
  end.

Definition infer_site_from_url (url : string) : res (option string) :=
  if String.eqb url "" then ok None
  else
    rbind (Url.urlparse url) (fun parsed =>
      let netloc := normalize_netloc (Url.netloc parsed) in
      ok (first_match _site_registry netloc)).

(** A site module as [main] sees it: the attributes it probes with
    [hasattr], each present or not. *)
Record PyModule := {
  m_full_download_from_page : option (string -> option string -> M Z);
  m_fetch_page : option (string -> M string);
  m_extract_mp4_url : option (string -> option string);
  m_extract_iframe_src : option (string -> option string);
  m_extract_m3u8_from_html : option (string -> option string);
  m_download : option (option string -> option string -> M Z)
}.

(** The attributes of each module of [super_dl/sites]. *)
Definition module_influencersgonewild (w : Env) : PyModule :=
  {| m_full_download_from_page := None;
     m_fetch_page := Some (influencersgonewild.fetch_page w);
     m_extract_mp4_url := Some (influencersgonewild.extract_mp4_url w);
     m_extract_iframe_src := None;
     m_extract_m3u8_from_html := None;
     m_download := Some (influencersgonewild.download w) |}.

Definition module_eroleaked (w : Env) : PyModule :=
  {| m_full_download_from_page := Some (eroleaked.full_download_from_page w);
     m_fetch_page := Some (eroleaked.fetch_page w);
     m_extract_mp4_url := None;
     m_extract_iframe_src := Some (eroleaked.extract_iframe_src w);
     m_extract_m3u8_from_html := Some eroleaked.extract_m3u8_from_html;
     m_download := Some (eroleaked.download w) |}.

Definition module_amateurdoporn (w : Env) : PyModule :=
  {| m_full_download_from_page := Some (amateurdoporn.full_download_from_page w);
     m_fetch_page := Some (amateurdoporn.fetch_page w);
     m_extract_mp4_url := None;
     m_extract_iframe_src := Some (amateurdoporn.extract_iframe_src w);
     m_extract_m3u8_from_html := None;
     m_download := Some (amateurdoporn.download w) |}.

Definition module_cumslutx (w : Env) : PyModule :=
  {| m_full_download_from_page := Some (cumslutx.full_download_from_page w);
     m_fetch_page := Some (cumslutx.fetch_page w);
     m_extract_mp4_url := Some (cumslutx.extract_mp4_url w);
     m_extract_iframe_src := None;
     m_extract_m3u8_from_html := None;
     m_download := Some (cumslutx.download w) |}.

Definition module_simpthots (w : Env) : PyModule :=
  {| m_full_download_from_page := Some (simpthots.full_download_from_page w);
     m_fetch_page := Some (simpthots.fetch_page w);
     m_extract_mp4_url := Some (simpthots.extract_mp4_url w);
     m_extract_iframe_src := None;
     m_extract_m3u8_from_html := None;
     m_download := Some (simpthots.download w) |}.

Definition module_thothub (w : Env) : PyModule :=
  {| m_full_download_from_page := None;
     m_fetch_page := Some (thothub.fetch_page w);
     m_extract_mp4_url := Some thothub.extract_mp4_url;
     m_extract_iframe_src := None;
     m_extract_m3u8_from_html := None;
     m_download := Some (thothub.download w) |}.

Definition module_thotfans (w : Env) : PyModule :=
  {| m_full_download_from_page := None;
     m_fetch_page := Some (thotfans.fetch_page w);
     m_extract_mp4_url := Some thotfans.extract_mp4_url;
     m_extract_iframe_src := None;
     m_extract_m3u8_from_html := None;
     m_download := Some (thotfans.download w) |}.

Definition module_fapnut (w : Env) : PyModule :=
  {| m_full_download_from_page := None;
     m_fetch_page := Some (fapnut.fetch_page w);
     m_extract_mp4_url := None;
     m_extract_iframe_src := Some fapnut.extract_iframe_src;
     m_extract_m3u8_from_html := Some fapnut.extract_m3u8_from_html;
     m_download := Some (fun u o => fapnut.download w u o None) |}.

(** The modules of [super_dl/sites] by their import path. *)
Definition site_module (w : Env) (module_path : string) : option PyModule :=
  if String.eqb module_path "super_dl.sites.influencersgonewild" then
    Some (module_influencersgonewild w)
  else if String.eqb module_path "super_dl.sites.eroleaked" then
    Some (module_eroleaked w)
  else if String.eqb module_path "super_dl.sites.amateurdoporn" then
    Some (module_amateurdoporn w)
  else if String.eqb module_path "super_dl.sites.cumslutx" then
    Some (module_cumslutx w)
  else if String.eqb module_path "super_dl.sites.simpthots" then
    Some (module_simpthots w)
  else if String.eqb module_path "super_dl.sites.thothub" then
    Some (module_thothub w)
  else if String.eqb module_path "super_dl.sites.thotfans" then
    Some (module_thotfans w)
  else if String.eqb module_path "super_dl.sites.fapnut" then
    Some (module_fapnut w)
  else None.

(** [__import__(module_path, fromlist=['*'])]: the import raises when the
    environment makes it fail or when there is no such module. *)
Definition import_module (w : Env) (module_path : string) : res PyModule :=
  match import_error w module_path with
  | Some e => raise e
  | None =>
      match site_module w module_path with
      | Some m => ok m
      | None => raise (Other "ModuleNotFoundError"
                             ("No module named '" ++ module_path ++ "'"))
      end
  end.

(** The parsed command line. *)
Record Args := {
  version : bool;
  site : option string;
  url : option string;
  output : option string
}.

Definition print (to_stderr : bool) (line : string) : M unit :=
  emit (Print to_stderr line).

(** [f'{x}'] of an [Optional[str]] *)
Definition fmt (o : option string) : string :=
  match o with
  | Some s => s
  | None => "None"
  end.

(** The body of the second [try] of [main], once the module is loaded. *)
Definition dispatch (w : Env) (m : PyModule) (args : Args) : M Z :=
  let page_url := str_of (url args) in
  match m_full_download_from_page m with
  | Some full_download_from_page =>
      (* 1) the high-level helper *)
      full_download_from_page page_url (output args)
  | None =>
      match m_fetch_page m, m_extract_mp4_url m, m_download m with
      | Some fetch_page, Some extract_mp4_url, Some download =>
          (* 2) fetch_page -> extract_mp4_url -> download *)
          html <- fetch_page page_url ;;
          let mp4_url := extract_mp4_url html in
          if negb (Py.truthy mp4_url) then
            print true "No mp4 URL found on the page" ;;; ret 4%Z
          else download mp4_url (output args)
      | _, _, _ =>
          match m_fetch_page m, m_extract_iframe_src m,
                m_extract_m3u8_from_html m, m_download m with
          | Some fetch_page, Some extract_iframe_src,
            Some extract_m3u8_from_html, Some download =>
              (* 3) fetch_page -> extract_iframe_src -> fetch the iframe
                    -> extract_m3u8_from_html -> download *)
              page_html <- fetch_page page_url ;;
              let iframe_src := extract_iframe_src page_html in
              if negb (Py.truthy iframe_src) then
                print true "No iframe found on page" ;;; ret 4%Z
              else
                let iframe_src := urljoin w page_url (str_of iframe_src) in
                iframe_html <- fetch_page iframe_src ;;
                let m3u8 := extract_m3u8_from_html iframe_html in
                if negb (Py.truthy m3u8) then
                  print true "No .m3u8 file found on the page." ;;; ret 4%Z
                else download m3u8 (output args)
          | _, _, _, _ =>
              print true "Site module does not expose a supported interface" ;;;
              ret 5%Z
          end
      end
  end.

(** The body of [main(argv)] after [parser.parse_args(argv)], which
    [main_argv] below puts before it; [ver] is the package's [__version__]
    and [help] the text [parser.print_help()] writes. *)
Definition main (w : Env) (ver help : string) (args : Args) : M Z :=
  if version args then
    print false ver ;;; ret 0%Z
  else if negb (Py.truthy (url args)) then
    print false help ;;; ret 1%Z
  else
    let registry := _site_registry in
    site_key <-
      (if negb (Py.truthy (site args)) then
         site_key <- lift (infer_site_from_url (str_of (url args))) ;;
         (if Py.truthy site_key then
            print false ("Inferred site: " ++ str_of site_key)
          else ret tt) ;;;
         ret site_key
       else ret (site args)) ;;
    if negb (Py.truthy site_key) then
      print true "Could not determine site for the provided URL. Provide --site." ;;;
      ret 2%Z
    else
      match get registry (str_of site_key) with
      | None =>
          print true ("Unknown site: " ++ fmt (site args)) ;;; ret 2%Z
      | Some info =>
          if String.eqb (module info) "" then
            print true ("Unknown site: " ++ fmt (site args)) ;;; ret 2%Z
          else
            match import_module w (module info) with
            | inl exc =>
                print true ("Failed to import module for site " ++ fmt (site args)
                            ++ ": " ++ message exc) ;;;
                ret 3%Z
            | inr m =>
                catch (dispatch w m args)
                      (fun exc =>
                         print true ("Error while processing: " ++ message exc) ;;;
                         ret 5%Z)
            end
      end.

(** What [parser.parse_args(argv)] does: it returns the namespace, or
    (for [-h], and for a command line the parser rejects) it writes
    [shown] and leaves by [SystemExit(code)].  [SystemExit] is no
    [Exception]: it is kept apart from [exn], which the [except] clauses
    of the package catch. *)
Inductive parsed :=
| Namespace (args : Args)
| SystemExit (code : Z) (shown : list event).



End cli.

(** ** Environments for closed examples

    [sample_env parse pages rc rnd]: a parser, the answer to every GET as a
    function of the address, the result of every subprocess and the value
    of every random draw; directories exist, nothing else fails, [ffmpeg]
    is found and [urljoin] is not consulted. *)

Definition page (body : string) : res response :=
  ok {| status_error := None; text := body; chunks := [body]; stream_error := None |}.

Definition sample_env (parse : string -> Soup.soup)
           (pages : string -> res response) (rc : res Z) (rnd : Z) : Env :=
  {| requests_get := fun u _ => pages u;
     subprocess_run := fun _ => rc;
     subprocess_stderr := fun _ => "";
     shutil_which := fun _ => Some "/usr/bin/ffmpeg";
     os_getcwd := "/home/user";
     path_exists := fun _ => true;
     mkdir_error := fun _ => None;
     open_error := fun _ => None;
     random_randrange := fun _ _ => rnd;
     import_error := fun _ => None;
     BeautifulSoup := parse;
     urljoin := fun base u => u |}.

(** A document without markup parses to one text node. *)
Definition text_only (html : string) : Soup.soup := [Soup.Text html].

(** ** Observations of a run and shapes of documents and URLs

    What the properties below speak about: what a trace shows, the forms
    of text the patterns are matched against, and the tags of a parsed
    document in document order. *)

(** The files a run opened for writing. *)
Fixpoint opened (t : trace) : list Path.path :=
  match t with
  | [] => []
  | OpenWrite p :: t' => p :: opened t'
  | _ :: t' => opened t'
  end.

(** The default output file of a streaming download: the working
    directory joined with the name derived from the media URL itself. *)
Definition default_out_file (cwd : string) (filename : res string) : option Path.path :=
  match filename with
  | inr name => Some (Path.join (Path.of_string cwd) name)
  | inl _ => None
  end.

(** The text [urlsplit] works on: leading controls and spaces stripped,
    tabs and line breaks removed. *)
Definition cleaned (url : string) : string :=
  Py.remove_chars Url.unsafe_byte (Py.lstrip Url.c0_or_space url).

(** The path of a URL, or the exception [urlparse] raises. *)
Definition path_of (url : string) : res string :=
  rbind (Url.urlparse url) (fun r => ok (Url.path r)).

(** The site key [main] settles on: the [--site] option when it is given,
    what [infer_site_from_url] finds otherwise. *)
Definition selects (args : cli.Args) (k : string) : Prop :=
  k <> "" /\
  (cli.site args = Some k \/
   (Py.truthy (cli.site args) = false /\
    exists u, cli.url args = Some u /\ cli.infer_site_from_url u = inr (Some k))).

(** The trace when the dispatch starts: the line that reports an inferred
    site, if the site was inferred. *)
Definition announced (args : cli.Args) (k : string) : trace :=
  if Py.truthy (cli.site args) then []
  else [Print false ("Inferred site: " ++ k)].

(** What [main] makes of the outcome of the dispatch. *)
Definition exit_of (r : res Z) : res Z :=
  match r with
  | inl _ => inr 5%Z
  | inr rc => inr rc
  end.

(** The addresses a run requested, in order. *)
Fixpoint requested (t : trace) : list string :=
  match t with
  | [] => []
  | Get u _ _ :: t' => u :: requested t'
  | _ :: t' => requested t'
  end.

(** A page whose only element is an iframe with the given [src]. *)
Definition iframe_only (src : string) (html : string) : Soup.soup :=
  [Soup.Tag "iframe" [("src", src)] []].

(** The character before the position that follows [l]. *)
Definition last_char (prev : option ascii) (l : string) : option ascii :=
  match Py.rev l with
  | EmptyString => prev
  | String c _ => Some c
  end.

(** The text after a bare URL: nothing, or a white space or a quote. *)
Definition ends_url (post : string) : bool :=
  match post with
  | EmptyString => true
  | String c _ => negb (Re.not_space_quote c)
  end.

(** [http://] or [https://], a non-empty run without white space and
    quotes, and [.mp4]. *)
Definition bare_mp4_url (tls : bool) (body : string) : string :=
  (if tls then "https://" else "http://") ++ body ++ ".mp4".

(** [.mp4] does not start inside [a] when [a] is followed by [.mp4]. *)
Fixpoint no_early_mp4 (a : string) : bool :=
  match a with
  | EmptyString => true
  | String c a' => negb (Py.startswith (a ++ ".mp4") ".mp4") && no_early_mp4 a'
  end.

(** The lazy pattern [https?://], one or more characters of the class [p],
    [.mp4]. *)
Definition lazy_mp4_pattern (p : ascii -> bool) : Re.pattern :=
  {| Re.icase := false;
     Re.pre := [];
     Re.grp := (Re.http_scheme ++ Re.Plus false p ++ [Re.Lit ".mp4"])%list;
     Re.post := [] |}.

(** [src=] followed by a quote, without regard to case: where the pattern
    can leave the run of the tag. *)
Definition attr_start (y : string) : bool :=
  Py.startswith (Py.lower y) "src=" &&
  match Py.drop 4 y with
  | EmptyString => false
  | String c _ => Re.quote c
  end.

(** What follows the tag name and the run [[^>]+] in the source pattern. *)
Definition after_run {R} (k : @Re.cont R) : @Re.cont R :=
  fun prev s => Re.match_seq true [Re.Lit "src="; Re.Cls Re.quote] prev s k.

(** The document from a [source] tag on: the tag name, attributes, [src=],
    the quoted URL, and the rest. *)
Definition source_tag (attrs : string) (q1 : ascii) (u : string) (q2 : ascii)
           (rest : string) : string :=
  "<source" ++ attrs ++ "src=" ++ String q1 (u ++ String q2 rest).

(** The tags of a tree in document order, each with its attributes. *)
Fixpoint tags_node (n : Soup.node) : list (string * list (string * string)) :=
  match n with
  | Soup.Text _ => []
  | Soup.Tag nm at_ ch =>
      (nm, at_) :: (fix go (l : list Soup.node) :=
                      match l with
                      | [] => []
                      | x :: l' => (tags_node x ++ go l')%list
                      end) ch
  end.

(** The tags of a document in document order. *)
Fixpoint tags (s : Soup.soup) : list (string * list (string * string)) :=
  match s with
  | [] => []
  | n :: s' => (tags_node n ++ tags s')%list
  end.

(** The attributes of the first tag of a list that satisfies [p]. *)
Definition first_of (p : string -> list (string * string) -> bool)
           (l : list (string * list (string * string)))
  : option (list (string * string)) :=
  match List.find (fun t => p (fst t) (snd t)) l with
  | Some t => Some (snd t)
  | None => None
  end.

(** [attrs] belongs to the first tag [name] of the document, in document
    order, whose attribute [key] has the value [value]. *)
Definition first_tag (s : Soup.soup) (name key value : string)
           (attrs : list (string * string)) : Prop :=
  exists before after,
    tags s = (before ++ (name, attrs) :: after)%list /\
    Soup.attr attrs key = Some value /\
    forall at_, In (name, at_) before -> Soup.attr at_ key <> Some value.

(** A scheme: a letter, then letters, digits, [+], [-] and [.]. *)
Definition valid_scheme (sch : string) : bool :=
  Url.first_is_alpha sch && Py.forallb_str Url.scheme_char sch.

(** The characters of a user name, a password or a host name: all but the
    delimiters of the network location, tabs and line breaks, brackets
    and [@]. *)
Definition host_char (c : ascii) : bool :=
  negb (Url.netloc_delim c || Url.unsafe_byte c
        || Ascii.eqb c "@" || Ascii.eqb c "[" || Ascii.eqb c "]").

(** The characters of a network location: the same, and [@]. *)
Definition netloc_char (c : ascii) : bool :=
  negb (Url.netloc_delim c || Url.unsafe_byte c
        || Ascii.eqb c "[" || Ascii.eqb c "]").

(** What may follow the network location: nothing, or a path, a query or
    a fragment. *)
Definition starts_rest (rest : string) : bool :=
  match rest with
  | EmptyString => true
  | String c _ => Url.netloc_delim c
  end.

(** The optional user information of a network location. *)
Definition userinfo (with_ui : bool) (ui : string) : string :=
  if with_ui then ui ++ "@" else "".

(** ** Readings of the patterns and further observations *)

(** What an atom can match, its context aside. *)
Definition atom_text (ic : bool) (a : Re.atom) (m : string) : Prop :=
  match a with
  | Re.Lit l => if ic then Py.lower m = Py.lower l else m = l
  | Re.Cls p => exists c, m = String c "" /\ p c = true
  | Re.Opt c => m = "" \/ exists b, m = String b "" /\ Re.chr_eq ic c b = true
  | Re.Star _ p => Py.forallb_str p m = true
  | Re.WordB => m = ""
  end.

(** What a sequence of atoms can match: the texts of its atoms in a row. *)
Fixpoint seq_text (ic : bool) (rs : list Re.atom) (m : string) : Prop :=
  match rs with
  | [] => m = ""
  | a :: rs' => exists m1 m2, m = m1 ++ m2 /\ atom_text ic a m1 /\ seq_text ic rs' m2
  end.

(** The interfaces [main] can drive: the high-level helper, the three
    functions of the direct flow, or the four of the iframe flow. *)
Definition supported (m : cli.PyModule) : bool :=
  match cli.m_full_download_from_page m with
  | Some _ => true
  | None =>
      match cli.m_fetch_page m, cli.m_extract_mp4_url m, cli.m_download m with
      | Some _, Some _, Some _ => true
      | _, _, _ =>
          match cli.m_fetch_page m, cli.m_extract_iframe_src m,
                cli.m_extract_m3u8_from_html m, cli.m_download m with
          | Some _, Some _, Some _, Some _ => true
          | _, _, _, _ => false
          end
      end
  end.

(** The commands a run started, in order. *)
Fixpoint runs (t : trace) : list (list string) :=
  match t with
  | [] => []
  | Run cmd :: t' => cmd :: runs t'
  | _ :: t' => runs t'
  end.

(** The bytes a run wrote, in order. *)
Fixpoint written (t : trace) : string :=
  match t with
  | [] => ""
  | Write _ chunk :: t' => chunk ++ written t'
  | _ :: t' => written t'
  end.

(** The directories a run created, in order. *)
Fixpoint created (t : trace) : list Path.path :=
  match t with
  | [] => []
  | Mkdir p :: t' => p :: created t'
  | _ :: t' => created t'
  end.

(** The chunks of a body put together. *)
Definition joined (cs : list string) : string := fold_right append "" cs.

(** The [write] calls of a streaming download: one per non-empty chunk. *)
Definition writes (f : Path.path) (cs : list string) : trace :=
  map (Write f) (filter (fun c => negb (String.eqb c "")) cs).

(** The file a streaming download writes to. *)
Definition out_file_of (cwd : string) (out_path : option string)
           (filename : res string) : res Path.path :=
  if Py.truthy out_path then inr (Path.of_string (str_of out_path))
  else rbind filename (fun n => ok (Path.join (Path.of_string cwd) n)).

(** The text is at its end or goes on with a single quote: where the run
    of [[^']] stops. *)
Definition ends_run (rest : string) : bool :=
  match rest with
  | EmptyString => true
  | String c _ => Ascii.eqb c Re.sq
  end.

(** No word character comes next: after a word character, a boundary. *)
Definition ends_word (post : string) : bool :=
  negb (Re.is_word_opt (Re.next_char post)).

(** The line of the thothub player: [video_url:], white space, and the
    address after ['function/0/]. *)
Definition video_url_line (ws url : string) : string :=
  "video_url:" ++ ws ++ "'function/0/" ++ url.

(** The outcome of a streaming download once the output file [f] and the
    address [u] are settled, read off the answers of the environment: the
    step that fails raises, and the trace ends there. *)
Definition stream_outcome (w : Env) (u : string) (hs : headers) (f : Path.path)
  : res Z * trace :=
  match mkdir_error w (Path.parent f) with
  | Some e => (inl e, [Mkdir (Path.parent f)])
  | None =>
      match requests_get w u hs with
      | inl e => (inl e, [Mkdir (Path.parent f); Get u hs 30])
      | inr r =>
          match status_error r with
          | Some e => (inl e, [Mkdir (Path.parent f); Get u hs 30])
          | None =>
              match open_error w f with
              | Some e => (inl e, [Mkdir (Path.parent f); Get u hs 30; OpenWrite f])
              | None =>
                  (match stream_error r with
                   | Some e => inl e
                   | None => inr 0%Z
                   end,
                   ([Mkdir (Path.parent f); Get u hs 30; OpenWrite f]
                    ++ writes f (chunks r))%list)
              end
          end
      end
  end.

(** ** Parts of a URL, and addresses and tags in the text of a page *)

(** The characters of a path that [urlparse] leaves where they are: all
    but [?], [#], [;], tabs and line breaks. *)
Definition path_char (c : ascii) : bool :=
  negb (Ascii.eqb c "?" || Ascii.eqb c "#" || Ascii.eqb c ";"
        || Url.unsafe_byte c).

(** The characters of a path segment: the same without the slash. *)
Definition segment_char (c : ascii) : bool :=
  path_char c && negb (Py.is_slash c).

(** The URL [sch://nl dirs/seg], whose last path segment is [seg]; [dirs]
    is empty or starts with a slash. *)
Definition url_to (sch nl dirs seg : string) : string :=
  sch ++ "://" ++ nl ++ dirs ++ "/" ++ seg.

(** Its parts are well formed: a valid scheme, a network location without
    delimiters and brackets, a path without [?], [#], [;], tabs and line
    breaks, and a last segment that is not empty. *)
Definition url_parts (sch nl dirs seg : string) : bool :=
  valid_scheme sch && Py.forallb_str netloc_char nl
  && Py.forallb_str path_char dirs && starts_rest dirs
  && Py.forallb_str segment_char seg && negb (String.eqb seg "").

(** What may follow the last segment: a slash and a query, each optional. *)
Definition url_tail (slash : bool) (query : option string) : string :=
  (if slash then "/" else "") ++
  match query with
  | Some q => "?" ++ q
  | None => ""
  end.

(** [name], with [.mp4] appended unless it ends with it in any case. *)
Definition with_mp4 (name : string) : string :=
  if negb (Py.endswith (Py.lower name) ".mp4") then name ++ ".mp4" else name.

(** The longest prefix of [s] made of characters of the class [p]. *)
Fixpoint run_of (p : ascii -> bool) (s : string) : string :=
  match s with
  | EmptyString => EmptyString
  | String c s' => if p c then String c (run_of p s') else EmptyString
  end.

(** An address of a textual scan with the class [p] starts the text [y]:
    [https://] or [http://], then a run of the class that holds [.mp4]
    after its first character. *)
Definition url_starts (p : ascii -> bool) (y : string) : bool :=
  (Py.startswith y "https://"
   && Py.contains (Py.drop 1 (run_of p (Py.drop 8 y))) ".mp4")
  || (Py.startswith y "http://"
      && Py.contains (Py.drop 1 (run_of p (Py.drop 7 y))) ".mp4").

(** No such address starts inside [pre], when [rest] follows it. *)
Fixpoint no_url_in (p : ascii -> bool) (pre rest : string) : bool :=
  match pre with
  | EmptyString => true
  | String _ pre' => negb (url_starts p (pre ++ rest)) && no_url_in p pre' rest
  end.

(** The textual scans for an [.mp4] address: [https?://], one or more
    characters of the class [p] (greedy or lazy), [.mp4]. *)
Definition mp4_scan (g : bool) (p : ascii -> bool) : Re.pattern :=
  {| Re.icase := false;
     Re.pre := [];
     Re.grp := (Re.http_scheme ++ Re.Plus g p ++ [Re.Lit ".mp4"])%list;
     Re.post := [] |}.

(** The text up to the first quote of [s], when there is one. *)
Fixpoint quoted_value (s : string) : option string :=
  match s with
  | EmptyString => None
  | String c s' =>
      if Re.quote c then Some EmptyString
      else option_map (String c) (quoted_value s')
  end.

(** [http://] or [https://], a non-empty text and [.mp4], in any case. *)
Definition mp4_value (v : string) : bool :=
  (Py.startswith (Py.lower v) "https://"
   && Py.endswith (Py.drop 9 (Py.lower v)) ".mp4")
  || (Py.startswith (Py.lower v) "http://"
      && Py.endswith (Py.drop 8 (Py.lower v)) ".mp4").

(** [src=], a quote, such a value and a quote start the text [y]. *)
Definition src_attr_at (y : string) : bool :=
  attr_start y &&
  match quoted_value (Py.drop 5 y) with
  | Some v => mp4_value v
  | None => false
  end.

(** Such an attribute starts at [y] or further in the run [[^>]] that [y]
    starts. *)
Fixpoint src_attr_in_run (y : string) : bool :=
  src_attr_at y ||
  match y with
  | EmptyString => false
  | String c y' => Re.not_gt c && src_attr_in_run y'
  end.

(** A [source] tag with such an attribute starts the text [y]: the tag
    name in any case, at least one character, and the attribute before
    the tag is closed. *)
Definition source_tag_at (y : string) : bool :=
  Py.startswith (Py.lower y) "<source" &&
  match Py.drop 7 y with
  | EmptyString => false
  | String c y' => Re.not_gt c && src_attr_in_run y'
  end.

(** No such tag starts inside [pre], when [rest] follows it. *)
Fixpoint no_source_in (pre rest : string) : bool :=
  match pre with
  | EmptyString => true
  | String _ pre' => negb (source_tag_at (pre ++ rest)) && no_source_in pre' rest
  end.

(** * Properties *)

(** ** Fail-fast validation of the media URL *)

(** C9. Every site module's [download], called with [None] or the empty
    string as media URL, raises [ValueError] and adds nothing to the trace:
    no request, no subprocess, no directory or file. *)
Theorem download_rejects_empty_url :
  forall (w : Env) (media_url out_path page_url : option string) (t : trace),
    Py.truthy media_url = false ->
    (exists msg, influencersgonewild.download w media_url out_path t = (inl (ValueError msg), t)) /\
    (exists msg, cumslutx.download w media_url out_path t = (inl (ValueError msg), t)) /\
    (exists msg, simpthots.download w media_url out_path t = (inl (ValueError msg), t)) /\
    (exists msg, eroleaked.download w media_url out_path t = (inl (ValueError msg), t)) /\
    (exists msg, amateurdoporn.download w media_url out_path t = (inl (ValueError msg), t)) /\
    (exists msg, thothub.download w media_url out_path t = (inl (ValueError msg), t)) /\
    (exists msg, thotfans.download w media_url out_path t = (inl (ValueError msg), t)) /\
    (exists msg, fapnut.download w media_url out_path page_url t = (inl (ValueError msg), t)).
Proof.
  intros w media_url out_path page_url t H.
  unfold influencersgonewild.download, cumslutx.download, simpthots.download,
    eroleaked.download, amateurdoporn.download, thothub.download,
    thotfans.download, fapnut.download.
  rewrite H; cbn [negb]; unfold throw.
  repeat split; eexists; reflexivity.
Qed.

Lemma download_rejects_empty_url_witness :
  Py.truthy (Some "") = false /\
  exists msg,
    thothub.download (sample_env text_only (fun _ => page "") (ok 0%Z) 0%Z)
      (Some "") None [] = (inl (ValueError msg), []).
Proof.
  split; [reflexivity |].
  apply (download_rejects_empty_url
           (sample_env text_only (fun _ => page "") (ok 0%Z) 0%Z)
           (Some "") None None []); reflexivity.
Defined.

(** ** The exit code of the stream-copy tool *)

(** C8, as stated, fails for fapnut: the tool exits with 1 and [download]
    raises [RuntimeError] instead of returning 1. *)
Lemma fapnut_download_raises_on_nonzero_exit :
  subprocess_run (sample_env text_only (fun _ => page "") (ok 1%Z) 0%Z)
    ["/usr/bin/ffmpeg"] = inr 1%Z /\
  fst (run (fapnut.download (sample_env text_only (fun _ => page "") (ok 1%Z) 0%Z)
              (Some "https://cdn.example.com/hls/stream.m3u8")
              (Some "out.mp4") None))
  = inl (RuntimeError "ffmpeg failed: ").
Proof. split; reflexivity. Qed.

(** C8 (amended). When the stream-copy tool exits with [rc], the
    [download] of eroleaked and of amateurdoporn runs it once and returns
    [rc] unchanged, zero or not; the [download] of fapnut runs it once,
    returns 0 when [rc] is 0 and raises [RuntimeError] otherwise. *)
Theorem m3u8_download_exit_code :
  forall (w : Env) (m3u8_url : string) (out_path page_url : option string)
         (out ffmpeg : string) (rc : Z),
    m3u8_url <> "" ->
    (forall cmd, subprocess_run w cmd = inr rc) ->
    run (eroleaked.download w (Some m3u8_url) out_path)
    = (inr rc,
       [Run ["ffmpeg"; "-headers"; eroleaked.ffmpeg_headers; "-i"; m3u8_url;
             "-c"; "copy";
             match out_path with
             | None => eroleaked.derive_filename_from_url eroleaked.REFERER ++ ".mp4"
             | Some p => p
             end]]) /\
    run (amateurdoporn.download w (Some m3u8_url) out_path)
    = (inr rc,
       [Run ["ffmpeg"; "-headers"; amateurdoporn.ffmpeg_headers; "-i"; m3u8_url;
             "-c"; "copy";
             match out_path with
             | None => amateurdoporn.derive_filename_from_url m3u8_url ++ ".mp4"
             | Some p => p
             end]]) /\
    (shutil_which w "ffmpeg" = Some ffmpeg -> ffmpeg <> "" -> out <> "" ->
     mkdir_error w (Path.parent (Path.of_string out)) = None ->
     run (fapnut.download w (Some m3u8_url) (Some out) page_url)
     = ((if (rc =? 0)%Z then inr 0%Z
         else inl (RuntimeError
                     ("ffmpeg failed: " ++
                      subprocess_stderr w
                        [ffmpeg; "-y"; "-hide_banner"; "-loglevel"; "error";
                         "-headers"; "Referer: https://fapnut.net/" ++ crlf;
                         "-i"; m3u8_url; "-c"; "copy";
                         Path.to_string (Path.of_string out)]))),
        [Mkdir (Path.parent (Path.of_string out));
         Run [ffmpeg; "-y"; "-hide_banner"; "-loglevel"; "error";
              "-headers"; "Referer: https://fapnut.net/" ++ crlf;
              "-i"; m3u8_url; "-c"; "copy";
              Path.to_string (Path.of_string out)]])).
Proof.
  intros w m3u8_url out_path page_url out ffmpeg rc Hu Hrc.
  assert (Tu : Py.truthy (Some m3u8_url) = true).
  { cbn. apply String.eqb_neq in Hu. now rewrite Hu. }
  split; [|split].
  - unfold run, eroleaked.download. rewrite Tu. cbn [negb].
    unfold subprocess_returncode, bind, emit, lift. cbn [app str_of].
    now rewrite Hrc.
  - unfold run, amateurdoporn.download. rewrite Tu. cbn [negb].
    unfold subprocess_returncode, bind, emit, lift. cbn [app str_of].
    now rewrite Hrc.
  - intros Hw Hf Ho Hm.
    assert (To : Py.truthy (Some out) = true).
    { cbn. apply String.eqb_neq in Ho. now rewrite Ho. }
    apply String.eqb_neq in Hf.
    unfold run, fapnut.download. rewrite Tu, Hw, Hf, To. cbn [negb].
    unfold subprocess_returncode, mkdir_p, bind, emit, lift, ret, fail_if.
    cbn [str_of app]. rewrite Hm, Hrc.
    destruct (rc =? 0)%Z; reflexivity.
Qed.

Lemma m3u8_download_exit_code_witness :
  run (eroleaked.download (sample_env text_only (fun _ => page "") (ok 8%Z) 0%Z)
         (Some "https://cdn.example.com/hls/stream.m3u8") None)
  = (inr 8%Z, [Run ["ffmpeg"; "-headers"; eroleaked.ffmpeg_headers; "-i";
                    "https://cdn.example.com/hls/stream.m3u8"; "-c"; "copy";
                    "eroleaked.com.mp4"]]).
Proof.
  apply (m3u8_download_exit_code
           (sample_env text_only (fun _ => page "") (ok 8%Z) 0%Z)
           "https://cdn.example.com/hls/stream.m3u8" None None
           "out.mp4" "/usr/bin/ffmpeg" 8%Z);
    [discriminate | reflexivity].
Defined.

(** ** The default output file of the streaming downloaders *)

Lemma opened_app (t1 t2 : trace) :
  opened (t1 ++ t2)%list = (opened t1 ++ opened t2)%list.
Proof.
  induction t1 as [|e t1 IH]; cbn; [reflexivity|].
  destruct e; cbn; now rewrite IH.
Qed.

Lemma write_chunks_opened (p : Path.path) (cs : list string) (t : trace) :
  exists r, fst (write_chunks p cs t) = inr r /\
            opened (snd (write_chunks p cs t)) = opened t.
Proof.
  revert t. induction cs as [|c cs IH]; intro t; cbn.
  - exists tt. split; reflexivity.
  - unfold bind. destruct (String.eqb c "").
    + cbn. apply IH.
    + cbn. destruct (IH (t ++ [Write p c])%list) as [r [H1 H2]].
      exists r. split; [assumption|]. rewrite H2, opened_app. cbn.
      now rewrite app_nil_r.
Qed.

(** What [stream_to_file] opens is [out_file], at most once. *)
Lemma stream_to_file_opened (w : Env) (u : string) (hs : headers)
      (out_file : Path.path) (t : trace) :
  opened t = [] ->
  opened (snd (stream_to_file w u hs out_file t)) = [] \/
  opened (snd (stream_to_file w u hs out_file t)) = [out_file].
Proof.
  intro Ht. unfold stream_to_file, bind, emit, lift, fail_if.
  destruct (requests_get w u hs) as [e|r]; cbn.
  - left. rewrite opened_app, Ht. reflexivity.
  - destruct (status_error r); cbn.
    + left. rewrite opened_app, Ht. reflexivity.
    + unfold ret. cbn. destruct (open_error w out_file); cbn.
      * right. rewrite !opened_app, Ht. reflexivity.
      * right.
        destruct (write_chunks_opened out_file (chunks r)
                    ((t ++ [Get u hs 30]) ++ [OpenWrite out_file])%list) as [x [H1 H2]].
        destruct (write_chunks out_file (chunks r) _) as [[e|y] t'] eqn:E; cbn in *.
        -- discriminate.
        -- destruct (stream_error r); cbn; rewrite H2, !opened_app, Ht; reflexivity.
Qed.

Ltac opened_by_stream w mp4_url name rnd_url hs :=
  pose proof (stream_to_file_opened w rnd_url hs
    (Path.join (Path.of_string (os_getcwd w)) name)
    [Mkdir (Path.parent (Path.join (Path.of_string (os_getcwd w)) name))]
    eq_refl) as H;
  destruct (stream_to_file _ _ _ _ _) as [[e|u] t']; cbn [snd ret] in *;
  destruct H as [H|H]; rewrite H; cbn; intuition congruence.

Lemma thothub_download_opened (w : Env) (mp4_url : string) (p : Path.path) :
  mp4_url <> "" ->
  In p (opened (snd (run (thothub.download w (Some mp4_url) None)))) ->
  default_out_file (os_getcwd w) (thothub._filename_from_url mp4_url) = Some p.
Proof.
  intros Hu. apply String.eqb_neq in Hu.
  unfold run, thothub.download. cbn [Py.truthy negb str_of]. rewrite Hu. cbn [negb].
  unfold bind at 1. unfold bind at 2. unfold lift.
  destruct (thothub._filename_from_url mp4_url) as [e|name]; cbn [default_out_file].
  - cbn. tauto.
  - unfold ret at 1. unfold bind at 1. unfold mkdir_p, bind, emit, fail_if.
    cbn [app].
    destruct (mkdir_error w _); cbn [throw ret fst snd].
    + cbn. tauto.
    + opened_by_stream w mp4_url name (thothub._append_random_rnd w mp4_url)
        thothub.request_headers.
Qed.

Lemma thotfans_download_opened (w : Env) (mp4_url : string) (p : Path.path) :
  mp4_url <> "" ->
  In p (opened (snd (run (thotfans.download w (Some mp4_url) None)))) ->
  default_out_file (os_getcwd w) (thotfans._filename_from_url mp4_url) = Some p.
Proof.
  intros Hu. apply String.eqb_neq in Hu.
  unfold run, thotfans.download. cbn [Py.truthy negb str_of]. rewrite Hu. cbn [negb].
  unfold bind at 1. unfold bind at 2. unfold lift.
  destruct (thotfans._filename_from_url mp4_url) as [e|name]; cbn [default_out_file].
  - cbn. tauto.
  - unfold ret at 1. unfold bind at 1. unfold mkdir_p, bind, emit, fail_if.
    cbn [app].
    destruct (mkdir_error w _); cbn [throw ret fst snd].
    + cbn. tauto.
    + opened_by_stream w mp4_url name (thotfans._append_random_rnd w mp4_url)
        thotfans.request_headers.
Qed.

Lemma default_out_file_inv (cwd : string) (filename : res string) (p : Path.path) :
  default_out_file cwd filename = Some p ->
  exists name, filename = inr name /\ p = Path.join (Path.of_string cwd) name.
Proof.
  destruct filename as [e|name]; cbn; [discriminate|].
  intro H. inversion H. now exists name.
Qed.

(** C10. Two runs of the streaming [download] of thothub (and of thotfans)
    on the same media URL without [out_path] choose the same file name,
    whatever the two environments answer: the random [rnd] values, the
    network, the file system.  The name is [_filename_from_url(mp4_url)],
    computed from the URL as given, and the file each run opens is its
    working directory joined with that name. *)
Theorem default_output_file_ignores_rnd :
  forall (w1 w2 : Env) (mp4_url : string) (p1 p2 : Path.path),
    mp4_url <> "" ->
    (In p1 (opened (snd (run (thothub.download w1 (Some mp4_url) None)))) ->
     In p2 (opened (snd (run (thothub.download w2 (Some mp4_url) None)))) ->
     exists name,
       thothub._filename_from_url mp4_url = inr name /\
       p1 = Path.join (Path.of_string (os_getcwd w1)) name /\
       p2 = Path.join (Path.of_string (os_getcwd w2)) name) /\
    (In p1 (opened (snd (run (thotfans.download w1 (Some mp4_url) None)))) ->
     In p2 (opened (snd (run (thotfans.download w2 (Some mp4_url) None)))) ->
     exists name,
       thotfans._filename_from_url mp4_url = inr name /\
       p1 = Path.join (Path.of_string (os_getcwd w1)) name /\
       p2 = Path.join (Path.of_string (os_getcwd w2)) name).
Proof.
  intros w1 w2 mp4_url p1 p2 Hu. split; intros H1 H2.
  - apply thothub_download_opened in H1; [|assumption].
    apply thothub_download_opened in H2; [|assumption].
    apply default_out_file_inv in H1 as (n1 & E1 & P1).
    apply default_out_file_inv in H2 as (n2 & E2 & P2).
    exists n1. rewrite E1 in E2. inversion E2. subst. auto.
  - apply thotfans_download_opened in H1; [|assumption].
    apply thotfans_download_opened in H2; [|assumption].
    apply default_out_file_inv in H1 as (n1 & E1 & P1).
    apply default_out_file_inv in H2 as (n2 & E2 & P2).
    exists n1. rewrite E1 in E2. inversion E2. subst. auto.
Qed.

Lemma default_output_file_ignores_rnd_witness :
  exists name,
    thothub._filename_from_url "https://cdn.example.com/videos/12345.mp4" = inr name /\
    {| Path.root := "/"; Path.parts := ["home"; "user"; "12345.mp4"] |}
    = Path.join (Path.of_string "/home/user") name.
Proof.
  assert (H1 : In {| Path.root := "/"; Path.parts := ["home"; "user"; "12345.mp4"] |}
     (opened (snd (run (thothub.download
        (sample_env text_only (fun _ => page "data") (ok 0%Z) 1000000000001%Z)
        (Some "https://cdn.example.com/videos/12345.mp4") None))))).
  { vm_compute. left. reflexivity. }
  assert (H2 : In {| Path.root := "/"; Path.parts := ["home"; "user"; "12345.mp4"] |}
     (opened (snd (run (thothub.download
        (sample_env text_only (fun _ => page "data") (ok 0%Z) 99999999999999%Z)
        (Some "https://cdn.example.com/videos/12345.mp4") None))))).
  { vm_compute. left. reflexivity. }
  destruct (proj1 (default_output_file_ignores_rnd
    (sample_env text_only (fun _ => page "data") (ok 0%Z) 1000000000001%Z)
    (sample_env text_only (fun _ => page "data") (ok 0%Z) 99999999999999%Z)
    "https://cdn.example.com/videos/12345.mp4"
    {| Path.root := "/"; Path.parts := ["home"; "user"; "12345.mp4"] |}
    {| Path.root := "/"; Path.parts := ["home"; "user"; "12345.mp4"] |}
    ltac:(discriminate)) H1 H2) as (name & E & P1 & _).
  exists name. split; assumption.
Defined.

(** ** Derived file names *)

Lemma forallb_str_app (p : ascii -> bool) (a b : string) :
  Py.forallb_str p (a ++ b) = Py.forallb_str p a && Py.forallb_str p b.
Proof.
  induction a as [|c a IH]; cbn; [reflexivity|].
  rewrite IH. now rewrite andb_assoc.
Qed.

Lemma sanitize_safe (s : string) :
  Py.forallb_str Py.is_safe_char (Py.sanitize s) = true.
Proof.
  induction s as [|c s IH]; cbn; [reflexivity|].
  rewrite IH, andb_true_r.
  destruct (Py.is_safe_char c) eqn:E; [assumption | reflexivity].
Qed.

(** No field of [s.split(c)] contains [c]. *)
Lemma split_fields_free (c : ascii) (s : string) :
  Forall (fun f => Py.has_char c f = false) (Py.split c s).
Proof.
  induction s as [|a s IH]; cbn.
  - constructor; [reflexivity | constructor].
  - destruct (Ascii.eqb a c) eqn:E.
    + constructor; [reflexivity | assumption].
    + destruct (Py.split c s) as [|h t]; inversion IH; subst.
      * constructor; [cbn; now rewrite E | constructor].
      * constructor; [cbn; now rewrite E | assumption].
Qed.

Lemma last_or_Forall (P : string -> Prop) (l : list string) (d : string) :
  Forall P l -> P d -> P (Py.last_or l d).
Proof.
  unfold Py.last_or. induction l as [|x l IH]; intros Hl Hd; cbn; [assumption|].
  inversion Hl; subst. destruct l; [assumption | now apply IH].
Qed.

Lemma basename_no_slash (p : string) : Py.has_char "/" (Py.basename p) = false.
Proof.
  unfold Py.basename.
  apply (last_or_Forall (fun f => Py.has_char "/" f = false));
    [apply split_fields_free | reflexivity].
Qed.

Lemma has_char_app (c : ascii) (a b : string) :
  Py.has_char c (a ++ b) = Py.has_char c a || Py.has_char c b.
Proof.
  induction a as [|x a IH]; cbn; [reflexivity|].
  rewrite IH. now rewrite orb_assoc.
Qed.

(** C5, as stated, fails for thothub: the name derived from a URL with a
    percent sign keeps it. *)
Lemma thothub_filename_keeps_unsafe_characters :
  thothub._filename_from_url "https://cdn.example.com/videos/my%20clip.mp4"
  = inr "my%20clip.mp4" /\
  Py.forallb_str Py.is_safe_char "my%20clip.mp4" = false.
Proof. split; reflexivity. Qed.

(** C5 (amended). The names [derive_filename_from_url] gives in cumslutx,
    simpthots, eroleaked and amateurdoporn consist of ASCII letters,
    digits, [.], [_] and [-] only, and so do the default outputs built
    from them by appending [.mp4].  The [_filename_from_url] of thothub and
    thotfans and the [_filename_from_page_url] of fapnut take the last path
    segment as it is: it holds no slash, and is otherwise not restricted. *)
Theorem derived_filenames_character_set :
  forall (url name : string),
    (cumslutx.derive_filename_from_url url = inr name ->
     Py.forallb_str Py.is_safe_char name = true) /\
    (simpthots.derive_filename_from_url url = inr name ->
     Py.forallb_str Py.is_safe_char name = true) /\
    Py.forallb_str Py.is_safe_char (eroleaked.derive_filename_from_url url) = true /\
    Py.forallb_str Py.is_safe_char (eroleaked.derive_filename_from_url url ++ ".mp4") = true /\
    Py.forallb_str Py.is_safe_char (amateurdoporn.derive_filename_from_url url) = true /\
    Py.forallb_str Py.is_safe_char (amateurdoporn.derive_filename_from_url url ++ ".mp4") = true /\
    (thothub._filename_from_url url = inr name -> Py.has_char "/" name = false) /\
    (thotfans._filename_from_url url = inr name -> Py.has_char "/" name = false) /\
    (fapnut._filename_from_page_url url = inr name -> Py.has_char "/" name = false).
Proof.
  intros url name.
  assert (Hd : forall n, Py.forallb_str Py.is_safe_char
             (if negb (Py.endswith (Py.lower (Py.sanitize n)) ".mp4")
              then Py.sanitize n ++ ".mp4" else Py.sanitize n) = true).
  { intro n. destruct (negb _); [|apply sanitize_safe].
    rewrite forallb_str_app, sanitize_safe. reflexivity. }
  repeat split.
  - unfold cumslutx.derive_filename_from_url, rbind.
    destruct (Url.urlparse url); [discriminate|].
    intro H; inversion H; subst. apply Hd.
  - unfold simpthots.derive_filename_from_url, rbind.
    destruct (Url.urlparse url); [discriminate|].
    intro H; inversion H; subst. apply Hd.
  - apply sanitize_safe.
  - rewrite forallb_str_app. unfold eroleaked.derive_filename_from_url.
    rewrite sanitize_safe. reflexivity.
  - apply sanitize_safe.
  - rewrite forallb_str_app. unfold amateurdoporn.derive_filename_from_url.
    rewrite sanitize_safe. reflexivity.
  - unfold thothub._filename_from_url, rbind.
    destruct (Url.urlparse url); [discriminate|].
    intro H; inversion H; subst. apply basename_no_slash.
  - unfold thotfans._filename_from_url, rbind.
    destruct (Url.urlparse url); [discriminate|].
    intro H; inversion H; subst. apply basename_no_slash.
  - unfold fapnut._filename_from_page_url, rbind.
    destruct (Url.urlparse url); [discriminate|].
    destruct (String.eqb (Py.strip Py.is_slash (Url.path p)) "").
    + intro H; inversion H; subst. reflexivity.
    + intro H; inversion H; subst. rewrite has_char_app.
      assert (Hl : Py.has_char "/"
                (Py.last_or (Py.split "/" (Py.strip Py.is_slash (Url.path p))) "") = false).
      { apply (last_or_Forall (fun f => Py.has_char "/" f = false));
          [apply split_fields_free | reflexivity]. }
      destruct (String.eqb _ ""); [reflexivity|]. rewrite Hl. reflexivity.
Qed.

Lemma derived_filenames_character_set_witness :
  cumslutx.derive_filename_from_url "https://cumslutx.com/some video (1)/"
  = inr "some-video--1-.mp4" /\
  Py.forallb_str Py.is_safe_char "some-video--1-.mp4" = true.
Proof.
  split; [reflexivity |].
  apply (proj1 (derived_filenames_character_set
                  "https://cumslutx.com/some video (1)/" "some-video--1-.mp4")).
  reflexivity.
Defined.

(** ** Facts about strings *)

Lemma app_assoc_s (a b c : string) : (a ++ b) ++ c = a ++ (b ++ c).
Proof. induction a as [|x a IH]; cbn; [reflexivity | now rewrite IH]. Qed.

Lemma app_nil_r_s (a : string) : a ++ "" = a.
Proof. induction a as [|x a IH]; cbn; [reflexivity | now rewrite IH]. Qed.

Lemma list_of_app (a b : string) :
  list_ascii_of_string (a ++ b)
  = (list_ascii_of_string a ++ list_ascii_of_string b)%list.
Proof. induction a as [|x a IH]; cbn; [reflexivity | now rewrite IH]. Qed.

Lemma string_of_app (l1 l2 : list ascii) :
  string_of_list_ascii (l1 ++ l2)
  = string_of_list_ascii l1 ++ string_of_list_ascii l2.
Proof. induction l1 as [|x l1 IH]; cbn; [reflexivity | now rewrite IH]. Qed.

Lemma rev_app (a b : string) : Py.rev (a ++ b) = Py.rev b ++ Py.rev a.
Proof.
  unfold Py.rev. now rewrite list_of_app, List.rev_app_distr, string_of_app.
Qed.

Lemma rev_involutive (a : string) : Py.rev (Py.rev a) = a.
Proof.
  unfold Py.rev. rewrite list_ascii_of_string_of_list_ascii, List.rev_involutive.
  apply string_of_list_ascii_of_string.
Qed.

Lemma lower_app (a b : string) : Py.lower (a ++ b) = Py.lower a ++ Py.lower b.
Proof. induction a as [|x a IH]; cbn; [reflexivity | now rewrite IH]. Qed.

Lemma startswith_app (p s : string) : Py.startswith (p ++ s) p = true.
Proof.
  induction p as [|x p IH]; cbn; [now destruct s|].
  now rewrite Ascii.eqb_refl, IH.
Qed.

Lemma endswith_app (s p : string) : Py.endswith (s ++ p) p = true.
Proof. unfold Py.endswith. rewrite rev_app. apply startswith_app. Qed.

(** A slash appended to a text disappears under [rstrip('/')]. *)
Lemma rstrip_slash_app (s : string) :
  Py.rstrip Py.is_slash (s ++ "/") = Py.rstrip Py.is_slash s.
Proof. unfold Py.rstrip. rewrite rev_app. reflexivity. Qed.

Lemma split_not_nil (c : ascii) (s : string) : Py.split c s <> [].
Proof.
  destruct s as [|a s]; cbn; [discriminate|].
  destruct (Ascii.eqb a c); [discriminate|].
  destruct (Py.split c s); discriminate.
Qed.

(** A separator appended to a text adds one empty field. *)
Lemma split_app_sep (c : ascii) (s : string) :
  Py.split c (s ++ String c "") = (Py.split c s ++ [""])%list.
Proof.
  induction s as [|a s IH]; cbn.
  - now rewrite Ascii.eqb_refl.
  - destruct (Ascii.eqb a c); rewrite IH; [reflexivity|].
    pose proof (split_not_nil c s) as N.
    destruct (Py.split c s); [contradiction | reflexivity].
Qed.

Lemma nonempty_app (l1 l2 : list string) :
  Py.nonempty (l1 ++ l2) = (Py.nonempty l1 ++ Py.nonempty l2)%list.
Proof. apply filter_app. Qed.

(** The last non-empty segment of a path does not change when a slash is
    appended. *)
Lemma last_segment_slash (p d : string) :
  Py.last_or (Py.nonempty (Py.split "/" (p ++ "/"))) d
  = Py.last_or (Py.nonempty (Py.split "/" p)) d.
Proof. now rewrite split_app_sep, nonempty_app, app_nil_r. Qed.

Lemma partition_app_found (c : ascii) (a x h t : string) :
  Py.partition c a = (h, true, t) ->
  Py.partition c (a ++ x) = (h, true, t ++ x).
Proof.
  revert h t. induction a as [|y a IH]; intros h t; cbn; [discriminate|].
  destruct (Ascii.eqb y c).
  - intro H; inversion H; subst; reflexivity.
  - destruct (Py.partition c a) as [[h' f'] t'].
    intro H; inversion H; subst. now rewrite (IH h' t).
Qed.

Lemma partition_app_absent (c : ascii) (a x : string) :
  Py.has_char c a = false ->
  Py.partition c (a ++ x)
  = let '(h, f, t) := Py.partition c x in (a ++ h, f, t).
Proof.
  induction a as [|y a IH]; cbn.
  - intros _. destruct (Py.partition c x) as [[h f] t]; reflexivity.
  - destruct (Ascii.eqb y c); [discriminate|]. cbn. intro H.
    rewrite (IH H). destruct (Py.partition c x) as [[h f] t]; reflexivity.
Qed.

Lemma partition_absent (c : ascii) (a : string) :
  Py.has_char c a = false -> Py.partition c a = (a, false, "").
Proof.
  intro H. pose proof (partition_app_absent c a "" H) as P.
  rewrite app_nil_r_s in P. rewrite P. cbn. now rewrite app_nil_r_s.
Qed.

Lemma partition_found_or_absent (c : ascii) (a : string) :
  (exists h t, Py.partition c a = (h, true, t) /\ a = h ++ String c t) \/
  Py.has_char c a = false.
Proof.
  induction a as [|y a IH]; cbn; [now right|].
  destruct (Ascii.eqb y c) eqn:E.
  - left. exists "", a. apply Ascii.eqb_eq in E. subst. split; reflexivity.
  - destruct IH as [[h [t [H1 H2]]]|H].
    + left. exists (String y h), t. rewrite H1. split; [reflexivity|].
      cbn. now rewrite <- H2.
    + right. exact H.
Qed.

(** ** Facts about [urlparse] *)

Lemma has_char_lstrip (c : ascii) (p : ascii -> bool) (s : string) :
  Py.has_char c s = false -> Py.has_char c (Py.lstrip p s) = false.
Proof.
  induction s as [|a s IH]; cbn; [reflexivity|].
  intro H. apply orb_false_iff in H as [H1 H2].
  destruct (p a); [now apply IH | cbn; now rewrite H1, H2].
Qed.

Lemma has_char_remove (c : ascii) (p : ascii -> bool) (s : string) :
  Py.has_char c s = false -> Py.has_char c (Py.remove_chars p s) = false.
Proof.
  induction s as [|a s IH]; cbn; [reflexivity|].
  intro H. apply orb_false_iff in H as [H1 H2].
  destruct (p a); [now apply IH | cbn; now rewrite H1, IH].
Qed.

Lemma lstrip_app_stop (p : ascii -> bool) (a : string) (d : ascii) (x : string) :
  p d = false ->
  Py.lstrip p (a ++ String d x) = Py.lstrip p a ++ String d x.
Proof.
  intro Hd. induction a as [|y a IH]; cbn; [now rewrite Hd|].
  destruct (p y); [exact IH | reflexivity].
Qed.

Lemma remove_chars_app (p : ascii -> bool) (a b : string) :
  Py.remove_chars p (a ++ b) = Py.remove_chars p a ++ Py.remove_chars p b.
Proof.
  induction a as [|y a IH]; cbn; [reflexivity|].
  destruct (p y); now rewrite IH.
Qed.

Lemma cleaned_app (a : string) (d : ascii) (x : string) :
  Url.c0_or_space d = false ->
  cleaned (a ++ String d x) = cleaned a ++ String d (Py.remove_chars Url.unsafe_byte x).
Proof.
  intro Hd. unfold cleaned. rewrite (lstrip_app_stop _ _ _ _ Hd), remove_chars_app.
  cbn. replace (Url.unsafe_byte d) with false; [reflexivity|].
  unfold Url.c0_or_space in Hd. unfold Url.unsafe_byte.
  apply Nat.leb_gt in Hd.
  symmetry. repeat (apply orb_false_iff; split); apply Nat.eqb_neq; lia.
Qed.

Lemma has_char_cleaned (c : ascii) (s : string) :
  Py.has_char c s = false -> Py.has_char c (cleaned s) = false.
Proof. intro H. now apply has_char_remove, has_char_lstrip. Qed.

Lemma forallb_str_stop (p : ascii -> bool) (a : string) (d : ascii) (x : string) :
  p d = false -> Py.forallb_str p (a ++ String d x) = false.
Proof.
  intro Hd. rewrite forallb_str_app. cbn. rewrite Hd. cbn. apply andb_false_r.
Qed.

(** The scheme of a text is not affected by what follows a character that
    cannot be part of a scheme. *)
Lemma split_scheme_app (a : string) (d : ascii) (x : string) :
  Url.scheme_char d = false -> Ascii.eqb d ":" = false ->
  Url.split_scheme (a ++ String d x)
  = (fst (Url.split_scheme a), snd (Url.split_scheme a) ++ String d x).
Proof.
  intros Hd Hc. unfold Url.split_scheme.
  destruct (partition_found_or_absent ":" a) as [[h [t [H1 H2]]]|H].
  - rewrite (partition_app_found _ _ (String d x) _ _ H1), H1.
    assert (F : Url.first_is_alpha (a ++ String d x) = Url.first_is_alpha a).
    { rewrite H2. destruct h; reflexivity. }
    rewrite F.
    destruct (true && negb (String.eqb h "") && Url.first_is_alpha a
              && Py.forallb_str Url.scheme_char h); reflexivity.
  - rewrite (partition_app_absent _ _ _ H), (partition_absent _ _ H).
    cbn [Py.partition]. rewrite Hc.
    destruct (Py.partition ":" x) as [[h f] t].
    rewrite (forallb_str_stop _ _ _ _ Hd). rewrite !andb_false_r. reflexivity.
Qed.

Lemma split_scheme_suffix (c : ascii) (a : string) :
  Py.has_char c a = false -> Py.has_char c (snd (Url.split_scheme a)) = false.
Proof.
  intro H. unfold Url.split_scheme.
  destruct (partition_found_or_absent ":" a) as [[h [t [H1 H2]]]|H'].
  - rewrite H1. destruct (_ && _); cbn; [|exact H].
    rewrite H2, has_char_app in H. apply orb_false_iff in H as [_ H].
    cbn in H. now apply orb_false_iff in H as [_ H].
  - rewrite (partition_absent _ _ H'). cbn. exact H.
Qed.

Lemma span_until_app_stop (p : ascii -> bool) (a : string) (d : ascii) (x : string) :
  p d = true ->
  Url.span_until p (a ++ String d x)
  = (fst (Url.span_until p a), snd (Url.span_until p a) ++ String d x).
Proof.
  intro Hd. induction a as [|y a IH]; cbn; [now rewrite Hd|].
  destruct (p y); [reflexivity|].
  rewrite IH. destruct (Url.span_until p a); reflexivity.
Qed.

Lemma span_until_suffix (c : ascii) (p : ascii -> bool) (a : string) :
  Py.has_char c a = false -> Py.has_char c (snd (Url.span_until p a)) = false.
Proof.
  induction a as [|y a IH]; cbn; [reflexivity|].
  intro H. destruct (p y); [exact H|].
  apply orb_false_iff in H as [_ H]. specialize (IH H).
  destruct (Url.span_until p a); exact IH.
Qed.

(** The network location is not affected by a query appended to a text
    without one. *)
Lemma split_netloc_query (r x : string) :
  Url.split_netloc (r ++ String "?" x)
  = (fst (Url.split_netloc r), snd (Url.split_netloc r) ++ String "?" x).
Proof.
  destruct r as [|a [|b r]]; cbn; try reflexivity.
  - destruct a as [[] [] [] [] [] [] [] []]; reflexivity.
  - destruct (Ascii.eqb a "/") eqn:Ea.
    + apply Ascii.eqb_eq in Ea; subst.
      destruct (Ascii.eqb b "/") eqn:Eb.
      * apply Ascii.eqb_eq in Eb; subst.
        rewrite (span_until_app_stop Url.netloc_delim r "?" x eq_refl).
        destruct (Url.span_until Url.netloc_delim r); reflexivity.
      * assert (b <> "/"%char) by now apply Ascii.eqb_neq.
        destruct b as [[] [] [] [] [] [] [] []]; try reflexivity; congruence.
    + assert (a <> "/"%char) by now apply Ascii.eqb_neq.
      destruct a as [[] [] [] [] [] [] [] []]; try reflexivity; congruence.
Qed.

Lemma split_netloc_suffix (c : ascii) (r : string) :
  Py.has_char c r = false -> Py.has_char c (snd (Url.split_netloc r)) = false.
Proof.
  intro H. unfold Url.split_netloc.
  destruct r as [|a [|b r]]; try exact H.
  - destruct a as [[] [] [] [] [] [] [] []]; exact H.
  - destruct (Ascii.eqb a "/") eqn:Ea.
    + apply Ascii.eqb_eq in Ea; subst.
      destruct (Ascii.eqb b "/") eqn:Eb.
      * apply Ascii.eqb_eq in Eb; subst. apply span_until_suffix.
        cbn in H. apply orb_false_iff in H as [_ H].
        now apply orb_false_iff in H as [_ H].
      * assert (b <> "/"%char) by now apply Ascii.eqb_neq.
        destruct b as [[] [] [] [] [] [] [] []]; try exact H; congruence.
    + assert (a <> "/"%char) by now apply Ascii.eqb_neq.
      destruct a as [[] [] [] [] [] [] [] []]; try exact H; congruence.
Qed.

(** The path the two cuts leave, with and without a query. *)
Lemma cuts_query (y x : string) :
  Py.has_char "#" y = false -> Py.has_char "?" y = false ->
  fst (Url.cut "?" (fst (Url.cut "#" (y ++ String "?" x)))) = y /\
  fst (Url.cut "?" (fst (Url.cut "#" y))) = y.
Proof.
  intros Hh Hq. split.
  - unfold Url.cut at 2. rewrite (partition_app_absent _ _ _ Hh).
    cbn [Py.partition]. cbn [Ascii.eqb Bool.eqb].
    destruct (Py.partition "#" x) as [[h f] t]. cbn.
    assert (E : forall z, fst (Url.cut "?" (y ++ String "?" z)) = y).
    { intro z. unfold Url.cut. rewrite (partition_app_absent _ _ _ Hq).
      cbn. apply app_nil_r_s. }
    destruct f; cbn; apply E.
  - unfold Url.cut. rewrite (partition_absent _ _ Hh). cbn.
    rewrite (partition_absent _ _ Hq). reflexivity.
Qed.

Lemma urlparse_path_query (u q : string) :
  Py.has_char "?" u = false -> Py.has_char "#" u = false ->
  path_of (u ++ "?" ++ q) = path_of u.
Proof.
  intros Hq Hh. unfold path_of, Url.urlparse, Url.urlsplit.
  fold (cleaned (u ++ "?" ++ q)). fold (cleaned u).
  cbn [append]. rewrite (cleaned_app u "?" q eq_refl).
  rewrite (split_scheme_app (cleaned u) "?" _ eq_refl eq_refl).
  pose proof (split_scheme_suffix "?" _ (has_char_cleaned "?" u Hq)) as Sq.
  pose proof (split_scheme_suffix "#" _ (has_char_cleaned "#" u Hh)) as Sh.
  destruct (Url.split_scheme (cleaned u)) as [sch r]. cbn [fst snd] in *.
  rewrite split_netloc_query.
  pose proof (split_netloc_suffix "?" _ Sq) as Nq.
  pose proof (split_netloc_suffix "#" _ Sh) as Nh.
  destruct (Url.split_netloc r) as [nl y]. cbn [fst snd] in *.
  destruct (Url.netloc_error nl); [reflexivity|].
  destruct (cuts_query y (Py.remove_chars Url.unsafe_byte q) Nh Nq) as [C1 C2].
  destruct (Url.cut "#" (y ++ String "?" _)) as [p1 f1].
  destruct (Url.cut "#" y) as [p2 f2]. cbn [fst] in *.
  destruct (Url.cut "?" p1) as [p1' q1]. destruct (Url.cut "?" p2) as [p2' q2].
  cbn [fst] in *. subst. cbn [rbind ok Url.scheme Url.path].
  destruct (Url.mem sch Url.uses_params && Py.has_char ";" y).
  - destruct (Url.splitparams y); reflexivity.
  - reflexivity.
Qed.

Lemma split_netloc_cases (r : string) :
  (exists r', r = "//" ++ r' /\ Url.split_netloc r = Url.span_until Url.netloc_delim r') \/
  (Py.startswith r "//" = false /\ Url.split_netloc r = ("", r)).
Proof.
  destruct r as [|a [|b r]].
  - right. split; reflexivity.
  - right. split; [cbn; now rewrite andb_false_r|].
    destruct a as [[] [] [] [] [] [] [] []]; reflexivity.
  - destruct (Ascii.eqb_spec "/" a) as [Ea|Ea]; [destruct (Ascii.eqb_spec "/" b) as [Eb|Eb]|].
    + subst. left. exists r. split; reflexivity.
    + right. split.
      * cbn [Py.startswith]. apply Ascii.eqb_neq in Eb. rewrite Eb. apply andb_false_r.
      * subst. destruct b as [[] [] [] [] [] [] [] []]; try reflexivity; congruence.
    + right. split.
      * cbn [Py.startswith]. apply Ascii.eqb_neq in Ea. now rewrite Ea.
      * destruct a as [[] [] [] [] [] [] [] []]; try reflexivity; congruence.
Qed.

(** A slash appended after the scheme: the network location stays, and the
    rest gains the slash, except when the rest is a single slash, which the
    new one turns into an empty network location. *)
Lemma split_netloc_slash (r : string) :
  r <> "/" ->
  Url.split_netloc (r ++ "/")
  = (fst (Url.split_netloc r), snd (Url.split_netloc r) ++ "/").
Proof.
  intro Hr. destruct (split_netloc_cases r) as [[r' [E1 E2]]|[E1 E2]].
  - subst r. rewrite E2. cbn [append Url.split_netloc].
    rewrite (span_until_app_stop Url.netloc_delim r' "/" "" eq_refl).
    reflexivity.
  - rewrite E2. cbn [fst snd].
    destruct (split_netloc_cases (r ++ "/")) as [[r' [F1 F2]]|[F1 F2]];
      [|exact F2].
    exfalso. destruct r as [|a [|b r]]; cbn [append] in F1.
    + discriminate.
    + inversion F1; subst. now apply Hr.
    + inversion F1; subst. cbn in E1. destruct r; discriminate.
Qed.

Lemma partition_no_char (c : ascii) (s : string) :
  Py.has_char c s = false -> Url.cut c s = (s, "").
Proof. intro H. unfold Url.cut. now rewrite (partition_absent _ _ H). Qed.

Lemma urlparse_path_slash (u : string) :
  Py.has_char "?" u = false -> Py.has_char "#" u = false ->
  Py.has_char ";" u = false ->
  path_of (u ++ "/") = rbind (path_of u) (fun p => ok (p ++ "/")) \/
  (path_of u = inr "/" /\ path_of (u ++ "/") = inr "").
Proof.
  intros Hq Hh Hs. unfold path_of, Url.urlparse, Url.urlsplit.
  fold (cleaned (u ++ "/")). fold (cleaned u).
  rewrite (cleaned_app u "/" "" eq_refl). cbn [Py.remove_chars].
  rewrite (split_scheme_app (cleaned u) "/" _ eq_refl eq_refl).
  pose proof (split_scheme_suffix "?" _ (has_char_cleaned "?" u Hq)) as Sq.
  pose proof (split_scheme_suffix "#" _ (has_char_cleaned "#" u Hh)) as Sh.
  pose proof (split_scheme_suffix ";" _ (has_char_cleaned ";" u Hs)) as Ss.
  destruct (Url.split_scheme (cleaned u)) as [sch r]. cbn [fst snd] in *.
  destruct (String.eqb r "/") eqn:Er.
  - apply String.eqb_eq in Er. subst r. right. cbn. rewrite andb_false_r.
    split; reflexivity.
  - apply String.eqb_neq in Er. left. rewrite (split_netloc_slash r Er).
    pose proof (split_netloc_suffix "?" _ Sq) as Nq.
    pose proof (split_netloc_suffix "#" _ Sh) as Nh.
    pose proof (split_netloc_suffix ";" _ Ss) as Ns.
    destruct (Url.split_netloc r) as [nl y]. cbn [fst snd] in *.
    destruct (Url.netloc_error nl); [reflexivity|].
    assert (A : forall c, Py.has_char c y = false -> Ascii.eqb "/" c = false ->
                          Py.has_char c (y ++ "/") = false).
    { intros c H1 H2. rewrite has_char_app, H1. cbn [Py.has_char]. now rewrite H2. }
    rewrite (partition_no_char "#" (y ++ "/") (A _ Nh eq_refl)).
    rewrite (partition_no_char "?" (y ++ "/") (A _ Nq eq_refl)).
    rewrite (partition_no_char "#" y Nh), (partition_no_char "?" y Nq).
    cbn [rbind ok Url.scheme Url.path].
    rewrite (A _ Ns eq_refl), Ns, !andb_false_r. reflexivity.
Qed.

(** ** Query strings and trailing slashes in derived names *)

Lemma derive_by_path (url : string) :
  cumslutx.derive_filename_from_url url
  = rbind (path_of url) (fun p =>
      let name := Py.sanitize (Py.last_or (Py.nonempty (Py.split "/" p)) "video") in
      ok (if negb (Py.endswith (Py.lower name) ".mp4") then name ++ ".mp4" else name)).
Proof.
  unfold cumslutx.derive_filename_from_url, path_of, rbind.
  destruct (Url.urlparse url); reflexivity.
Qed.

Lemma filename_by_path (url : string) :
  thothub._filename_from_url url
  = rbind (path_of url) (fun p => ok (Py.basename (Py.rstrip Py.is_slash p))).
Proof.
  unfold thothub._filename_from_url, path_of, rbind.
  destruct (Url.urlparse url); reflexivity.
Qed.

(** A function of the path that ignores one trailing slash gives the same
    result on a URL and on the URL followed by a slash and a query. *)
Lemma path_function_slash_query {A} (g : string -> A) (base q : string) :
  (forall p, g (p ++ "/") = g p) ->
  Py.has_char "?" base = false -> Py.has_char "#" base = false ->
  Py.has_char ";" base = false ->
  rbind (path_of (base ++ "/" ++ "?" ++ q)) (fun p => ok (g p))
  = rbind (path_of base) (fun p => ok (g p)).
Proof.
  intros Hg Hq Hh Hs.
  assert (E : base ++ "/" ++ "?" ++ q = (base ++ "/") ++ "?" ++ q)
    by now rewrite app_assoc_s.
  rewrite E, urlparse_path_query.
  - destruct (urlparse_path_slash base Hq Hh Hs) as [H|[H1 H2]].
    + rewrite H. destruct (path_of base); cbn; [reflexivity|]. now rewrite Hg.
    + rewrite H1, H2. cbn. now rewrite <- (Hg "").
  - rewrite has_char_app, Hq. reflexivity.
  - rewrite has_char_app, Hh. reflexivity.
Qed.

(** ** The exit status of [main] *)

Lemma registry_modules_named (k : string) (info : cli.site_info) :
  cli.get cli._site_registry k = Some info -> String.eqb (cli.module info) "" = false.
Proof.
  unfold cli._site_registry. cbn [cli.get].
  repeat match goal with
         | |- context [String.eqb ?a k] => destruct (String.eqb a k)
         end;
    intro H; inversion H; reflexivity.
Qed.

Lemma truthy_some (s : string) : s <> "" -> Py.truthy (Some s) = true.
Proof. intro H. cbn. apply String.eqb_neq in H. now rewrite H. Qed.

Ltac finish k :=
  let Hg := fresh "Hg" in
  destruct (cli.get cli._site_registry k) as [info|] eqn:Hg; [|reflexivity];
  rewrite (registry_modules_named k info Hg);
  match goal with
  | |- context [cli.import_module ?w ?p] =>
      destruct (cli.import_module w p) as [e|m]; [reflexivity|]
  end;
  unfold catch;
  match goal with
  | |- context [cli.dispatch ?w ?m ?a ?t] =>
      destruct (cli.dispatch w m a t) as [[e|rc] t']; reflexivity
  end.

Lemma main_selected (w : Env) (ver help : string) (args : cli.Args)
      (k : string) :
  cli.version args = false -> Py.truthy (cli.url args) = true ->
  selects args k ->
  fst (run (cli.main w ver help args))
  = match cli.get cli._site_registry k with
    | None => inr 2%Z
    | Some info =>
        match cli.import_module w (cli.module info) with
        | inl _ => inr 3%Z
        | inr m => exit_of (fst (cli.dispatch w m args (announced args k)))
        end
    end.
Proof.
  intros Hv Hu [Hk Hs].
  unfold run, cli.main. rewrite Hv, Hu. cbn [negb].
  destruct Hs as [Hs|[Hs [u [U1 U2]]]].
  - unfold announced. rewrite Hs, (truthy_some k Hk). cbn [negb].
    unfold bind at 1. unfold ret at 1. rewrite (truthy_some k Hk). cbn [negb str_of].
    finish k.
  - unfold announced. rewrite Hs. cbn [negb].
    rewrite U1. cbn [str_of]. rewrite U2.
    unfold bind at 1. unfold bind at 1. unfold bind at 1. unfold lift.
    rewrite (truthy_some k Hk). cbn [str_of].
    unfold bind at 1. unfold cli.print at 1, emit, ret at 1. cbn [app negb].
    unfold ret at 1.
    rewrite (truthy_some k Hk). cbn [negb str_of].
    finish k.
Qed.

Lemma http_get_text_ok (w : Env) (r : response) (u : string) (hs : headers)
      (n : nat) (t : trace) :
  requests_get w u hs = inr r -> status_error r = None ->
  http_get_text w u hs n t = (inr (text r), (t ++ [Get u hs n])%list).
Proof.
  intros H1 H2. unfold http_get_text, bind, emit, lift, fail_if, ret.
  now rewrite H1, H2.
Qed.

Section Dispatch.
Variables (w : Env) (args : cli.Args) (page_url out : string) (r : response) (rc : Z).
Hypothesis Hurl : cli.url args = Some page_url.
Hypothesis Hout : cli.output args = Some out.
Hypothesis Hout_ne : out <> "".
Hypothesis Hget : forall u hs, requests_get w u hs = inr r.
Hypothesis Hstatus : status_error r = None.
Hypothesis Hstream : stream_error r = None.
Hypothesis Hrun : forall cmd, subprocess_run w cmd = inr rc.
Hypothesis Hmkdir : forall p, mkdir_error w p = None.
Hypothesis Hopen : forall p, open_error w p = None.

Ltac fetch := rewrite (http_get_text_ok w r _ _ _ _ (Hget _ _) Hstatus).
Ltac start m :=
  unfold cli.dispatch, m; cbn [cli.m_full_download_from_page cli.m_fetch_page
    cli.m_extract_mp4_url cli.m_download cli.m_extract_iframe_src
    cli.m_extract_m3u8_from_html];
  rewrite Hurl, Hout; cbn [str_of].
Ltac subprocess :=
  unfold subprocess_returncode, bind, emit, lift, ret; rewrite Hrun; reflexivity.

Lemma dispatch_influencersgonewild (t : trace) :
  fst (cli.dispatch w (cli.module_influencersgonewild w) args t)
  = if Py.truthy (influencersgonewild.extract_mp4_url w (text r)) then inr rc
    else inr 4%Z.
Proof.
  start cli.module_influencersgonewild. unfold bind at 1.
  unfold influencersgonewild.fetch_page. fetch.
  destruct (Py.truthy (influencersgonewild.extract_mp4_url w (text r))) eqn:E;
    cbn [negb]; [|reflexivity].
  unfold influencersgonewild.download. rewrite E, (truthy_some out Hout_ne).
  cbn [negb].
  unfold subprocess_returncode, mkdir_p, bind, emit, lift, fail_if, ret.
  destruct (path_exists w _); cbn [negb]; try rewrite Hmkdir;
    rewrite Hrun; reflexivity.
Qed.

Lemma streamed (u : string) (hs : headers) (p : Path.path) (t : trace) :
  fst (stream_to_file w u hs p t) = inr tt.
Proof.
  unfold stream_to_file, bind, emit, lift, fail_if, ret.
  rewrite Hget, Hstatus, Hopen, Hstream.
  destruct (write_chunks_opened p (chunks r) ((t ++ [Get u hs 30]) ++ [OpenWrite p])%list)
    as [x [H1 H2]].
  destruct (write_chunks p (chunks r) _) as [[e|[]] t']; cbn in *; congruence.
Qed.

Lemma dispatch_thothub (t : trace) :
  fst (cli.dispatch w (cli.module_thothub w) args t)
  = if Py.truthy (thothub.extract_mp4_url (text r)) then inr 0%Z else inr 4%Z.
Proof.
  start cli.module_thothub. unfold bind at 1.
  unfold thothub.fetch_page. fetch.
  destruct (Py.truthy (thothub.extract_mp4_url (text r))) eqn:E;
    cbn [negb]; [|reflexivity].
  unfold thothub.download. rewrite E, (truthy_some out Hout_ne). cbn [negb].
  unfold bind at 1. unfold ret at 1. unfold bind at 1. unfold mkdir_p.
  unfold bind at 1. unfold emit at 1. unfold fail_if. rewrite Hmkdir.
  unfold ret at 1. unfold bind at 1.
  match goal with
  | |- context [stream_to_file w ?u ?hs ?p ?t] =>
      pose proof (streamed u hs p t) as S;
      destruct (stream_to_file w u hs p t) as [[e|[]] t']
  end; cbn in S; [discriminate | reflexivity].
Qed.

Lemma dispatch_thotfans (t : trace) :
  fst (cli.dispatch w (cli.module_thotfans w) args t)
  = if Py.truthy (thotfans.extract_mp4_url (text r)) then inr 0%Z else inr 4%Z.
Proof.
  start cli.module_thotfans. unfold bind at 1.
  unfold thotfans.fetch_page. fetch.
  destruct (Py.truthy (thotfans.extract_mp4_url (text r))) eqn:E;
    cbn [negb]; [|reflexivity].
  unfold thotfans.download. rewrite E, (truthy_some out Hout_ne). cbn [negb].
  unfold bind at 1. unfold ret at 1. unfold bind at 1. unfold mkdir_p.
  unfold bind at 1. unfold emit at 1. unfold fail_if. rewrite Hmkdir.
  unfold ret at 1. unfold bind at 1.
  match goal with
  | |- context [stream_to_file w ?u ?hs ?p ?t] =>
      pose proof (streamed u hs p t) as S;
      destruct (stream_to_file w u hs p t) as [[e|[]] t']
  end; cbn in S; [discriminate | reflexivity].
Qed.

Lemma dispatch_cumslutx (t : trace) :
  fst (cli.dispatch w (cli.module_cumslutx w) args t)
  = if Py.truthy (cumslutx.extract_mp4_url w (text r)) then inr rc
    else inl (RuntimeError "No .mp4 URL found on page").
Proof.
  start cli.module_cumslutx. unfold cumslutx.full_download_from_page.
  unfold bind at 1. unfold cumslutx.fetch_page. fetch.
  destruct (Py.truthy (cumslutx.extract_mp4_url w (text r))) eqn:E;
    cbn [negb]; [|reflexivity].
  unfold bind at 1. unfold ret at 1.
  unfold cumslutx.download. rewrite E. cbn [negb].
  unfold bind at 1. unfold ret at 1. subprocess.
Qed.

Lemma dispatch_simpthots (t : trace) :
  fst (cli.dispatch w (cli.module_simpthots w) args t)
  = if Py.truthy (simpthots.extract_mp4_url w (text r)) then inr rc
    else inl (RuntimeError "No .mp4 URL found on page").
Proof.
  start cli.module_simpthots. unfold simpthots.full_download_from_page.
  unfold bind at 1. unfold simpthots.fetch_page. fetch.
  destruct (Py.truthy (simpthots.extract_mp4_url w (text r))) eqn:E;
    cbn [negb]; [|reflexivity].
  unfold bind at 1. unfold ret at 1.
  unfold simpthots.download. rewrite E. cbn [negb].
  unfold bind at 1. unfold ret at 1. subprocess.
Qed.

Lemma dispatch_eroleaked (t : trace) :
  fst (cli.dispatch w (cli.module_eroleaked w) args t)
  = if Py.truthy (eroleaked.extract_iframe_src w (text r)) then
      if Py.truthy (eroleaked.extract_m3u8_from_html (text r)) then inr rc
      else inl (RuntimeError "No .m3u8 found in iframe page")
    else inl (RuntimeError "No iframe found on page").
Proof.
  start cli.module_eroleaked. unfold eroleaked.full_download_from_page.
  unfold bind at 1. unfold eroleaked.fetch_page. fetch.
  destruct (Py.truthy (eroleaked.extract_iframe_src w (text r))) eqn:E;
    cbn [negb]; [|reflexivity].
  unfold bind at 1. fetch.
  destruct (Py.truthy (eroleaked.extract_m3u8_from_html (text r))) eqn:E2;
    cbn [negb]; [|reflexivity].
  unfold eroleaked.download. rewrite E2. cbn [negb]. subprocess.
Qed.

Lemma dispatch_amateurdoporn (t : trace) :
  fst (cli.dispatch w (cli.module_amateurdoporn w) args t)
  = if Py.truthy (amateurdoporn.extract_m3u8_from_text (text r)) then inr rc
    else inl (RuntimeError "No .m3u8 URL found on page or iframe").
Proof.
  start cli.module_amateurdoporn. unfold amateurdoporn.full_download_from_page.
  unfold bind at 1. unfold amateurdoporn.fetch_page. fetch.
  destruct (Py.truthy (amateurdoporn.extract_m3u8_from_text (text r))) eqn:E.
  - unfold amateurdoporn.download. rewrite E. cbn [negb]. subprocess.
  - destruct (Py.truthy (amateurdoporn.extract_iframe_src w (text r)));
      [|reflexivity].
    unfold bind at 1. fetch. rewrite E. reflexivity.
Qed.

End Dispatch.

(** C1, as stated, fails for the modules with a high-level helper: on a
    cumslutx page without any media URL, [main] returns 5 and not 4. *)
Lemma main_returns_5_when_cumslutx_finds_no_media :
  cumslutx.extract_mp4_url
    (sample_env text_only (fun _ => page "nothing to see") (ok 0%Z) 0%Z)
    "nothing to see" = None /\
  fst (run (cli.main
              (sample_env text_only (fun _ => page "nothing to see") (ok 0%Z) 0%Z)
              "0.1.0" "usage: super-dl"
              {| cli.version := false; cli.site := None;
                 cli.url := Some "https://cumslutx.com/some-name/";
                 cli.output := None |}))
  = inr 5%Z.
Proof. split; vm_compute; reflexivity. Qed.

Ltac by_site sel Hv Hu Himp lem :=
  rewrite (main_selected _ _ _ _ _ Hv Hu sel);
  cbn [cli.get cli._site_registry String.eqb Ascii.eqb Bool.eqb cli.module];
  unfold cli.import_module; rewrite Himp;
  cbn [cli.site_module String.eqb Ascii.eqb Bool.eqb]; unfold ok;
  rewrite lem by assumption;
  repeat match goal with |- context [Py.truthy ?x] => destruct (Py.truthy x) end;
  reflexivity.

(** C1 (amended). [main] returns 0 on [--version]; 1 without a URL; 2 when
    no site is given or inferred, or the key is not in the registry; 3 when
    the import raises; and otherwise what the dispatch to the module gives:
    the value the module returns, or 5 when the module raises or exposes no
    supported interface.  For influencersgonewild, thothub and thotfans,
    which [main] drives itself, a page without media URL gives 4.  For
    cumslutx, simpthots, eroleaked and amateurdoporn, whose
    [full_download_from_page] raises when the page (or the iframe) has no
    media URL, it gives 5.  A download that goes through returns the exit
    code [rc] of the external tool as it is (0 from the streaming
    downloaders). *)
Theorem main_exit_status :
  forall (w : Env) (ver help : string) (args : cli.Args),
    (cli.version args = true ->
     fst (run (cli.main w ver help args)) = inr 0%Z) /\
    (cli.version args = false -> Py.truthy (cli.url args) = false ->
     fst (run (cli.main w ver help args)) = inr 1%Z) /\
    (cli.version args = false ->
     forall u, cli.url args = Some u -> u <> "" ->
               Py.truthy (cli.site args) = false ->
               cli.infer_site_from_url u = inr None ->
     fst (run (cli.main w ver help args)) = inr 2%Z) /\
    (cli.version args = false -> Py.truthy (cli.url args) = true ->
     forall k, selects args k ->
     fst (run (cli.main w ver help args))
     = match cli.get cli._site_registry k with
       | None => inr 2%Z
       | Some info =>
           match cli.import_module w (cli.module info) with
           | inl _ => inr 3%Z
           | inr m => exit_of (fst (cli.dispatch w m args (announced args k)))
           end
       end) /\
    (forall t,
       fst (cli.dispatch w
              {| cli.m_full_download_from_page := None; cli.m_fetch_page := None;
                 cli.m_extract_mp4_url := None; cli.m_extract_iframe_src := None;
                 cli.m_extract_m3u8_from_html := None; cli.m_download := None |}
              args t) = inr 5%Z) /\
    (cli.version args = false ->
     forall (u out : string) (r : response) (rc : Z),
       cli.url args = Some u -> u <> "" ->
       cli.output args = Some out -> out <> "" ->
       (forall x hs, requests_get w x hs = inr r) ->
       status_error r = None -> stream_error r = None ->
       (forall cmd, subprocess_run w cmd = inr rc) ->
       (forall p, mkdir_error w p = None) ->
       (forall p, open_error w p = None) ->
       (forall p, import_error w p = None) ->
       (selects args "influencersgonewild" ->
        fst (run (cli.main w ver help args))
        = if Py.truthy (influencersgonewild.extract_mp4_url w (text r))
          then inr rc else inr 4%Z) /\
       (selects args "thothub" ->
        fst (run (cli.main w ver help args))
        = if Py.truthy (thothub.extract_mp4_url (text r))
          then inr 0%Z else inr 4%Z) /\
       (selects args "thotfans" ->
        fst (run (cli.main w ver help args))
        = if Py.truthy (thotfans.extract_mp4_url (text r))
          then inr 0%Z else inr 4%Z) /\
       (selects args "cumslutx" ->
        fst (run (cli.main w ver help args))
        = if Py.truthy (cumslutx.extract_mp4_url w (text r))
          then inr rc else inr 5%Z) /\
       (selects args "simpthots" ->
        fst (run (cli.main w ver help args))
        = if Py.truthy (simpthots.extract_mp4_url w (text r))
          then inr rc else inr 5%Z) /\
       (selects args "eroleaked" ->
        fst (run (cli.main w ver help args))
        = if Py.truthy (eroleaked.extract_iframe_src w (text r))
             && Py.truthy (eroleaked.extract_m3u8_from_html (text r))
          then inr rc else inr 5%Z) /\
       (selects args "amateurdoporn" ->
        fst (run (cli.main w ver help args))
        = if Py.truthy (amateurdoporn.extract_m3u8_from_text (text r))
          then inr rc else inr 5%Z)).
Proof.
  intros w ver help args.
  split; [|split; [|split; [|split; [|split]]]].
  - intro Hv. unfold run, cli.main. rewrite Hv. reflexivity.
  - intros Hv Hu. unfold run, cli.main. rewrite Hv, Hu. reflexivity.
  - intros Hv u Hu Hne Hs Hi. unfold run, cli.main.
    rewrite Hv, Hu, (truthy_some u Hne), Hs. cbn [negb str_of]. rewrite Hi.
    reflexivity.
  - intros Hv Hu k Hk. now apply main_selected.
  - intro t. reflexivity.
  - intros Hv u out r rc Hu Hne Ho Hone Hget Hst Hse Hrun Hmk Hop Himp.
    assert (Hu' : Py.truthy (cli.url args) = true)
      by (rewrite Hu; now apply truthy_some).
    repeat split; intro sel.
    + by_site sel Hv Hu' Himp (dispatch_influencersgonewild w args u out r rc).
    + by_site sel Hv Hu' Himp (dispatch_thothub w args u out r).
    + by_site sel Hv Hu' Himp (dispatch_thotfans w args u out r).
    + by_site sel Hv Hu' Himp (dispatch_cumslutx w args u out r rc).
    + by_site sel Hv Hu' Himp (dispatch_simpthots w args u out r rc).
    + by_site sel Hv Hu' Himp (dispatch_eroleaked w args u out r rc).
    + by_site sel Hv Hu' Himp (dispatch_amateurdoporn w args u out r rc).
Qed.

Lemma main_exit_status_witness :
  fst (run (cli.main
              (sample_env text_only (fun _ => page "nothing to see") (ok 0%Z) 0%Z)
              "0.1.0" "usage: super-dl"
              {| cli.version := false; cli.site := None;
                 cli.url := Some "https://thothub.to/videos/1/";
                 cli.output := Some "out.mp4" |}))
  = inr 4%Z.
Proof.
  pose proof (main_exit_status
       (sample_env text_only (fun _ => page "nothing to see") (ok 0%Z) 0%Z)
       "0.1.0" "usage: super-dl"
       {| cli.version := false; cli.site := None;
          cli.url := Some "https://thothub.to/videos/1/";
          cli.output := Some "out.mp4" |}) as H.
  destruct H as (_ & _ & _ & _ & _ & H).
  specialize (H eq_refl "https://thothub.to/videos/1/" "out.mp4"
    {| status_error := None; text := "nothing to see";
       chunks := ["nothing to see"]; stream_error := None |} 0%Z eq_refl).
  destruct H as (_ & H & _).
  - discriminate.
  - reflexivity.
  - discriminate.
  - intros; reflexivity.
  - reflexivity.
  - reflexivity.
  - intros; reflexivity.
  - intros; reflexivity.
  - intros; reflexivity.
  - intros; reflexivity.
  - apply H. split; [discriminate|]. right. split; [reflexivity|].
    exists "https://thothub.to/videos/1/". split; reflexivity.
Defined.

(** ** Relative iframe addresses *)

(** C6 at the failing input: the page of eroleaked holds an iframe with
    the path-relative address [embed/x]; the module requests that text as
    it is, not an absolute URL. *)
Theorem eroleaked_requests_relative_iframe_unresolved :
  requested (snd (run (eroleaked.full_download_from_page
     (sample_env (iframe_only "embed/x")
                 (fun _ => page "<iframe src='embed/x'></iframe>") (ok 0%Z) 0%Z)
     "https://eroleaked.com/2025/08/18/slug/" None)))
  = ["https://eroleaked.com/2025/08/18/slug/"; "embed/x"].
Proof. vm_compute. reflexivity. Qed.

(** A relative address that does not start with a slash is left as it is
    by eroleaked. *)
Lemma eroleaked_leaves_path_relative (src : string) :
  Py.startswith src "/" = false -> eroleaked.resolve_iframe_src src = src.
Proof.
  intro H. unfold eroleaked.resolve_iframe_src. rewrite H.
  replace (Py.startswith src "//") with false; [reflexivity|].
  destruct src as [|a src]; [reflexivity|].
  cbn [Py.startswith] in *. destruct (Ascii.eqb "/" a); [|reflexivity].
  cbn [andb] in H. destruct src; discriminate.
Qed.

(** The second request of eroleaked goes to the address as the module
    rewrote it, whatever the page URL. *)
Lemma eroleaked_requests_rewritten_iframe (w : Env) (url src : string)
      (out_path : option string) (r : response) :
  (forall u hs, requests_get w u hs = inr r) -> status_error r = None ->
  eroleaked.extract_iframe_src w (text r) = Some src -> src <> "" ->
  exists rest,
    requested (snd (run (eroleaked.full_download_from_page w url out_path)))
    = (url :: eroleaked.resolve_iframe_src src :: rest).
Proof.
  intros Hget Hst Hsrc Hne.
  unfold run, eroleaked.full_download_from_page, eroleaked.fetch_page.
  unfold bind at 1. rewrite (http_get_text_ok w r _ _ _ _ (Hget _ _) Hst).
  rewrite Hsrc, (truthy_some src Hne). cbn [negb str_of].
  unfold bind at 1. rewrite (http_get_text_ok w r _ _ _ _ (Hget _ _) Hst).
  destruct (Py.truthy (eroleaked.extract_m3u8_from_html (text r))) eqn:E; cbn [negb].
  - unfold eroleaked.download. rewrite E. cbn [negb].
    unfold subprocess_returncode, bind, emit, lift.
    destruct (subprocess_run w _); cbn [snd app requested]; eexists; reflexivity.
  - cbn [throw snd app requested]. eexists. reflexivity.
Qed.

(** The sibling flow of amateurdoporn requests the iframe address joined
    to the page URL by [urljoin]. *)
Lemma amateurdoporn_requests_joined_iframe (w : Env) (url src : string)
      (out_path : option string) (r : response) :
  (forall u hs, requests_get w u hs = inr r) -> status_error r = None ->
  Py.truthy (amateurdoporn.extract_m3u8_from_text (text r)) = false ->
  amateurdoporn.extract_iframe_src w (text r) = Some src -> src <> "" ->
  requested (snd (run (amateurdoporn.full_download_from_page w url out_path)))
  = [url; urljoin w url src].
Proof.
  intros Hget Hst Hm Hsrc Hne.
  unfold run, amateurdoporn.full_download_from_page, amateurdoporn.fetch_page.
  unfold bind at 1. rewrite (http_get_text_ok w r _ _ _ _ (Hget _ _) Hst).
  rewrite Hm, Hsrc, (truthy_some src Hne). cbn [str_of].
  unfold bind at 1. rewrite (http_get_text_ok w r _ _ _ _ (Hget _ _) Hst).
  rewrite Hm. reflexivity.
Qed.

(** The generic flow of [main] for a module with [extract_iframe_src] and
    [extract_m3u8_from_html] (fapnut) does the same. *)
Lemma main_flow_requests_joined_iframe (w : Env) (args : cli.Args)
      (url src : string) (r : response) :
  cli.url args = Some url ->
  (forall u hs, requests_get w u hs = inr r) -> status_error r = None ->
  fapnut.extract_iframe_src (text r) = Some src -> src <> "" ->
  Py.truthy (fapnut.extract_m3u8_from_html (text r)) = false ->
  requested (snd (run (cli.dispatch w (cli.module_fapnut w) args)))
  = [url; urljoin w url src].
Proof.
  intros Hurl Hget Hst Hsrc Hne Hm.
  unfold run, cli.dispatch, cli.module_fapnut.
  cbn [cli.m_full_download_from_page cli.m_fetch_page cli.m_extract_mp4_url
       cli.m_download cli.m_extract_iframe_src cli.m_extract_m3u8_from_html].
  rewrite Hurl. cbn [str_of]. unfold fapnut.fetch_page.
  unfold bind at 1. rewrite (http_get_text_ok w r _ _ _ _ (Hget _ _) Hst).
  rewrite Hsrc, (truthy_some src Hne). cbn [negb str_of].
  unfold bind at 1. rewrite (http_get_text_ok w r _ _ _ _ (Hget _ _) Hst).
  rewrite Hm. reflexivity.
Qed.

(** ** The textual scan for a bare URL *)

Lemma lit_app {R} (l : string) (prev : option ascii) (s : string)
      (k : @Re.cont R) :
  Re.lit false l prev (l ++ s) k = k (last_char prev l) s.
Proof.
  revert prev. induction l as [|a l IH]; intro prev; cbn; [reflexivity|].
  unfold Re.chr_eq. rewrite Ascii.eqb_refl, IH. f_equal.
  unfold last_char. cbn. unfold Py.rev. cbn.
  rewrite string_of_app. cbn.
  destruct (string_of_list_ascii (List.rev (list_ascii_of_string l))) eqn:E.
  - cbn. destruct l as [|b l]; [reflexivity|]. exfalso.
    cbn in E. rewrite string_of_app in E. cbn in E.
    destruct (string_of_list_ascii (List.rev (list_ascii_of_string l))); discriminate.
  - reflexivity.
Qed.

(** A literal does not match a text that does not start with it. *)
Lemma lit_mismatch {R} (l : string) (prev : option ascii) (s : string)
      (k : @Re.cont R) :
  Py.startswith s l = false -> Re.lit false l prev s k = None.
Proof.
  revert prev s. induction l as [|a l IH]; intros prev s; cbn.
  - destruct s; discriminate.
  - destruct s as [|b s]; [reflexivity|]. cbn. unfold Re.chr_eq.
    destruct (Ascii.eqb a b) eqn:E; [|reflexivity].
    cbn. intro H. now apply IH.
Qed.

(** A greedy star that can take [a] and succeeds after it succeeds. *)
Lemma star_greedy_skip {R} (p : ascii -> bool) (a s : string)
      (prev : option ascii) (k : @Re.cont R) (r : R) :
  Py.forallb_str p a = true ->
  Re.star_greedy p (last_char prev a) s k = Some r ->
  Re.star_greedy p prev (a ++ s) k = Some r.
Proof.
  revert prev. induction a as [|c a IH]; intros prev Ha Hs; cbn in *.
  - exact Hs.
  - apply andb_true_iff in Ha as [Hc Ha]. rewrite Hc.
    rewrite (IH (Some c) Ha); [reflexivity|].
    replace (last_char (Some c) a) with (last_char prev (String c a)); [exact Hs|].
    unfold last_char. cbn. unfold Py.rev. cbn. rewrite string_of_app. cbn.
    destruct (string_of_list_ascii (List.rev (list_ascii_of_string a))); reflexivity.
Qed.

Lemma length_app_s (a b : string) :
  String.length (a ++ b) = String.length a + String.length b.
Proof. induction a as [|c a IH]; cbn; [reflexivity | now rewrite IH]. Qed.

Lemma take_app (a b : string) :
  Py.take (String.length (a ++ b) - String.length b) (a ++ b) = a.
Proof.
  rewrite length_app_s, Nat.add_sub.
  induction a as [|c a IH]; cbn; [now destruct b | now rewrite IH].
Qed.

Lemma opt_first {R} (x y : option R) (r : R) :
  x = Some r -> match x with Some v => Some v | None => y end = Some r.
Proof. now intros ->. Qed.

Lemma search_from_cons (pat : Re.pattern) (prev : option ascii) (c : ascii)
      (s : string) :
  Re.search_from pat prev (String c s)
  = match Re.match_here pat prev (String c s) with
    | Some (g, _) => Some g
    | None => Re.search_from pat (Some c) s
    end.
Proof. reflexivity. Qed.

(** ** The lazy scans of thothub and thotfans *)

Lemma startswith_app_long (a s p : string) :
  String.length p <= String.length a ->
  Py.startswith (a ++ s) p = Py.startswith a p.
Proof.
  revert a. induction p as [|x p IH]; intros a H.
  - destruct a; cbn; [now destruct s | reflexivity].
  - destruct a as [|y a]; cbn in *; [lia|].
    rewrite IH by lia. reflexivity.
Qed.

Lemma startswith_mp4_nonempty (a post : string) :
  a <> "" ->
  Py.startswith (a ++ ".mp4" ++ post) ".mp4" = Py.startswith (a ++ ".mp4") ".mp4".
Proof.
  intro Ha. destruct a as [|c a]; [contradiction|].
  rewrite <- app_assoc_s.
  apply startswith_app_long. rewrite length_app_s. cbn. lia.
Qed.

Lemma star_lazy_eq {R} (p : ascii -> bool) (prev : option ascii) (s : string)
      (k : @Re.cont R) :
  Re.star_lazy p prev s k
  = match k prev s with
    | Some r => Some r
    | None =>
        match s with
        | EmptyString => None
        | String c s' => if p c then Re.star_lazy p (Some c) s' k else None
        end
    end.
Proof. destruct s; reflexivity. Qed.

(** A lazy star followed by [.mp4] stops at the first [.mp4]. *)
Lemma star_lazy_to_mp4 {R} (p : ascii -> bool) (a post : string)
      (prev : option ascii) (k : @Re.cont R) (r : R) :
  Py.forallb_str p a = true ->
  no_early_mp4 a = true ->
  k (Some "4"%char) post = Some r ->
  Re.star_lazy p prev (a ++ ".mp4" ++ post)
    (fun q s => Re.lit false ".mp4" q s k)
  = Some r.
Proof.
  intros Ha Hn Hk. revert prev. induction a as [|c a IH]; intro prev.
  - rewrite star_lazy_eq. cbn [append].
    change (String "." (String "m" (String "p" (String "4" post))))
      with (".mp4" ++ post).
    rewrite lit_app. change (last_char prev ".mp4") with (Some "4"%char).
    now rewrite Hk.
  - cbn [Py.forallb_str] in Ha. apply andb_true_iff in Ha as [Hc Ha].
    cbn [no_early_mp4] in Hn. apply andb_true_iff in Hn as [Hn1 Hn2].
    apply negb_true_iff in Hn1.
    rewrite star_lazy_eq.
    rewrite (lit_mismatch ".mp4" prev (String c a ++ ".mp4" ++ post) k).
    + cbn [append]. rewrite Hc. now apply IH.
    + rewrite startswith_mp4_nonempty by discriminate. exact Hn1.
Qed.

Lemma match_lazy_mp4 (p : ascii -> bool) (tls : bool) (b : ascii)
      (body post : string) (prev : option ascii) :
  p b = true ->
  Py.forallb_str p body = true ->
  no_early_mp4 body = true ->
  Re.match_here (lazy_mp4_pattern p) prev (bare_mp4_url tls (String b body) ++ post)
  = Some (bare_mp4_url tls (String b body),
          String.length (bare_mp4_url tls (String b body))).
Proof.
  intros Hb1 Hb2 Hn.
  unfold Re.match_here.
  assert (Es : bare_mp4_url tls (String b body) ++ post
               = (if tls then "https://" else "http://")
                 ++ String b body ++ ".mp4" ++ post).
  { unfold bare_mp4_url. now rewrite !app_assoc_s. }
  rewrite Es.
  set (s := (if tls then "https://" else "http://") ++ String b body ++ ".mp4" ++ post).
  assert (F : forall p0,
    Re.match_seq false [Re.Cls p; Re.Star false p; Re.Lit ".mp4"] p0
      (String b body ++ ".mp4" ++ post)
      (fun p2 s2 =>
         Re.match_seq false [] p2 s2
           (fun _ s3 => Some (Py.take (String.length s - String.length s2) s,
                              String.length s - String.length s3)))
    = Some (bare_mp4_url tls (String b body),
            String.length (bare_mp4_url tls (String b body)))).
  { intro p0. cbn [Re.match_seq Re.match_atom append]. rewrite Hb1.
    apply (star_lazy_to_mp4 p body post (Some b) _ _ Hb2 Hn).
    unfold s. rewrite <- Es, take_app.
    rewrite length_app_s, Nat.add_sub. reflexivity. }
  destruct tls; [|exact (F (Some "/"%char))].
  apply (opt_first _ _ _ (F (Some "/"%char))).
Qed.

Lemma app_not_empty (a b : string) : b <> "" -> String.eqb (a ++ b) "" = false.
Proof.
  intro H. apply String.eqb_neq. destruct a; cbn; [exact H | discriminate].
Qed.

Lemma bare_mp4_url_not_empty (tls : bool) (body post : string) :
  bare_mp4_url tls body ++ post <> "".
Proof. unfold bare_mp4_url. destruct tls; discriminate. Qed.

(** C4, as stated, fails for influencersgonewild: the document is nothing
    but a bare [.mp4] URL, which the textual scan would find, and
    [extract_mp4_url] returns [None]. *)
Lemma influencersgonewild_has_no_fallback :
  Re.search (bare_url_pattern ".mp4") "https://cdn.example.com/a.mp4"
  = Some "https://cdn.example.com/a.mp4" /\
  influencersgonewild.extract_mp4_url
    (sample_env text_only (fun _ => page "") (ok 0%Z) 0%Z)
    "https://cdn.example.com/a.mp4" = None.
Proof. split; reflexivity. Qed.

(** ** The source-tag pattern of thotfans *)

Lemma chr_eq_refl (ic : bool) (a : ascii) : Re.chr_eq ic a a = true.
Proof. unfold Re.chr_eq. destruct ic; apply Ascii.eqb_refl. Qed.

Lemma last_char_cons (prev : option ascii) (a : ascii) (l : string) :
  last_char (Some a) l = last_char prev (String a l).
Proof.
  unfold last_char. cbn. unfold Py.rev. cbn. rewrite string_of_app. cbn.
  destruct (string_of_list_ascii (List.rev (list_ascii_of_string l))); reflexivity.
Qed.

(** A literal matches itself, with or without regard to case. *)
Lemma lit_app_ic {R} (ic : bool) (l : string) (prev : option ascii) (s : string)
      (k : @Re.cont R) :
  Re.lit ic l prev (l ++ s) k = k (last_char prev l) s.
Proof.
  revert prev. induction l as [|a l IH]; intro prev; cbn; [reflexivity|].
  rewrite chr_eq_refl, IH. now rewrite (last_char_cons prev).
Qed.

(** A literal fails or hands over the text without its first characters. *)
Lemma lit_cases {R} (ic : bool) (l : string) (prev : option ascii) (s : string)
      (k : @Re.cont R) :
  Re.lit ic l prev s k = None \/
  exists prev', Re.lit ic l prev s k = k prev' (Py.drop (String.length l) s).
Proof.
  revert prev s. induction l as [|a l IH]; intros prev s; cbn.
  - right. exists prev. now destruct s.
  - destruct s as [|b s]; [now left|].
    destruct (Re.chr_eq ic a b); [apply IH | now left].
Qed.

(** A pattern that does not contain [c0] and matches a text continued by
    [c0] matches within the text. *)
Lemma startswith_before (c0 : ascii) (q x t : string) :
  Py.has_char c0 q = false ->
  Py.startswith (x ++ String c0 t) q = true -> Py.startswith x q = true.
Proof.
  revert x. induction q as [|a q IH]; intros x Hq H.
  - now destruct x.
  - cbn in Hq. apply orb_false_iff in Hq as [Hq1 Hq2].
    destruct x as [|b x]; cbn in *.
    + rewrite Hq1 in H. discriminate.
    + apply andb_true_iff in H as [H1 H2]. rewrite H1. cbn. now apply IH.
Qed.

(** A word whose first character does not come back in it cannot start
    inside a text that does not hold it and end in a following copy. *)
Lemma no_straddle (c0 : ascii) (pt x r : string) :
  x <> "" -> Py.has_char c0 pt = false ->
  Py.startswith x (String c0 pt) = false ->
  Py.startswith (x ++ String c0 pt ++ r) (String c0 pt) = false.
Proof.
  intros Hx Hp H. destruct x as [|b x]; [contradiction|].
  cbn [append Py.startswith] in *.
  destruct (Ascii.eqb c0 b); [|reflexivity]. cbn [andb] in *.
  destruct (Py.startswith (x ++ String c0 (pt ++ r)) pt) eqn:E; [|reflexivity].
  apply startswith_before in E; [congruence | exact Hp].
Qed.

Lemma drop_in_run (p : ascii -> bool) (n : nat) (y t : string) :
  Py.forallb_str p y = true -> n < String.length y ->
  exists c r, Py.drop n (y ++ t) = String c r /\ p c = true.
Proof.
  revert y. induction n as [|n IH]; intros y Hy Hn.
  - destruct y as [|c y]; cbn in *; [lia|].
    apply andb_true_iff in Hy as [Hc _]. now exists c, (y ++ t).
  - destruct y as [|c y]; cbn in *; [lia|].
    apply andb_true_iff in Hy as [_ Hy]. apply IH; [exact Hy | lia].
Qed.

Lemma quote_cases (c : ascii) : Re.quote c = true -> c = Re.dq \/ c = Re.sq.
Proof.
  unfold Re.quote. intro H. apply orb_true_iff in H as [H|H];
    apply Ascii.eqb_eq in H; auto.
Qed.

Lemma not_quote_quote (c : ascii) : Re.not_quote c = negb (Re.quote c).
Proof. reflexivity. Qed.

(** A lazy star followed by [.mp4] and a continuation that needs a quote
    stops at the [.mp4] that the closing quote follows. *)
Lemma star_lazy_to_quoted_mp4 {R} (body rest : string) (q2 : ascii)
      (prev : option ascii) (k2 : @Re.cont R) (r : R) :
  Py.forallb_str Re.not_quote body = true ->
  (forall pv c s', Re.not_quote c = true -> k2 pv (String c s') = None) ->
  k2 (Some "4"%char) (String q2 rest) = Some r ->
  Re.star_lazy Re.not_quote prev (body ++ ".mp4" ++ String q2 rest)
    (fun q s => Re.lit true ".mp4" q s k2)
  = Some r.
Proof.
  intros Hb Hk Hr. revert prev. induction body as [|c body IH]; intro prev.
  - rewrite star_lazy_eq.
    change ("" ++ ".mp4" ++ String q2 rest) with (".mp4" ++ String q2 rest).
    rewrite lit_app_ic. change (last_char prev ".mp4") with (Some "4"%char).
    now rewrite Hr.
  - cbn [Py.forallb_str] in Hb. apply andb_true_iff in Hb as [Hc Hb].
    rewrite star_lazy_eq.
    change (String c body ++ ".mp4" ++ String q2 rest)
      with (String c (body ++ ".mp4" ++ String q2 rest)).
    assert (N : Re.lit true ".mp4" prev (String c (body ++ ".mp4" ++ String q2 rest)) k2
                = None).
    { destruct (lit_cases true ".mp4" prev
                  (String c (body ++ ".mp4" ++ String q2 rest)) k2) as [L|[pv L]];
        [exact L|].
      rewrite L.
      change (Py.drop (String.length ".mp4") (String c (body ++ ".mp4" ++ String q2 rest)))
        with (Py.drop 3 (body ++ ".mp4" ++ String q2 rest)).
      destruct (drop_in_run Re.not_quote 3 (body ++ ".mp4") (String q2 rest))
        as (d & t & D1 & D2).
      - rewrite forallb_str_app, Hb. reflexivity.
      - rewrite length_app_s. cbn. lia.
      - rewrite app_assoc_s in D1. rewrite D1. now apply Hk. }
    rewrite N, Hc. now apply IH.
Qed.

(** ** Tags in document order *)

Lemma first_of_app p l1 l2 :
  first_of p (l1 ++ l2)
  = match first_of p l1 with
    | Some t => Some t
    | None => first_of p l2
    end.
Proof.
  unfold first_of. induction l1 as [|x l1 IH]; cbn; [reflexivity|].
  destruct (p (fst x) (snd x)); [reflexivity | exact IH].
Qed.

Lemma first_of_cons p nm at_ l :
  first_of p ((nm, at_) :: l) = if p nm at_ then Some at_ else first_of p l.
Proof. unfold first_of. cbn. now destruct (p nm at_). Qed.

(** [find] returns the first tag in document order. *)
Lemma find_node_first (p : string -> list (string * string) -> bool) :
  forall n, Soup.find_node p n = first_of p (tags_node n).
Proof.
  fix IH 1. intros [nm at_ ch|s]; [|reflexivity].
  cbn [Soup.find_node tags_node]. rewrite first_of_cons.
  destruct (p nm at_); [reflexivity|].
  induction ch as [|x ch IHch]; [reflexivity|].
  rewrite first_of_app, <- (IH x).
  destruct (Soup.find_node p x); [reflexivity | exact IHch].
Qed.

Lemma find_first_first (p : string -> list (string * string) -> bool)
      (s : Soup.soup) :
  Soup.find_first p s = first_of p (tags s).
Proof.
  induction s as [|n s IH]; [reflexivity|].
  cbn [Soup.find_first tags]. rewrite first_of_app, <- find_node_first.
  destruct (Soup.find_node p n); [reflexivity | exact IH].
Qed.

Lemma find_first_tag (s : Soup.soup) (name key value : string)
      (attrs : list (string * string)) :
  first_tag s name key value attrs ->
  Soup.find s name (Some (key, value)) = Some attrs.
Proof.
  intros (before & after & E & Hv & Hb). unfold Soup.find.
  rewrite find_first_first, E. clear E.
  induction before as [|[nm at_] before IH].
  - cbn [app]. rewrite first_of_cons, String.eqb_refl, Hv, String.eqb_refl.
    reflexivity.
  - cbn [app]. rewrite first_of_cons.
    destruct (String.eqb nm name) eqn:En.
    + apply String.eqb_eq in En. subst nm.
      assert (N := Hb at_ (or_introl eq_refl)).
      destruct (Soup.attr at_ key) as [v|] eqn:Ev.
      * destruct (String.eqb v value) eqn:Evv.
        -- apply String.eqb_eq in Evv. subst. now elim N.
        -- cbn [andb]. apply IH. intros a Ha. apply Hb. now right.
      * cbn [andb]. apply IH. intros a Ha. apply Hb. now right.
    + cbn [andb]. apply IH. intros a Ha. apply Hb. now right.
Qed.

(** ** Structured matches before the textual scan *)

(** C3, as stated, fails for thotfans: the [source] element carries a URL
    with a query string, which its pattern does not take, and the scan
    returns another [.mp4] URL of the text. *)
Lemma thotfans_source_with_query_loses :
  thotfans.extract_mp4_url
    ("https://other.example/b.mp4 " ++
     source_tag " type='video/mp4' " "'" "https://cdn.example.com/a.mp4?t=1" "'" ">")
  = Some "https://other.example/b.mp4".
Proof. vm_compute. reflexivity. Qed.

(** ** Classifying a URL *)

(** C2, as stated, fails when the host name holds the patterns of two
    sites: the first entry of the registry wins, and the URL is not given
    the key of the pattern [thothub.to] it contains. *)
Lemma infer_site_prefers_earlier_entry :
  Py.contains "thothub.to.eroleaked.com" "thothub.to" = true /\
  cli.infer_site_from_url "https://thothub.to.eroleaked.com/video/1"
  = inr (Some "eroleaked").
Proof. split; reflexivity. Qed.

Lemma forallb_str_impl (p q : ascii -> bool) (s : string) :
  (forall c, p c = true -> q c = true) ->
  Py.forallb_str p s = true -> Py.forallb_str q s = true.
Proof.
  intro H. induction s as [|c s IH]; cbn; [reflexivity|].
  intro E. apply andb_true_iff in E as [E1 E2]. now rewrite (H c E1), IH.
Qed.

Lemma forallb_no_char (p : ascii -> bool) (c : ascii) (s : string) :
  p c = false -> Py.forallb_str p s = true -> Py.has_char c s = false.
Proof.
  intros Hc. induction s as [|a s IH]; cbn; [reflexivity|].
  intro E. apply andb_true_iff in E as [E1 E2]. rewrite (IH E2), orb_false_r.
  destruct (Ascii.eqb_spec a c) as [->|_]; [congruence | reflexivity].
Qed.

Lemma lstrip_id (p : ascii -> bool) (c : ascii) (s : string) :
  p c = false -> Py.lstrip p (String c s) = String c s.
Proof. intro H. cbn. now rewrite H. Qed.

Lemma remove_chars_id (p : ascii -> bool) (s : string) :
  Py.forallb_str (fun c => negb (p c)) s = true -> Py.remove_chars p s = s.
Proof.
  induction s as [|c s IH]; cbn; [reflexivity|].
  intro E. apply andb_true_iff in E as [E1 E2]. apply negb_true_iff in E1.
  now rewrite E1, IH.
Qed.

Lemma span_until_netloc (nl rest : string) :
  Py.forallb_str (fun c => negb (Url.netloc_delim c)) nl = true ->
  starts_rest rest = true ->
  Url.span_until Url.netloc_delim (nl ++ rest) = (nl, rest).
Proof.
  intros Hn Hr. induction nl as [|c nl IH]; cbn [append Url.span_until].
  - destruct rest as [|d rest]; [reflexivity|].
    cbn [starts_rest] in Hr. cbn [Url.span_until]. now rewrite Hr.
  - cbn [Py.forallb_str] in Hn. apply andb_true_iff in Hn as [H1 H2].
    apply negb_true_iff in H1. now rewrite H1, (IH H2).
Qed.

Lemma host_char_netloc (c : ascii) : host_char c = true -> netloc_char c = true.
Proof.
  unfold host_char, netloc_char.
  destruct (Url.netloc_delim c), (Url.unsafe_byte c), (Ascii.eqb c "@"),
    (Ascii.eqb c "["), (Ascii.eqb c "]"); cbn; congruence.
Qed.

Lemma scheme_char_props (c : ascii) :
  Url.scheme_char c = true ->
  Url.unsafe_byte c = false /\ Ascii.eqb c ":" = false.
Proof.
  destruct c as [[] [] [] [] [] [] [] []]; vm_compute; intro H;
    try discriminate; split; reflexivity.
Qed.

Lemma alpha_not_c0 (c : ascii) :
  Py.is_ascii_alpha c = true -> Url.c0_or_space c = false.
Proof.
  destruct c as [[] [] [] [] [] [] [] []]; vm_compute; intro H;
    try discriminate; reflexivity.
Qed.

(** The network location of [sch://nl rest]. *)
Lemma urlparse_netloc (sch nl rest : string) :
  valid_scheme sch = true ->
  Py.forallb_str netloc_char nl = true ->
  starts_rest rest = true ->
  exists r, Url.urlparse (sch ++ "://" ++ nl ++ rest) = inr r /\ Url.netloc r = nl.
Proof.
  intros Hs Hn Hr. unfold valid_scheme in Hs. apply andb_true_iff in Hs as [Hs1 Hs2].
  destruct sch as [|c0 sch]; [discriminate|]. cbn [Url.first_is_alpha] in Hs1.
  set (s := String c0 sch) in *.
  assert (Hs3 : Py.forallb_str (fun c => negb (Url.unsafe_byte c)) s = true).
  { apply (forallb_str_impl Url.scheme_char); [|exact Hs2].
    intros c Hc. now rewrite (proj1 (scheme_char_props c Hc)). }
  assert (Hs4 : Py.has_char ":" s = false).
  { apply (forallb_no_char Url.scheme_char); [reflexivity | exact Hs2]. }
  assert (Hn1 : Py.forallb_str (fun c => negb (Url.unsafe_byte c)) nl = true).
  { apply (forallb_str_impl netloc_char); [|exact Hn].
    intros c Hc. unfold netloc_char in Hc.
    destruct (Url.netloc_delim c), (Url.unsafe_byte c); cbn in *; congruence. }
  assert (Hn2 : Py.forallb_str (fun c => negb (Url.netloc_delim c)) nl = true).
  { apply (forallb_str_impl netloc_char); [|exact Hn].
    intros c Hc. unfold netloc_char in Hc.
    destruct (Url.netloc_delim c); cbn in *; congruence. }
  assert (Hn3 : Py.has_char "[" nl = false)
    by (apply (forallb_no_char netloc_char); [reflexivity | exact Hn]).
  assert (Hn4 : Py.has_char "]" nl = false)
    by (apply (forallb_no_char netloc_char); [reflexivity | exact Hn]).
  assert (Hr' : starts_rest (Py.remove_chars Url.unsafe_byte rest) = true).
  { destruct rest as [|d rest]; [reflexivity|]. cbn [starts_rest] in Hr.
    cbn [Py.remove_chars].
    replace (Url.unsafe_byte d) with false; [exact Hr|].
    destruct d as [[] [] [] [] [] [] [] []]; try reflexivity; discriminate Hr. }
  set (rest' := Py.remove_chars Url.unsafe_byte rest) in *.
  assert (C : Py.remove_chars Url.unsafe_byte
                (Py.lstrip Url.c0_or_space (s ++ "://" ++ nl ++ rest))
              = s ++ ":" ++ "//" ++ nl ++ rest').
  { unfold s at 1. cbn [append]. rewrite lstrip_id by now apply alpha_not_c0.
    change (String c0 (sch ++ String ":" (String "/" (String "/" (nl ++ rest)))))
      with (s ++ "://" ++ nl ++ rest).
    rewrite !remove_chars_app, (remove_chars_id _ s Hs3), (remove_chars_id _ nl Hn1).
    reflexivity. }
  assert (P : Url.split_scheme (s ++ ":" ++ "//" ++ nl ++ rest')
              = (Py.lower s, "//" ++ nl ++ rest')).
  { unfold Url.split_scheme. rewrite (partition_app_absent _ _ _ Hs4).
    cbn [append Py.partition]. rewrite Ascii.eqb_refl, app_nil_r_s.
    cbn [Url.first_is_alpha]. unfold s at 2. cbn [append Url.first_is_alpha].
    rewrite Hs1, Hs2. reflexivity. }
  unfold Url.urlparse, Url.urlsplit. rewrite C, P.
  cbn [append Url.split_netloc]. rewrite (span_until_netloc nl rest' Hn2 Hr').
  unfold Url.netloc_error, Url.brackets_ok. rewrite Hn3, Hn4.
  cbn [Bool.eqb negb].
  destruct (Url.cut "#" rest') as [p1 f1]. destruct (Url.cut "?" p1) as [p2 q2].
  cbn [rbind ok Url.scheme Url.path].
  destruct (Url.mem (Py.lower s) Url.uses_params && Py.has_char ";" p2).
  - destruct (Url.splitparams p2). eexists. split; reflexivity.
  - eexists. split; reflexivity.
Qed.

Lemma lower_char_at (c : ascii) :
  Ascii.eqb (Py.lower_char c) "@" = Ascii.eqb c "@".
Proof. destruct c as [[] [] [] [] [] [] [] []]; reflexivity. Qed.

Lemma has_char_at_lower (s : string) :
  Py.has_char "@" (Py.lower s) = Py.has_char "@" s.
Proof.
  induction s as [|c s IH]; cbn; [reflexivity|].
  now rewrite lower_char_at, IH.
Qed.

Lemma host_no_at (s : string) :
  Py.forallb_str host_char s = true -> Py.has_char "@" s = false.
Proof. apply forallb_no_char. reflexivity. Qed.

(** Normalizing [userinfo www host] gives the host in lower case. *)
Lemma normalize_netloc_host (with_ui : bool) (ui www host : string) :
  Py.forallb_str host_char ui = true ->
  Py.forallb_str host_char www = true ->
  Py.forallb_str host_char host = true ->
  www = "" \/ Py.lower www = "www." ->
  Py.startswith (Py.lower host) "www." = false ->
  cli.normalize_netloc (userinfo with_ui ui ++ www ++ host) = Py.lower host.
Proof.
  intros Hui Hw Hh Hwww Hnw.
  assert (A : Py.has_char "@" (Py.lower (www ++ host)) = false).
  { rewrite has_char_at_lower, has_char_app, (host_no_at _ Hw), (host_no_at _ Hh).
    reflexivity. }
  assert (B : (if Py.startswith (Py.lower (www ++ host)) "www."
               then Py.drop 4 (Py.lower (www ++ host))
               else Py.lower (www ++ host)) = Py.lower host).
  { rewrite lower_app. destruct Hwww as [-> | E].
    - cbn [Py.lower append]. now rewrite Hnw.
    - rewrite E, startswith_app. reflexivity. }
  unfold cli.normalize_netloc, userinfo. destruct with_ui.
  - assert (E : Py.lower ((ui ++ "@") ++ www ++ host)
                 = Py.lower ui ++ String "@" (Py.lower (www ++ host))).
    { rewrite app_assoc_s, lower_app. reflexivity. }
    rewrite E, has_char_app. cbn [Py.has_char]. rewrite Ascii.eqb_refl.
    rewrite orb_true_r.
    unfold Py.split1_last.
    rewrite (partition_app_absent "@" (Py.lower ui)).
    + cbn [Py.partition]. rewrite Ascii.eqb_refl. exact B.
    + rewrite has_char_at_lower. now apply host_no_at.
  - cbn [append]. rewrite A. exact B.
Qed.

(** The key [first_match] returns belongs to the first entry of the
    registry with a pattern that occurs in the host. *)
Lemma first_match_first (reg : list (string * cli.site_info)) (n k : string) :
  cli.first_match reg n = Some k <->
  exists before info after,
    reg = (before ++ (k, info) :: after)%list /\
    cli.host_matches n (cli.hosts info) = true /\
    Forall (fun e => cli.host_matches n (cli.hosts (snd e)) = false) before.
Proof.
  induction reg as [|[k0 i0] reg IH]; cbn [cli.first_match].
  - split; [discriminate|]. intros (b & i & a & E & _). destruct b; discriminate.
  - destruct (cli.host_matches n (cli.hosts i0)) eqn:E0.
    + split.
      * intro H. inversion H; subst. exists [], i0, reg. repeat split; auto.
      * intros (b & i & a & E & Hm & Hb). destruct b as [|e b].
        -- cbn in E. now inversion E.
        -- cbn in E. inversion E; subst. inversion Hb; subst. cbn in *. congruence.
    + rewrite IH. split.
      * intros (b & i & a & E & Hm & Hb). exists ((k0, i0) :: b), i, a.
        subst. repeat split; auto.
      * intros (b & i & a & E & Hm & Hb). destruct b as [|e b].
        -- cbn in E. inversion E; subst. congruence.
        -- cbn in E. inversion E; subst. inversion Hb; subst.
           exists b, i, a. repeat split; auto.
Qed.

Lemma first_match_some (reg : list (string * cli.site_info)) (n k : string)
      (info : cli.site_info) :
  In (k, info) reg -> cli.host_matches n (cli.hosts info) = true ->
  exists k', cli.first_match reg n = Some k'.
Proof.
  induction reg as [|[k0 i0] reg IH]; intros Hin Hm; [contradiction|].
  cbn [cli.first_match]. destruct (cli.host_matches n (cli.hosts i0)) eqn:E0.
  - now exists k0.
  - destruct Hin as [Hin|Hin]; [inversion Hin; subst; congruence|]. now apply IH.
Qed.

Lemma host_matches_in (n h : string) (hs : list string) :
  In h hs -> h <> "" -> Py.contains n h = true -> cli.host_matches n hs = true.
Proof.
  intros Hin Hne Hc. unfold cli.host_matches. apply existsb_exists.
  exists h. split; [exact Hin|]. apply String.eqb_neq in Hne. now rewrite Hne, Hc.
Qed.

(** Every registered pattern, taken as the host, gives its own key. *)
Lemma registered_pattern_own_key (k h : string) (info : cli.site_info) :
  In (k, info) cli._site_registry -> In h (cli.hosts info) ->
  h <> "" /\ cli.first_match cli._site_registry h = Some k.
Proof.
  unfold cli._site_registry. cbn [In].
  intros Hr Hh.
  repeat match goal with
         | H : _ \/ _ |- _ => destruct H as [H|H]
         | H : False |- _ => contradiction
         | H : (_, _) = (_, _) |- _ => inversion H; clear H; subst; cbn [cli.hosts In] in Hh
         end;
  subst; split; first [discriminate | reflexivity].
Qed.

(** C2 (amended). For a URL [scheme://[userinfo@][www.]host rest], in any
    letter case, [infer_site_from_url] returns the key of the first entry
    of the registry, in the order of the registry, with a pattern that
    occurs in the lowered host.  When the host is a registered pattern the
    key is the one of that pattern; when the host contains a registered
    pattern some key is returned, the one of the pattern unless a pattern of
    an earlier entry occurs in the host too. *)
Theorem infer_site_first_registered_pattern :
  forall (sch : string) (with_ui : bool) (ui www host rest : string),
    valid_scheme sch = true ->
    Py.forallb_str host_char ui = true ->
    Py.forallb_str host_char www = true ->
    Py.forallb_str host_char host = true ->
    www = "" \/ Py.lower www = "www." ->
    Py.startswith (Py.lower host) "www." = false ->
    starts_rest rest = true ->
    cli.infer_site_from_url (sch ++ "://" ++ userinfo with_ui ui ++ www ++ host ++ rest)
    = inr (cli.first_match cli._site_registry (Py.lower host)) /\
    (forall k info h,
       In (k, info) cli._site_registry -> In h (cli.hosts info) ->
       (Py.lower host = h ->
        cli.infer_site_from_url (sch ++ "://" ++ userinfo with_ui ui ++ www ++ host ++ rest)
        = inr (Some k)) /\
       (Py.contains (Py.lower host) h = true ->
        exists k' before info' after,
          cli.infer_site_from_url (sch ++ "://" ++ userinfo with_ui ui ++ www ++ host ++ rest)
          = inr (Some k') /\
          cli._site_registry = (before ++ (k', info') :: after)%list /\
          cli.host_matches (Py.lower host) (cli.hosts info') = true /\
          Forall (fun e => cli.host_matches (Py.lower host) (cli.hosts (snd e)) = false)
                 before)).
Proof.
  intros sch with_ui ui www host rest Hs Hui Hw Hh Hwww Hnw Hr.
  assert (E : cli.infer_site_from_url
                (sch ++ "://" ++ userinfo with_ui ui ++ www ++ host ++ rest)
              = inr (cli.first_match cli._site_registry (Py.lower host))).
  { assert (A : sch ++ "://" ++ userinfo with_ui ui ++ www ++ host ++ rest
                = sch ++ "://" ++ (userinfo with_ui ui ++ www ++ host) ++ rest)
      by now rewrite !app_assoc_s.
    rewrite A.
    destruct (urlparse_netloc sch (userinfo with_ui ui ++ www ++ host) rest Hs)
      as (r & P & N).
    - rewrite !forallb_str_app.
      rewrite (forallb_str_impl _ _ www host_char_netloc Hw).
      rewrite (forallb_str_impl _ _ host host_char_netloc Hh).
      unfold userinfo. destruct with_ui; [|reflexivity].
      rewrite forallb_str_app, (forallb_str_impl _ _ ui host_char_netloc Hui).
      reflexivity.
    - exact Hr.
    - unfold cli.infer_site_from_url. rewrite P.
      replace (String.eqb (sch ++ "://" ++ (userinfo with_ui ui ++ www ++ host) ++ rest) "")
        with false.
      + cbn [rbind]. rewrite N. now rewrite normalize_netloc_host.
      + symmetry. apply String.eqb_neq. unfold valid_scheme in Hs.
        destruct sch; [discriminate Hs | discriminate]. }
  split; [exact E|]. intros k info h Hin Hhin. rewrite E.
  destruct (registered_pattern_own_key k h info Hin Hhin) as [Hne Hown].
  split.
  - intros ->. now rewrite Hown.
  - intro Hc.
    destruct (first_match_some cli._site_registry (Py.lower host) k info Hin
                (host_matches_in _ h _ Hhin Hne Hc)) as [k' Hk'].
    destruct (proj1 (first_match_first _ _ _) Hk') as (b & i & a & R & M & F).
    exists k', b, i, a. rewrite Hk'. repeat split; assumption.
Qed.

Lemma infer_site_first_registered_pattern_witness :
  cli.infer_site_from_url
    ("HTTPS" ++ "://" ++ userinfo true "user:pass" ++ "WWW." ++ "ThotHub.TO" ++ "/videos/1")
  = inr (Some "thothub").
Proof.
  apply (proj2 (infer_site_first_registered_pattern
                  "HTTPS" true "user:pass" "WWW." "ThotHub.TO" "/videos/1"
                  eq_refl eq_refl eq_refl eq_refl (or_intror eq_refl) eq_refl eq_refl)
               "thothub"
               {| cli.module := "super_dl.sites.thothub";
                  cli.hosts := ["thothub.to"; "thothub.org"] |}
               "thothub.to").
  - cbn. tauto.
  - cbn. tauto.
  - reflexivity.
Defined.

(** * Further properties *)

(** ** The matcher returns matches *)

Lemma lit_sound {R} (ic : bool) (l : string) (prev : option ascii) (s : string)
      (k : @Re.cont R) (r : R) :
  Re.lit ic l prev s k = Some r ->
  exists m s' prev', s = m ++ s' /\ atom_text ic (Re.Lit l) m /\ k prev' s' = Some r.
Proof.
  revert prev s. induction l as [|a l IH]; intros prev s H; cbn in H.
  - exists "", s, prev. repeat split; [|exact H]. cbn. now destruct ic.
  - destruct s as [|b s]; [discriminate|].
    destruct (Re.chr_eq ic a b) eqn:E; [|discriminate].
    destruct (IH _ _ H) as (m & s' & p' & -> & D & K).
    exists (String b m), s', p'. repeat split; [|exact K].
    cbn in *. unfold Re.chr_eq in E. destruct ic.
    + apply Ascii.eqb_eq in E. cbn. now rewrite D, E.
    + apply Ascii.eqb_eq in E. now subst.
Qed.

Lemma star_greedy_sound {R} (p : ascii -> bool) (prev : option ascii) (s : string)
      (k : @Re.cont R) (r : R) :
  Re.star_greedy p prev s k = Some r ->
  exists m s' prev', s = m ++ s' /\ Py.forallb_str p m = true /\ k prev' s' = Some r.
Proof.
  revert prev. induction s as [|c s IH]; intros prev H; cbn in H.
  - exists "", "", prev. auto.
  - destruct (p c) eqn:E.
    + destruct (Re.star_greedy p (Some c) s k) eqn:G.
      * inversion H; subst. destruct (IH _ G) as (m & s' & p' & -> & F & K).
        exists (String c m), s', p'. repeat split; [|exact K]. cbn. now rewrite E, F.
      * exists "", (String c s), prev. auto.
    + exists "", (String c s), prev. auto.
Qed.

Lemma star_lazy_sound {R} (p : ascii -> bool) (prev : option ascii) (s : string)
      (k : @Re.cont R) (r : R) :
  Re.star_lazy p prev s k = Some r ->
  exists m s' prev', s = m ++ s' /\ Py.forallb_str p m = true /\ k prev' s' = Some r.
Proof.
  revert prev. induction s as [|c s IH]; intros prev H; cbn in H.
  - destruct (k prev "") eqn:K; [|discriminate]. inversion H; subst.
    exists "", "", prev. auto.
  - destruct (k prev (String c s)) eqn:K.
    + inversion H; subst. exists "", (String c s), prev. auto.
    + destruct (p c) eqn:E; [|discriminate].
      destruct (IH _ H) as (m & s' & p' & -> & F & K').
      exists (String c m), s', p'. repeat split; [|exact K']. cbn. now rewrite E, F.
Qed.

Lemma match_atom_sound {R} (ic : bool) (a : Re.atom) (prev : option ascii)
      (s : string) (k : @Re.cont R) (r : R) :
  Re.match_atom ic a prev s k = Some r ->
  exists m s' prev', s = m ++ s' /\ atom_text ic a m /\ k prev' s' = Some r.
Proof.
  destruct a as [l|p|c|g p|]; cbn [Re.match_atom]; intro H.
  - now apply lit_sound in H.
  - destruct s as [|c s]; [discriminate|]. destruct (p c) eqn:E; [|discriminate].
    exists (String c ""), s, (Some c). repeat split; [|exact H]. now exists c.
  - destruct s as [|b s].
    + exists "", "", prev. repeat split; [now left | exact H].
    + destruct (Re.chr_eq ic c b) eqn:E.
      * destruct (k (Some b) s) eqn:K.
        -- inversion H; subst. exists (String b ""), s, (Some b).
           repeat split; [|exact K]. right. now exists b.
        -- exists "", (String b s), prev. repeat split; [now left | exact H].
      * exists "", (String b s), prev. repeat split; [now left | exact H].
  - destruct g; [now apply star_greedy_sound in H | now apply star_lazy_sound in H].
  - destruct (xorb _ _); [|discriminate].
    exists "", s, prev. repeat split; exact H.
Qed.

Lemma match_seq_sound {R} (ic : bool) (rs : list Re.atom) :
  forall (prev : option ascii) (s : string) (k : @Re.cont R) (r : R),
    Re.match_seq ic rs prev s k = Some r ->
    exists m s' prev', s = m ++ s' /\ seq_text ic rs m /\ k prev' s' = Some r.
Proof.
  induction rs as [|a rs IH]; intros prev s k r H; cbn [Re.match_seq] in H.
  - exists "", s, prev. repeat split; exact H.
  - apply match_atom_sound in H as (m1 & s1 & p1 & -> & D1 & H).
    apply IH in H as (m2 & s2 & p2 & -> & D2 & H).
    exists (m1 ++ m2), s2, p2. repeat split; [now rewrite app_assoc_s | | exact H].
    cbn. now exists m1, m2.
Qed.

(** A match at a position: the text starts with what the three parts of
    the pattern match in a row, and the group is the middle one. *)
Lemma match_here_sound (pat : Re.pattern) (prev : option ascii) (s g : string)
      (n : nat) :
  Re.match_here pat prev s = Some (g, n) ->
  exists m0 m2 rest,
    s = m0 ++ g ++ m2 ++ rest /\
    seq_text (Re.icase pat) (Re.pre pat) m0 /\
    seq_text (Re.icase pat) (Re.grp pat) g /\
    seq_text (Re.icase pat) (Re.post pat) m2.
Proof.
  unfold Re.match_here. intro H.
  apply match_seq_sound in H as (m0 & s1 & p1 & -> & D0 & H).
  apply match_seq_sound in H as (m1 & s2 & p2 & -> & D1 & H).
  apply match_seq_sound in H as (m2 & s3 & p3 & -> & D2 & H).
  injection H as G N. rewrite take_app in G. subst g.
  exists m0, m2, s3. repeat split; assumption.
Qed.

(** What a search returns is the group of a match at some position. *)
Lemma search_inv (pat : Re.pattern) (s g : string) :
  Re.search pat s = Some g ->
  exists before prev rest n,
    s = before ++ rest /\ Re.match_here pat prev rest = Some (g, n).
Proof.
  unfold Re.search. generalize (@None ascii) as prev.
  induction s as [|c s IH]; intros prev H; cbn [Re.search_from] in H.
  - destruct (Re.match_here pat prev "") as [[g' n]|] eqn:M; [|discriminate].
    injection H as ->. now exists "", prev, "", n.
  - destruct (Re.match_here pat prev (String c s)) as [[g' n]|] eqn:M.
    + injection H as ->. now exists "", prev, (String c s), n.
    + apply IH in H as (b & pv & rest & n & -> & H).
      now exists (String c b), pv, rest, n.
Qed.

(** What a search returns is the group of a match somewhere in the text. *)
Lemma search_sound (pat : Re.pattern) (s g : string) :
  Re.search pat s = Some g ->
  exists before m0 m2 rest,
    s = before ++ m0 ++ g ++ m2 ++ rest /\
    seq_text (Re.icase pat) (Re.pre pat) m0 /\
    seq_text (Re.icase pat) (Re.grp pat) g /\
    seq_text (Re.icase pat) (Re.post pat) m2.
Proof.
  intro H. apply search_inv in H as (b & pv & r & n & -> & H).
  apply match_here_sound in H as (m0 & m2 & rest & -> & D).
  now exists b, m0, m2, rest.
Qed.

(** ** What the textual patterns can return *)

Lemma forallb_str_lower (p : ascii -> bool) (s : string) :
  (forall c, p (Py.lower_char c) = p c) ->
  Py.forallb_str p (Py.lower s) = Py.forallb_str p s.
Proof.
  intro H. induction s as [|c s IH]; cbn; [reflexivity | now rewrite H, IH].
Qed.

Lemma not_quote_lower (c : ascii) : Re.not_quote (Py.lower_char c) = Re.not_quote c.
Proof. destruct c as [[] [] [] [] [] [] [] []]; reflexivity. Qed.

Lemma lower_eq_not_quote (s l : string) :
  Py.lower s = l -> Py.forallb_str Re.not_quote l = true ->
  Py.forallb_str Re.not_quote s = true.
Proof.
  intros <- H. now rewrite (forallb_str_lower _ _ not_quote_lower) in H.
Qed.

(** The group [https?://], one or more characters of a class, and an
    extension, read with regard to case. *)
Lemma url_group_shape (g : bool) (p : ascii -> bool) (ext u : string) :
  seq_text false (Re.http_scheme ++ Re.Plus g p ++ [Re.Lit ext])%list u ->
  exists (tls : bool) (body : string),
    u = (if tls then "https://" else "http://") ++ body ++ ext /\
    body <> "" /\ Py.forallb_str p body = true.
Proof.
  cbn. intros (m1 & r1 & -> & -> & m2 & r2 & -> & O & m3 & r3 & -> & -> &
               m4 & r4 & -> & (c & -> & Pc) & m5 & r5 & -> & S & m6 & r6 & -> & -> & ->).
  rewrite app_nil_r_s.
  destruct O as [->|(b & -> & E)].
  - exists false, (String c m5). split; [reflexivity|].
    split; [discriminate|]. cbn. now rewrite Pc, S.
  - apply (Ascii.eqb_eq "s" b) in E. subst b.
    exists true, (String c m5). split; [reflexivity|].
    split; [discriminate|]. cbn. now rewrite Pc, S.
Qed.

(** The same group read without regard to case. *)
Lemma url_group_shape_ic (g : bool) (p : ascii -> bool) (ext u : string) :
  seq_text true (Re.http_scheme ++ Re.Plus g p ++ [Re.Lit ext])%list u ->
  exists s body e,
    u = s ++ body ++ e /\
    (Py.lower s = "http://" \/ Py.lower s = "https://") /\
    body <> "" /\ Py.forallb_str p body = true /\ Py.lower e = Py.lower ext.
Proof.
  cbn. intros (m1 & r1 & -> & L1 & m2 & r2 & -> & O & m3 & r3 & -> & L3 &
               m4 & r4 & -> & (c & -> & Pc) & m5 & r5 & -> & S & m6 & r6 & -> & L6 & ->).
  exists (m1 ++ m2 ++ m3), (String c m5), m6.
  rewrite !app_assoc_s, app_nil_r_s. split; [reflexivity|].
  rewrite !lower_app, L1, L3. split.
  - destruct O as [->|(b & -> & E)]; [now left|].
    apply (Ascii.eqb_eq (Py.lower_char "s") (Py.lower_char b)) in E.
    right. cbn [Py.lower append]. now rewrite <- E.
  - repeat split; [discriminate | cbn; now rewrite Pc, S | exact L6].
Qed.

Lemma bare_url_starts_http (tls : bool) (rest : string) :
  Py.startswith ((if tls then "https://" else "http://") ++ rest) "http" = true.
Proof. now destruct tls. Qed.

Lemma endswith_app3 (a b e : string) : Py.endswith (a ++ b ++ e) e = true.
Proof. rewrite <- app_assoc_s. apply endswith_app. Qed.



(** X2. Whatever [thotfans.extract_mp4_url] returns is a piece of the page
    without quotes that starts with [http] and ends with [.mp4], both
    without regard to case. *)
Theorem thotfans_extract_mp4_url_sound :
  forall (html u : string),
    thotfans.extract_mp4_url html = Some u ->
    (exists before after, html = before ++ u ++ after) /\
    Py.startswith (Py.lower u) "http" = true /\
    Py.endswith (Py.lower u) ".mp4" = true /\
    Py.forallb_str Re.not_quote u = true.
Proof.
  assert (IC : forall pat html u,
             Re.icase pat = true ->
             Re.grp pat = (Re.http_scheme ++ Re.Plus false Re.not_quote
                           ++ [Re.Lit ".mp4"])%list ->
             Re.search pat html = Some u ->
             (exists before after, html = before ++ u ++ after) /\
             Py.startswith (Py.lower u) "http" = true /\
             Py.endswith (Py.lower u) ".mp4" = true /\
             Py.forallb_str Re.not_quote u = true).
  { intros pat html u Hi Hg S.
    apply search_sound in S as (b & m0 & m2 & rest & -> & _ & G & _).
    rewrite Hi, Hg in G.
    apply url_group_shape_ic in G as (s & body & e & -> & Hs & _ & F & He).
    split; [exists (b ++ m0), (m2 ++ rest); now rewrite !app_assoc_s|].
    rewrite !lower_app, He. split; [|split].
    - destruct Hs as [-> | ->]; reflexivity.
    - apply endswith_app3.
    - rewrite !forallb_str_app, F.
      rewrite (lower_eq_not_quote e _ He eq_refl).
      destruct Hs as [Hs|Hs]; now rewrite (lower_eq_not_quote s _ Hs eq_refl). }
  intros html u. unfold thotfans.extract_mp4_url.
  destruct (String.eqb html ""); [discriminate|].
  destruct (Re.search thotfans.source_pattern html) as [u1|] eqn:S1.
  { intro E. injection E as ->. now apply (IC thotfans.source_pattern html u eq_refl eq_refl S1). }
  destruct (Re.search thotfans.anchor_pattern html) as [u2|] eqn:S2.
  { intro E. injection E as ->. now apply (IC thotfans.anchor_pattern html u eq_refl eq_refl S2). }
  destruct (Re.search thotfans.any_mp4_pattern html) as [u3|] eqn:S3; [|discriminate].
  intro E. injection E as ->.
  apply search_sound in S3 as (b & m0 & m2 & rest & -> & _ & G & _).
  apply url_group_shape in G as (tls & body & -> & _ & F).
  split; [exists (b ++ m0), (m2 ++ rest); now rewrite !app_assoc_s|].
  rewrite !lower_app. split; [|split].
  - now destruct tls.
  - apply endswith_app3.
  - rewrite !forallb_str_app.
    rewrite (forallb_str_impl Re.not_quote_space_gt Re.not_quote body); [now destruct tls| |exact F].
    intro c. unfold Re.not_quote_space_gt, Re.not_quote.
    destruct (Ascii.eqb c Re.dq), (Ascii.eqb c Re.sq); cbn; congruence.
Qed.

Lemma thotfans_extract_mp4_url_sound_witness :
  Py.endswith (Py.lower "HTTPS://cdn.example.com/A.MP4") ".mp4" = true /\
  Py.forallb_str Re.not_quote "HTTPS://cdn.example.com/A.MP4" = true.
Proof.
  destruct (thotfans_extract_mp4_url_sound
              "<SOURCE type='video/mp4' SRC='HTTPS://cdn.example.com/A.MP4'>"
              "HTTPS://cdn.example.com/A.MP4")
    as (_ & _ & H1 & H2); [vm_compute; reflexivity|].
  split; assumption.
Defined.

Lemma findall_head (pat : Re.pattern) (s : string) (prev : option ascii) :
  List.hd_error (Re.findall_from pat 0 prev s) = Re.search_from pat prev s.
Proof.
  revert prev. induction s as [|c s IH]; intro prev; cbn [Re.findall_from Re.search_from].
  - now destruct (Re.match_here pat prev "") as [[g n]|].
  - destruct (Re.match_here pat prev (String c s)) as [[g n]|]; [reflexivity | apply IH].
Qed.

Lemma first_found_is_search (pat : Re.pattern) (s : string) :
  match Re.findall pat s with
  | first :: _ => Some first
  | [] => None
  end = Re.search pat s.
Proof.
  unfold Re.findall, Re.search. rewrite <- findall_head.
  now destruct (Re.findall_from pat 0 None s).
Qed.

(** What the scan for a bare URL returns: a piece of the text that is
    [http://] or [https://], a non-empty run without white space and quotes,
    and the extension. *)
Lemma bare_url_search_sound (ext html u : string) :
  Re.search (bare_url_pattern ext) html = Some u ->
  (exists before after, html = before ++ u ++ after) /\
  Py.startswith u "http" = true /\
  Py.endswith u ext = true /\
  exists (tls : bool) (body : string),
    u = (if tls then "https://" else "http://") ++ body ++ ext /\
    body <> "" /\ Py.forallb_str Re.not_space_quote body = true.
Proof.
  intro S. apply search_sound in S as (b & m0 & m2 & rest & -> & _ & G & _).
  apply url_group_shape in G as (tls & body & -> & N & F).
  split; [exists (b ++ m0), (m2 ++ rest); now rewrite !app_assoc_s|].
  split; [apply bare_url_starts_http|]. split; [apply endswith_app3|].
  now exists tls, body.
Qed.

(** X3. The two playlist extractors agree on every text: the first element
    of [re.findall] in [eroleaked.extract_m3u8_from_html] is what [re.search]
    finds in [amateurdoporn.extract_m3u8_from_text]. *)
Theorem m3u8_extractors_agree :
  forall (html : string),
    eroleaked.extract_m3u8_from_html html = amateurdoporn.extract_m3u8_from_text html.
Proof.
  intro html. unfold eroleaked.extract_m3u8_from_html, amateurdoporn.extract_m3u8_from_text.
  apply first_found_is_search.
Qed.

(** X4. A playlist address returned by [eroleaked.extract_m3u8_from_html]
    is a piece of the text, starts with [http], ends with [.m3u8], holds no
    white space and no quote, and is not empty, so the caller's test for a
    found address succeeds. *)
Theorem eroleaked_extract_m3u8_sound :
  forall (html u : string),
    eroleaked.extract_m3u8_from_html html = Some u ->
    (exists before after, html = before ++ u ++ after) /\
    Py.startswith u "http" = true /\
    Py.endswith u ".m3u8" = true /\
    Py.forallb_str Re.not_space_quote u = true /\
    Py.truthy (Some u) = true.
Proof.
  intros html u. unfold eroleaked.extract_m3u8_from_html.
  rewrite first_found_is_search. intro S.
  apply bare_url_search_sound in S as (O & H1 & H2 & tls & body & -> & _ & F).
  repeat split; try assumption.
  - rewrite !forallb_str_app, F. now destruct tls.
  - now destruct tls.
Qed.

Lemma eroleaked_extract_m3u8_sound_witness :
  Py.endswith "https://cdn.example.com/hls/a.m3u8" ".m3u8" = true /\
  Py.forallb_str Re.not_space_quote "https://cdn.example.com/hls/a.m3u8" = true.
Proof.
  destruct (eroleaked_extract_m3u8_sound
              "file: 'https://cdn.example.com/hls/a.m3u8', https://b.example/c.m3u8"
              "https://cdn.example.com/hls/a.m3u8")
    as (_ & _ & H1 & H2 & _); [vm_compute; reflexivity|].
  split; assumption.
Defined.

(** X5. [cumslutx.extract_mp4_url] checks the extension of the meta tag and
    of the textual match but not of the [source] element: a result that does
    not end with [.mp4] is the [src] of the [source] element. *)
Theorem cumslutx_extract_checks_extension :
  forall (w : Env) (html u : string),
    cumslutx.extract_mp4_url w html = Some u ->
    Py.endswith u ".mp4" = true \/
    (cumslutx.meta_url (BeautifulSoup w html) = None /\
     cumslutx.source_url (BeautifulSoup w html) = Some u).
Proof.
  intros w html u. unfold cumslutx.extract_mp4_url.
  destruct (cumslutx.meta_url (BeautifulSoup w html)) as [m|] eqn:M.
  - intro E. injection E as ->. left. unfold cumslutx.meta_url in M.
    destruct (Soup.find _ _ _) as [meta|]; [|discriminate].
    destruct (Soup.attr meta "content") as [c|]; [|discriminate].
    destruct (Py.endswith c ".mp4") eqn:E; [|discriminate].
    now injection M as ->.
  - destruct (cumslutx.source_url (BeautifulSoup w html)) as [s|] eqn:S.
    + intro E. injection E as ->. now right.
    + intro E. left. now apply bare_url_search_sound in E as (_ & _ & E & _).
Qed.

Lemma cumslutx_extract_checks_extension_witness :
  Py.endswith "https://cdn.example.com/a.mp4" ".mp4" = true \/
  (cumslutx.meta_url (text_only "see https://cdn.example.com/a.mp4") = None /\
   cumslutx.source_url (text_only "see https://cdn.example.com/a.mp4")
   = Some "https://cdn.example.com/a.mp4").
Proof.
  apply (cumslutx_extract_checks_extension
           (sample_env text_only (fun _ => page "") (ok 0%Z) 0%Z)
           "see https://cdn.example.com/a.mp4" "https://cdn.example.com/a.mp4").
  vm_compute. reflexivity.
Defined.

Lemma contains_start (s p : string) :
  Py.startswith s p = true -> Py.contains s p = true.
Proof. intro H. destruct s; cbn [Py.contains]; now rewrite H. Qed.

Lemma contains_app (a b c : string) : Py.contains (a ++ b ++ c) b = true.
Proof.
  induction a as [|x a IH].
  - exact (contains_start _ _ (startswith_app b c)).
  - change (String x a ++ b ++ c) with (String x (a ++ b ++ c)).
    cbn [Py.contains]. rewrite IH. apply orb_true_r.
Qed.

(** X6. The address [fapnut.extract_iframe_src] returns stands in the page
    between two quotes (not necessarily the same) after [src=], is not
    empty and holds no quote. *)
Theorem fapnut_extract_iframe_src_sound :
  forall (html u : string),
    fapnut.extract_iframe_src html = Some u ->
    (exists before q1 q2 after,
        html = before ++ String q1 (u ++ String q2 after) /\
        Re.quote q1 = true /\ Re.quote q2 = true /\
        Py.endswith (Py.lower before) "src=" = true) /\
    u <> "" /\ Py.forallb_str Re.not_quote u = true.
Proof.
  intros html u. unfold fapnut.extract_iframe_src.
  destruct (String.eqb html ""); [discriminate|].
  destruct (Re.search fapnut.iframe_pattern html) as [u1|] eqn:S; [|discriminate].
  intro E. injection E as ->.
  apply search_sound in S as (b & m0 & m2 & rest & -> & P & G & Q).
  cbn in P, G, Q.
  destruct P as (a1 & r1 & -> & L1 & a2 & r2 & -> & _ & a3 & r3 & -> & _ &
                 a4 & r4 & -> & L4 & a5 & r5 & -> & (q1 & -> & Q1) & ->).
  destruct G as (g1 & s1 & -> & (c & -> & Pc) & g2 & s2 & -> & F & ->).
  destruct Q as (p1 & s3 & -> & (q2 & -> & Q2) & ->).
  split; [|split].
  - exists (b ++ a1 ++ a2 ++ a3 ++ a4), q1, q2, rest. repeat split; try assumption.
    + rewrite !app_nil_r_s, !app_assoc_s. reflexivity.
    + rewrite <- !app_assoc_s, lower_app, L4. apply endswith_app.
  - discriminate.
  - rewrite !app_nil_r_s. cbn. now rewrite Pc, F.
Qed.

Lemma fapnut_extract_iframe_src_sound_witness :
  "https://player.example.com/e/1" <> "" /\
  Py.forallb_str Re.not_quote "https://player.example.com/e/1" = true.
Proof.
  destruct (fapnut_extract_iframe_src_sound
              "<IFRAME width='1' SRC='https://player.example.com/e/1'></iframe>"
              "https://player.example.com/e/1")
    as (_ & H1 & H2); [vm_compute; reflexivity|].
  split; assumption.
Defined.

Lemma star_greedy_total {R} (p : ascii -> bool) (s : string)
      (prev : option ascii) (k : @Re.cont R) :
  (forall pv s', k pv s' <> None) -> Re.star_greedy p prev s k <> None.
Proof.
  intro T. revert prev. induction s as [|c s IH]; intro prev; cbn; [apply T|].
  destruct (p c); [|apply T].
  destruct (Re.star_greedy p (Some c) s k) eqn:E; [discriminate|].
  exfalso. exact (IH _ E).
Qed.

(** A greedy star before a part that always matches takes the whole run:
    what follows is the end of the text or a character outside the class. *)
Lemma star_greedy_maximal {R} (p : ascii -> bool) (s : string)
      (prev : option ascii) (k : @Re.cont R) (r : R) :
  (forall pv s', k pv s' <> None) ->
  Re.star_greedy p prev s k = Some r ->
  exists m s' pv,
    s = m ++ s' /\ Py.forallb_str p m = true /\ k pv s' = Some r /\
    (s' = "" \/ exists c rest, s' = String c rest /\ p c = false).
Proof.
  intro T. revert prev. induction s as [|c s IH]; intros prev H; cbn in H.
  - exists "", "", prev. repeat split; auto.
  - destruct (p c) eqn:E.
    + destruct (Re.star_greedy p (Some c) s k) as [r'|] eqn:G;
        [|exfalso; exact (star_greedy_total _ _ _ _ T G)].
      injection H as ->. destruct (IH _ G) as (m & s' & pv & -> & F & K & A).
      exists (String c m), s', pv. repeat split; auto. cbn. now rewrite E, F.
    + exists "", (String c s), prev. repeat split; auto. right. now exists c, s.
Qed.

Lemma not_quote_false (c : ascii) : Re.not_quote c = false -> Re.quote c = true.
Proof. unfold Re.not_quote, Re.quote. now intros H%negb_false_iff. Qed.

(** A match of the second playlist pattern of fapnut: the group, and after
    it the end of the text or a quote. *)
Lemma any_m3u8_match (prev : option ascii) (s g : string) (n : nat) :
  Re.match_here fapnut.any_m3u8_pattern prev s = Some (g, n) ->
  exists s0 body e tail after,
    s = g ++ after /\ g = s0 ++ body ++ e ++ tail /\
    (Py.lower s0 = "http://" \/ Py.lower s0 = "https://") /\
    Py.forallb_str Re.not_quote body = true /\ Py.lower e = ".m3u8" /\
    Py.forallb_str Re.not_quote tail = true /\
    (after = "" \/ exists q rest, after = String q rest /\ Re.quote q = true).
Proof.
  unfold Re.match_here, fapnut.any_m3u8_pattern, Re.http_scheme, Re.Plus.
  cbn [Re.icase Re.pre Re.grp Re.post app Re.match_seq]. intro H.
  apply match_atom_sound in H as (m1 & s1 & p1 & E1 & D1 & H).
  apply match_atom_sound in H as (m2 & s2 & p2 & E2 & D2 & H).
  apply match_atom_sound in H as (m3 & s3 & p3 & E3 & D3 & H).
  apply match_atom_sound in H as (m4 & s4 & p4 & E4 & D4 & H).
  apply match_atom_sound in H as (m5 & s5 & p5 & E5 & D5 & H).
  apply match_atom_sound in H as (m6 & s6 & p6 & E6 & D6 & H).
  apply match_atom_sound in H as (m7 & s7 & p7 & E7 & D7 & H).
  cbn [Re.match_atom] in H.
  apply star_greedy_maximal in H as (m8 & s8 & p8 & E8 & D8 & H & A); [|discriminate].
  cbn [atom_text] in D1, D2, D3, D4, D5, D6, D7. destruct D4 as (c & -> & Pc). subst m7.
  assert (S : s = ((m1 ++ m2 ++ m3) ++ String c m5 ++ m6 ++ m8) ++ s8).
  { rewrite E1, E2, E3, E4, E5, E6, E7, E8. cbn [append].
    rewrite !app_assoc_s. cbn [append]. now rewrite !app_assoc_s. }
  injection H as G _. rewrite S, take_app in G. subst g.
  exists (m1 ++ m2 ++ m3), (String c m5), m6, m8, s8.
  split; [exact S|]. split; [reflexivity|]. split; [|split; [|split; [|split]]].
  - rewrite !lower_app, D1, D3. destruct D2 as [->|(b & -> & Eb)]; [now left|].
    apply (Ascii.eqb_eq (Py.lower_char "s") (Py.lower_char b)) in Eb.
    right. cbn [Py.lower append]. now rewrite <- Eb.
  - cbn. now rewrite Pc, D5.
  - exact D6.
  - exact D8.
  - destruct A as [->|(q & rest & -> & Q)]; [now left|].
    right. exists q, rest. split; [reflexivity | now apply not_quote_false].
Qed.

(** X7. The address [fapnut.extract_m3u8_from_html] returns is a piece of
    the page without quotes that starts with [http] and holds [.m3u8], both
    without regard to case; it runs on to the next quote or to the end of
    the page, so that a query after [.m3u8] is part of it. *)
Theorem fapnut_extract_m3u8_sound :
  forall (html u : string),
    fapnut.extract_m3u8_from_html html = Some u ->
    (exists before after,
        html = before ++ u ++ after /\
        (after = "" \/ exists q rest, after = String q rest /\ Re.quote q = true)) /\
    Py.startswith (Py.lower u) "http" = true /\
    Py.contains (Py.lower u) ".m3u8" = true /\
    Py.forallb_str Re.not_quote u = true.
Proof.
  assert (SH : forall s body e tail : string,
             Py.lower s = "http://" \/ Py.lower s = "https://" ->
             Py.forallb_str Re.not_quote body = true ->
             Py.lower e = ".m3u8" ->
             Py.forallb_str Re.not_quote tail = true ->
             Py.startswith (Py.lower (s ++ body ++ e ++ tail)) "http" = true /\
             Py.contains (Py.lower (s ++ body ++ e ++ tail)) ".m3u8" = true /\
             Py.forallb_str Re.not_quote (s ++ body ++ e ++ tail) = true).
  { intros s body e tail Hs Fb He Ft. rewrite !lower_app, He. split; [|split].
    - destruct Hs as [-> | ->]; reflexivity.
    - rewrite <- (app_assoc_s (Py.lower s)). apply contains_app.
    - rewrite !forallb_str_app, Fb, Ft, (lower_eq_not_quote e _ He eq_refl).
      destruct Hs as [Hs|Hs]; now rewrite (lower_eq_not_quote s _ Hs eq_refl). }
  intros html u. unfold fapnut.extract_m3u8_from_html.
  destruct (String.eqb html ""); [discriminate|].
  destruct (Re.search fapnut.src_m3u8_pattern html) as [u1|] eqn:S1.
  - intro E. injection E as ->.
    apply search_sound in S1 as (b & m0 & m2 & rest & -> & _ & G & Q).
    split.
    + cbn in Q. destruct Q as (x & y & -> & (q0 & -> & Q0) & ->).
      exists (b ++ m0), (String q0 rest). split; [now rewrite !app_assoc_s|].
      right. now exists q0, rest.
    + cbn in G.
      destruct G as (a1 & r1 & -> & L1 & a2 & r2 & -> & O & a3 & r3 & -> & L3 &
                     a4 & r4 & -> & (c & -> & Pc) & a5 & r5 & -> & F5 &
                     a6 & r6 & -> & L6 & a7 & r7 & -> & F7 & ->).
      rewrite app_nil_r_s.
      replace (a1 ++ a2 ++ a3 ++ String c "" ++ a5 ++ a6 ++ a7)
        with ((a1 ++ a2 ++ a3) ++ String c a5 ++ a6 ++ a7)
        by (now rewrite !app_assoc_s).
      apply SH; [|cbn; now rewrite Pc, F5 | exact L6 | exact F7].
      rewrite !lower_app, L1, L3. destruct O as [->|(x & -> & E)]; [now left|].
      apply (Ascii.eqb_eq (Py.lower_char "s") (Py.lower_char x)) in E.
      right. cbn [Py.lower append]. now rewrite <- E.
  - destruct (Re.search fapnut.any_m3u8_pattern html) as [u2|] eqn:S2; [|discriminate].
    intro E. injection E as ->.
    apply search_inv in S2 as (b & pv & rest & n & -> & M).
    apply any_m3u8_match in M as (s0 & body & e & tail & after & -> & -> & Hs & Fb & He & Ft & A).
    split; [now exists b, after|]. now apply SH.
Qed.

Lemma fapnut_extract_m3u8_sound_witness :
  Py.forallb_str Re.not_quote "https://cdn.example.com/stream/playlist.m3u8?token=1" = true /\
  Py.endswith "https://cdn.example.com/stream/playlist.m3u8?token=1" ".m3u8" = false.
Proof.
  destruct (fapnut_extract_m3u8_sound
              ("Some JS var player = " ++ q
               ++ "https://cdn.example.com/stream/playlist.m3u8?token=1" ++ q ++ ";")
              "https://cdn.example.com/stream/playlist.m3u8?token=1")
    as (_ & _ & _ & H); [vm_compute; reflexivity|].
  split; [exact H | reflexivity].
Defined.

(** ** The cache-busting parameter and the derived name *)

Lemma has_char_lstrip_eq (c : ascii) (p : ascii -> bool) (s : string) :
  p c = false -> Py.has_char c (Py.lstrip p s) = Py.has_char c s.
Proof.
  intro Hc. induction s as [|a s IH]; cbn; [reflexivity|].
  destruct (p a) eqn:Pa; [|reflexivity].
  rewrite IH. destruct (Ascii.eqb_spec a c) as [->|_]; [congruence | reflexivity].
Qed.

Lemma has_char_remove_eq (c : ascii) (p : ascii -> bool) (s : string) :
  p c = false -> Py.has_char c (Py.remove_chars p s) = Py.has_char c s.
Proof.
  intro Hc. induction s as [|a s IH]; cbn; [reflexivity|].
  destruct (p a) eqn:Pa; cbn; rewrite IH; [|reflexivity].
  destruct (Ascii.eqb_spec a c) as [->|_]; [congruence | reflexivity].
Qed.

Lemma has_char_cleaned_eq (c : ascii) (s : string) :
  Url.c0_or_space c = false -> Py.has_char c (cleaned s) = Py.has_char c s.
Proof.
  intro Hc. unfold cleaned. rewrite has_char_remove_eq, has_char_lstrip_eq; trivial.
  unfold Url.c0_or_space in Hc. unfold Url.unsafe_byte. apply Nat.leb_gt in Hc.
  repeat (apply orb_false_iff; split); apply Nat.eqb_neq; lia.
Qed.

Lemma split_scheme_has (c : ascii) (a : string) :
  Url.scheme_char c = false -> Ascii.eqb c ":" = false ->
  Py.has_char c (snd (Url.split_scheme a)) = Py.has_char c a.
Proof.
  intros Hs Hc. unfold Url.split_scheme.
  destruct (partition_found_or_absent ":" a) as [[h [t [H1 H2]]]|H'].
  - rewrite H1. destruct (true && negb (String.eqb h "") && Url.first_is_alpha a) ;
      cbn [andb]; [|reflexivity].
    destruct (Py.forallb_str Url.scheme_char h) eqn:F; cbn [snd]; [|reflexivity].
    rewrite H2, has_char_app, (forallb_no_char _ c _ Hs F).
    cbn [Py.has_char orb]. now rewrite (Ascii.eqb_sym ":" c), Hc.
  - rewrite (partition_absent _ _ H'). reflexivity.
Qed.

Lemma span_until_has (c : ascii) (p : ascii -> bool) (a : string) :
  p c = true -> Py.has_char c (snd (Url.span_until p a)) = Py.has_char c a.
Proof.
  intro Hc. induction a as [|y a IH]; cbn; [reflexivity|].
  destruct (p y) eqn:Py; [reflexivity|].
  destruct (Url.span_until p a) as [h t]. cbn [snd] in *. rewrite IH.
  destruct (Ascii.eqb_spec y c) as [->|_]; [congruence | reflexivity].
Qed.

Lemma span_until_app_has (c : ascii) (p : ascii -> bool) (a b : string) :
  p c = true -> Py.has_char c a = true ->
  Url.span_until p (a ++ b)
  = (fst (Url.span_until p a), snd (Url.span_until p a) ++ b).
Proof.
  intro Hc. induction a as [|y a IH]; cbn; [discriminate|].
  intro H. destruct (p y) eqn:Py; [reflexivity|].
  destruct (Ascii.eqb_spec y c) as [->|_]; [congruence|].
  cbn in H. rewrite (IH H). destruct (Url.span_until p a); reflexivity.
Qed.

Lemma not_slash_cases (c : ascii) :
  Url.netloc_delim c = true -> Ascii.eqb c "/" = false -> c = "?"%char \/ c = "#"%char.
Proof.
  unfold Url.netloc_delim. intros H N. rewrite N in H. cbn in H.
  apply orb_true_iff in H as [H|H]; apply Ascii.eqb_eq in H; auto.
Qed.

(** The network location ends at the first delimiter: what is appended to
    a text that holds a [?] or a [#] stays out of it. *)
Lemma split_netloc_app_has (c : ascii) (r b : string) :
  Url.netloc_delim c = true -> Ascii.eqb c "/" = false ->
  Py.has_char c r = true ->
  Url.split_netloc (r ++ b)
  = (fst (Url.split_netloc r), snd (Url.split_netloc r) ++ b).
Proof.
  intros Hd Hs H.
  destruct r as [|a1 [|a2 r]]; [discriminate| |].
  - cbn [Py.has_char] in H. rewrite orb_false_r in H. apply Ascii.eqb_eq in H. subst a1.
    destruct (not_slash_cases c Hd Hs) as [-> | ->]; reflexivity.
  - destruct (Ascii.eqb a1 "/") eqn:E1.
    + apply Ascii.eqb_eq in E1; subst.
      destruct (Ascii.eqb a2 "/") eqn:E2.
      * apply Ascii.eqb_eq in E2; subst.
        assert (Hr : Py.has_char c r = true).
        { cbn [Py.has_char] in H. now rewrite (Ascii.eqb_sym "/" c), Hs in H. }
        change (Url.split_netloc (("/" ++ "/" ++ r) ++ b))
          with (Url.span_until Url.netloc_delim (r ++ b)).
        change (Url.split_netloc (String "/" (String "/" r)))
          with (Url.span_until Url.netloc_delim r).
        apply (span_until_app_has c); assumption.
      * assert (a2 <> "/"%char) by now apply Ascii.eqb_neq.
        destruct a2 as [[] [] [] [] [] [] [] []]; try reflexivity; congruence.
    + assert (a1 <> "/"%char) by now apply Ascii.eqb_neq.
      destruct a1 as [[] [] [] [] [] [] [] []]; try reflexivity; congruence.
Qed.

Lemma split_netloc_has (c : ascii) (r : string) :
  Url.netloc_delim c = true -> Ascii.eqb c "/" = false ->
  Py.has_char c (snd (Url.split_netloc r)) = Py.has_char c r.
Proof.
  intros Hd Hs.
  destruct r as [|a1 [|a2 r]]; [reflexivity| |].
  - destruct a1 as [[] [] [] [] [] [] [] []]; reflexivity.
  - destruct (Ascii.eqb a1 "/") eqn:E1.
    + apply Ascii.eqb_eq in E1; subst.
      destruct (Ascii.eqb a2 "/") eqn:E2.
      * apply Ascii.eqb_eq in E2; subst.
        change (Url.split_netloc (String "/" (String "/" r)))
          with (Url.span_until Url.netloc_delim r).
        rewrite (span_until_has c _ r Hd). cbn [Py.has_char].
        now rewrite (Ascii.eqb_sym "/" c), Hs.
      * assert (a2 <> "/"%char) by now apply Ascii.eqb_neq.
        destruct a2 as [[] [] [] [] [] [] [] []]; try reflexivity; congruence.
    + assert (a1 <> "/"%char) by now apply Ascii.eqb_neq.
      destruct a1 as [[] [] [] [] [] [] [] []]; try reflexivity; congruence.
Qed.

Lemma partition_present (c : ascii) (a : string) :
  Py.has_char c a = true ->
  exists h t, Py.partition c a = (h, true, t).
Proof.
  intro H. destruct (partition_found_or_absent c a) as [(h & t & P & _)|N];
    [now exists h, t | congruence].
Qed.

(** The path the two cuts leave is not affected by what is appended after
    a fragment, or after a query when the appended text holds no [#]. *)
Lemma cuts_after (y b : string) :
  Py.has_char "#" y = true \/
  (Py.has_char "?" y = true /\ Py.has_char "#" b = false) ->
  fst (Url.cut "?" (fst (Url.cut "#" (y ++ b))))
  = fst (Url.cut "?" (fst (Url.cut "#" y))).
Proof.
  intro H. destruct (Py.has_char "#" y) eqn:Hh.
  - destruct (partition_present _ _ Hh) as (h & t & P).
    unfold Url.cut at 2 4. now rewrite (partition_app_found _ _ b _ _ P), P.
  - destruct H as [H|[Hq Hb]]; [discriminate|].
    rewrite (partition_no_char "#" y Hh).
    rewrite (partition_no_char "#" (y ++ b)) by (now rewrite has_char_app, Hh, Hb).
    cbn [fst]. destruct (partition_present _ _ Hq) as (h & t & P).
    unfold Url.cut. now rewrite (partition_app_found _ _ b _ _ P), P.
Qed.

(** The path of a URL that holds a fragment or a query is the path of the
    URL with more text at its end. *)
Lemma urlparse_path_after_delim (u : string) (d : ascii) (x : string) :
  Url.c0_or_space d = false -> Url.scheme_char d = false ->
  Ascii.eqb d ":" = false ->
  Py.has_char "#" u = true \/
  (Py.has_char "?" u = true /\ Py.has_char "#" (String d x) = false) ->
  path_of (u ++ String d x) = path_of u.
Proof.
  intros H0 Hs Hc H. unfold path_of, Url.urlparse, Url.urlsplit.
  fold (cleaned (u ++ String d x)). fold (cleaned u).
  rewrite (cleaned_app u d x H0).
  rewrite (split_scheme_app (cleaned u) d _ Hs Hc).
  set (b := String d (Py.remove_chars Url.unsafe_byte x)).
  assert (Hb : Py.has_char "#" (String d x) = false -> Py.has_char "#" b = false).
  { unfold b. cbn. intro E. apply orb_false_iff in E as [E1 E2].
    now rewrite E1, (has_char_remove _ _ _ E2). }
  pose proof (split_scheme_has "#" (cleaned u) eq_refl eq_refl) as Sh.
  pose proof (split_scheme_has "?" (cleaned u) eq_refl eq_refl) as Sq.
  rewrite (has_char_cleaned_eq "#" u eq_refl) in Sh.
  rewrite (has_char_cleaned_eq "?" u eq_refl) in Sq.
  destruct (Url.split_scheme (cleaned u)) as [sch r]. cbn [fst snd] in *.
  assert (N : Url.split_netloc (r ++ b)
              = (fst (Url.split_netloc r), snd (Url.split_netloc r) ++ b)).
  { destruct H as [H|[H _]].
    - apply (split_netloc_app_has "#"); [reflexivity | reflexivity | congruence].
    - apply (split_netloc_app_has "?"); [reflexivity | reflexivity | congruence]. }
  rewrite N.
  pose proof (split_netloc_has "#" r eq_refl eq_refl) as Nh.
  pose proof (split_netloc_has "?" r eq_refl eq_refl) as Nq.
  destruct (Url.split_netloc r) as [nl y]. cbn [fst snd] in *.
  destruct (Url.netloc_error nl); [reflexivity|].
  assert (C : fst (Url.cut "?" (fst (Url.cut "#" (y ++ b))))
              = fst (Url.cut "?" (fst (Url.cut "#" y)))).
  { apply cuts_after. destruct H as [H|[H1 H2]]; [left | right; split; auto]; congruence. }
  destruct (Url.cut "#" (y ++ b)) as [p1 f1].
  destruct (Url.cut "#" y) as [p2 f2]. cbn [fst] in *.
  destruct (Url.cut "?" p1) as [p1' q1]. destruct (Url.cut "?" p2) as [p2' q2].
  cbn [fst] in *. subst. cbn [rbind ok Url.scheme Url.path].
  destruct (Url.mem sch Url.uses_params && Py.has_char ";" p2').
  - destruct (Url.splitparams p2'); reflexivity.
  - reflexivity.
Qed.

Lemma uint_digits (d : Decimal.uint) :
  Py.forallb_str Py.is_digit (DecimalString.NilEmpty.string_of_uint d) = true.
Proof. induction d; cbn; auto. Qed.

Lemma decimal_digits (n : Z) : Py.forallb_str Py.is_digit (decimal n) = true.
Proof.
  unfold decimal, DecimalString.NilZero.string_of_uint.
  destruct (N.to_uint (Z.to_N n)); try reflexivity; apply uint_digits.
Qed.

(** The path of a URL is not affected by the [rnd] parameter. *)
Lemma path_of_append_rnd (url : string) (rnd : Z) :
  path_of (append_rnd url rnd) = path_of url.
Proof.
  unfold append_rnd. destruct (Py.has_char "?" url) eqn:Hq.
  - apply (urlparse_path_after_delim url "&" ("rnd=" ++ decimal rnd)
             eq_refl eq_refl eq_refl).
    right. split; [exact Hq|].
    change (Py.has_char "#" (decimal rnd) = false).
    apply (forallb_no_char Py.is_digit "#" _ eq_refl (decimal_digits rnd)).
  - destruct (Py.has_char "#" url) eqn:Hh.
    + apply (urlparse_path_after_delim url "?" ("rnd=" ++ decimal rnd)
               eq_refl eq_refl eq_refl). now left.
    + apply (urlparse_path_query url ("rnd=" ++ decimal rnd) Hq Hh).
Qed.

(** X8. The [rnd] parameter does not reach the file name: for every URL,
    whatever it holds, the name derived from the URL with the parameter is
    the name derived from the URL itself (or the same exception). *)
Theorem filename_ignores_rnd_parameter :
  forall (w : Env) (url : string),
    thothub._filename_from_url (thothub._append_random_rnd w url)
    = thothub._filename_from_url url /\
    thotfans._filename_from_url (thotfans._append_random_rnd w url)
    = thotfans._filename_from_url url.
Proof.
  intros w url. split.
  - unfold thothub._append_random_rnd.
    now rewrite !filename_by_path, path_of_append_rnd.
  - change (thothub._filename_from_url
              (append_rnd url (random_randrange w (10 ^ 12)%Z (10 ^ 14)%Z))
            = thothub._filename_from_url url).
    now rewrite !filename_by_path, path_of_append_rnd.
Qed.

(** ** Derived names: never empty, and fixed points of the derivation *)

Lemma sanitize_empty (s : string) : Py.sanitize s = "" -> s = "".
Proof. destruct s; [reflexivity | discriminate]. Qed.

Lemma nonempty_Forall (l : list string) :
  Forall (fun s => s <> "") (Py.nonempty l).
Proof.
  apply Forall_forall. intros s H. apply filter_In in H as [_ H].
  intros ->. discriminate.
Qed.

Lemma segment_name_not_empty (path : string) :
  (if String.eqb (Path.name (Path.of_string path)) "" then
     Py.last_or (Py.nonempty (Py.split "/" path)) "video"
   else Path.name (Path.of_string path)) <> "".
Proof.
  destruct (String.eqb_spec (Path.name (Path.of_string path)) "") as [_|N]; [|exact N].
  apply (last_or_Forall (fun s => s <> "")); [apply nonempty_Forall | discriminate].
Qed.

Lemma endswith_not_empty (s p : string) :
  p <> "" -> Py.endswith s p = true -> s <> "".
Proof.
  intros Hp H ->. unfold Py.endswith in H. cbn in H.
  destruct (Py.rev p) eqn:E; [|discriminate].
  apply Hp. rewrite <- (rev_involutive p), E. reflexivity.
Qed.

Lemma suffixed_name_not_empty (name : string) :
  (if negb (Py.endswith (Py.lower name) ".mp4") then name ++ ".mp4" else name) <> "".
Proof.
  destruct (Py.endswith (Py.lower name) ".mp4") eqn:E; cbn [negb].
  - intros ->. discriminate.
  - destruct name; discriminate.
Qed.

(** X9. The name derived from a URL is never empty, whatever the URL is:
    [derive_filename_from_url] of eroleaked and amateurdoporn falls back on
    the last non-empty segment or on [video], and the one of cumslutx and
    simpthots ends with the extension. *)
Theorem derived_name_never_empty :
  forall (url : string),
    eroleaked.derive_filename_from_url url <> "" /\
    amateurdoporn.derive_filename_from_url url <> "" /\
    cumslutx.derive_filename_from_url url <> inr "" /\
    simpthots.derive_filename_from_url url <> inr "".
Proof.
  intro url. split; [|split; [|split]].
  - unfold eroleaked.derive_filename_from_url. intro E.
    apply sanitize_empty in E. now apply segment_name_not_empty in E.
  - unfold amateurdoporn.derive_filename_from_url. intro E.
    apply sanitize_empty in E. now apply segment_name_not_empty in E.
  - unfold cumslutx.derive_filename_from_url.
    destruct (Url.urlparse url) as [e|r]; [discriminate|]. cbn [rbind ok].
    intro E. injection E as E. now apply suffixed_name_not_empty in E.
  - unfold simpthots.derive_filename_from_url.
    destruct (Url.urlparse url) as [e|r]; [discriminate|]. cbn [rbind ok].
    intro E. injection E as E. now apply suffixed_name_not_empty in E.
Qed.

Lemma safe_char_plain (c : ascii) :
  Py.is_safe_char c = true ->
  Url.c0_or_space c = false /\ Url.unsafe_byte c = false.
Proof. destruct c as [[] [] [] [] [] [] [] []]; cbn; intro H; try discriminate; auto. Qed.

Lemma safe_not_slash (c : ascii) :
  Py.is_safe_char c = true -> negb (Py.is_slash c) = true.
Proof. destruct c as [[] [] [] [] [] [] [] []]; vm_compute; intro H; congruence. Qed.

Lemma cleaned_safe (n : string) :
  Py.forallb_str Py.is_safe_char n = true -> cleaned n = n.
Proof.
  intro F. unfold cleaned.
  assert (L : Py.lstrip Url.c0_or_space n = n).
  { destruct n as [|c r]; [reflexivity|]. apply lstrip_id.
    cbn in F. apply andb_true_iff in F as [F _]. now apply safe_char_plain in F. }
  rewrite L. apply remove_chars_id.
  apply (forallb_str_impl Py.is_safe_char); [|exact F].
  intros c Hc. apply safe_char_plain in Hc as [_ ->]. reflexivity.
Qed.

Lemma split_no_sep (c : ascii) (s : string) :
  Py.has_char c s = false -> Py.split c s = [s].
Proof.
  induction s as [|a s IH]; cbn; [reflexivity|].
  intro H. apply orb_false_iff in H as [H1 H2]. now rewrite H1, (IH H2).
Qed.

Lemma sanitize_id (s : string) :
  Py.forallb_str Py.is_safe_char s = true -> Py.sanitize s = s.
Proof.
  induction s as [|a s IH]; cbn; [reflexivity|].
  intro H. apply andb_true_iff in H as [H1 H2]. now rewrite H1, (IH H2).
Qed.

(** A text of safe characters is a URL that is all path. *)
Lemma path_of_safe (n : string) :
  Py.forallb_str Py.is_safe_char n = true -> path_of n = inr n.
Proof.
  intro F.
  pose proof (forallb_no_char _ ":" _ eq_refl F) as Hc.
  pose proof (forallb_no_char _ "/" _ eq_refl F) as Hs.
  pose proof (forallb_no_char _ "#" _ eq_refl F) as Hh.
  pose proof (forallb_no_char _ "?" _ eq_refl F) as Hq.
  pose proof (forallb_no_char _ ";" _ eq_refl F) as Hp.
  unfold path_of, Url.urlparse, Url.urlsplit. fold (cleaned n).
  rewrite (cleaned_safe n F). unfold Url.split_scheme.
  rewrite (partition_absent _ _ Hc). cbn [andb].
  assert (N : Url.split_netloc n = ("", n)).
  { destruct (split_netloc_cases n) as [(r' & E & _)|[_ E]]; [|exact E].
    rewrite E in Hs. discriminate. }
  rewrite N. cbn [Url.netloc_error Url.brackets_ok Py.has_char Bool.eqb negb].
  rewrite (partition_no_char _ _ Hh), (partition_no_char _ _ Hq).
  cbn [rbind ok Url.scheme Url.path]. rewrite Hp, andb_false_r. reflexivity.
Qed.

Lemma forallb_str_rev (p : ascii -> bool) (s : string) :
  Py.forallb_str p (Py.rev s) = Py.forallb_str p s.
Proof.
  induction s as [|a s IH]; [reflexivity|].
  change (String a s) with (String a "" ++ s) at 1.
  rewrite rev_app, forallb_str_app, IH. cbn. now rewrite !andb_true_r, andb_comm.
Qed.

Lemma rstrip_free (p : ascii -> bool) (s : string) :
  Py.forallb_str (fun c => negb (p c)) s = true -> Py.rstrip p s = s.
Proof.
  intro F. unfold Py.rstrip. rewrite <- (forallb_str_rev _ s) in F.
  destruct (Py.rev s) as [|c r] eqn:E.
  - cbn. rewrite <- (rev_involutive s), E. reflexivity.
  - cbn in F. apply andb_true_iff in F as [F _]. apply negb_true_iff in F.
    rewrite (lstrip_id p c r F), <- E. apply rev_involutive.
Qed.

Lemma safe_segment_name (n : string) :
  Py.forallb_str Py.is_safe_char n = true -> n <> "" ->
  (if String.eqb (Path.name (Path.of_string n)) "" then
     Py.last_or (Py.nonempty (Py.split "/" n)) "video"
   else Path.name (Path.of_string n)) = n.
Proof.
  intros F N. pose proof (forallb_no_char _ "/" _ eq_refl F) as Hs.
  unfold Path.name, Path.of_string, Path.parts, Py.nonempty.
  rewrite (split_no_sep _ _ Hs). cbn [filter]. unfold Path.is_part.
  apply String.eqb_neq in N. rewrite N. cbn [negb andb].
  destruct (String.eqb n ".") eqn:D; cbn [negb Py.last_or last].
  - apply String.eqb_eq in D. subst n. reflexivity.
  - now rewrite N.
Qed.

(** X10. A derived name is a fixed point of the derivation: given back as
    the URL, it is returned unchanged. *)
Theorem derived_name_is_fixed_point :
  forall (url : string),
    (forall n, cumslutx.derive_filename_from_url url = inr n ->
               cumslutx.derive_filename_from_url n = inr n) /\
    (forall n, simpthots.derive_filename_from_url url = inr n ->
               simpthots.derive_filename_from_url n = inr n) /\
    eroleaked.derive_filename_from_url (eroleaked.derive_filename_from_url url)
    = eroleaked.derive_filename_from_url url /\
    amateurdoporn.derive_filename_from_url (amateurdoporn.derive_filename_from_url url)
    = amateurdoporn.derive_filename_from_url url.
Proof.
  assert (C : forall url n, cumslutx.derive_filename_from_url url = inr n ->
                            cumslutx.derive_filename_from_url n = inr n).
  { intros url n H.
    assert (F : Py.forallb_str Py.is_safe_char n = true /\
                Py.endswith (Py.lower n) ".mp4" = true).
    { rewrite derive_by_path in H. destruct (path_of url) as [e|p]; [discriminate|].
      cbn [rbind ok] in H. injection H as H. cbv zeta in H.
      set (nm := Py.sanitize (Py.last_or (Py.nonempty (Py.split "/" p)) "video")) in *.
      pose proof (sanitize_safe (Py.last_or (Py.nonempty (Py.split "/" p)) "video")) as S.
      fold nm in S.
      destruct (Py.endswith (Py.lower nm) ".mp4") eqn:E; cbn [negb] in H; subst n.
      - now split.
      - split; [now rewrite forallb_str_app, S | rewrite lower_app; apply endswith_app]. }
    destruct F as [F E].
    assert (N : n <> "") by (apply (endswith_not_empty (Py.lower n) ".mp4") in E;
                             [now destruct n | discriminate]).
    rewrite derive_by_path, (path_of_safe n F). cbn [rbind ok]. cbv zeta.
    pose proof (forallb_no_char _ "/" _ eq_refl F) as Hs.
    rewrite (split_no_sep _ _ Hs). unfold Py.nonempty. cbn [filter].
    apply String.eqb_neq in N. rewrite N. cbn [negb Py.last_or last].
    now rewrite (sanitize_id n F), E. }
  assert (E : forall url,
             eroleaked.derive_filename_from_url (eroleaked.derive_filename_from_url url)
             = eroleaked.derive_filename_from_url url).
  { intro url.
    assert (F : Py.forallb_str Py.is_safe_char (eroleaked.derive_filename_from_url url) = true)
      by apply sanitize_safe.
    assert (N : eroleaked.derive_filename_from_url url <> "").
    { unfold eroleaked.derive_filename_from_url. intro E.
      apply sanitize_empty in E. now apply segment_name_not_empty in E. }
    set (n := eroleaked.derive_filename_from_url url) in *.
    unfold eroleaked.derive_filename_from_url at 1. cbv zeta.
    rewrite (rstrip_free Py.is_slash n).
    - now rewrite (safe_segment_name n F N), (sanitize_id n F).
    - apply (forallb_str_impl Py.is_safe_char); [apply safe_not_slash | exact F]. }
  intro url. split; [apply C | split; [apply C | split; apply E]].
Qed.

Lemma derived_name_is_fixed_point_witness :
  cumslutx.derive_filename_from_url "some-video--1-.mp4" = inr "some-video--1-.mp4".
Proof.
  apply (proj1 (derived_name_is_fixed_point "https://cumslutx.com/some video (1)/")).
  vm_compute. reflexivity.
Defined.

(** ** Names taken from the last path segment *)

Lemma lstrip_head (p : ascii -> bool) (s : string) (c : ascii) (r : string) :
  Py.lstrip p s = String c r -> p c = false.
Proof.
  induction s as [|a s IH]; cbn; [discriminate|].
  destruct (p a) eqn:Pa; [exact IH|]. intro E. now injection E as -> _.
Qed.

Lemma lstrip_empty_iff (p : ascii -> bool) (s : string) :
  Py.lstrip p s = "" <-> Py.forallb_str p s = true.
Proof.
  induction s as [|a s IH]; cbn; [tauto|].
  destruct (p a); cbn; [exact IH|]. split; discriminate.
Qed.

Lemma rev_empty (s : string) : Py.rev s = "" -> s = "".
Proof. intro E. now rewrite <- (rev_involutive s), E. Qed.

Lemma rstrip_empty_iff (p : ascii -> bool) (s : string) :
  Py.rstrip p s = "" <-> Py.forallb_str p s = true.
Proof.
  unfold Py.rstrip. rewrite <- (forallb_str_rev p s), <- lstrip_empty_iff.
  split; [apply rev_empty | now intros ->].
Qed.

(** What [rstrip] leaves does not end with a stripped character. *)
Lemma rstrip_last (p : ascii -> bool) (s s' : string) (c : ascii) :
  Py.rstrip p s = s' ++ String c "" -> p c = false.
Proof.
  unfold Py.rstrip. intro E.
  apply (f_equal Py.rev) in E. rewrite rev_involutive, rev_app in E.
  exact (lstrip_head _ _ _ _ E).
Qed.

(** The last field of a split is empty only for the empty text and for a
    text that ends with the separator. *)
Lemma last_field_empty (c : ascii) (s : string) :
  Py.last_or (Py.split c s) "" = "" -> s = "" \/ exists s', s = s' ++ String c "".
Proof.
  unfold Py.last_or. induction s as [|a s IH]; [now left|].
  cbn [Py.split]. destruct (Ascii.eqb_spec a c) as [->|N].
  - intro H. right.
    destruct (Py.split c s) as [|h t] eqn:E; [now apply split_not_nil in E|].
    change (last (h :: t) "" = "") in H. destruct (IH H) as [->|[s' ->]].
    + now exists "".
    + now exists (String c s').
  - destruct (Py.split c s) as [|h t] eqn:E; [now apply split_not_nil in E|].
    destruct t as [|h' t]; [discriminate|].
    intro H. change (last (h :: h' :: t) "" = "") in H. right.
    destruct (IH H) as [->|[s' ->]]; [discriminate | now exists (String a s')].
Qed.

Lemma basename_rstrip_empty (p : string) :
  Py.basename (Py.rstrip Py.is_slash p) = "" -> Py.rstrip Py.is_slash p = "".
Proof.
  intro H. apply last_field_empty in H as [H|[s' H]]; [exact H|].
  apply rstrip_last in H. discriminate.
Qed.

(** X11. In [fapnut._filename_from_page_url] the inner fallback is never
    taken: the name is [fapnut.mp4] when the path holds nothing but
    slashes, and the last segment of the path with [.mp4] otherwise; the
    stem is never empty. *)
Theorem fapnut_filename_from_last_segment :
  forall (page_url : string),
    fapnut._filename_from_page_url page_url
    = rbind (path_of page_url) (fun p =>
        ok (if Py.forallb_str Py.is_slash p then "fapnut.mp4"
            else Py.basename (Py.strip Py.is_slash p) ++ ".mp4")) /\
    (forall n, fapnut._filename_from_page_url page_url = inr n ->
               exists stem, n = stem ++ ".mp4" /\ stem <> "").
Proof.
  intro page_url.
  assert (S : forall p, String.eqb (Py.strip Py.is_slash p) "" = Py.forallb_str Py.is_slash p).
  { intro p. unfold Py.strip.
    destruct (Py.forallb_str Py.is_slash p) eqn:F.
    - apply String.eqb_eq. apply lstrip_empty_iff in F. now rewrite F.
    - apply String.eqb_neq. intro E. apply rstrip_empty_iff in E.
      assert (L : Py.lstrip Py.is_slash p = "").
      { destruct (Py.lstrip Py.is_slash p) as [|c r] eqn:L; [reflexivity|].
        apply lstrip_head in L. cbn in E. rewrite L in E. discriminate. }
      apply lstrip_empty_iff in L. congruence. }
  assert (B : forall p, Py.forallb_str Py.is_slash p = false ->
                        Py.basename (Py.strip Py.is_slash p) <> "").
  { intros p F E. unfold Py.strip in E. apply basename_rstrip_empty in E.
    fold (Py.strip Py.is_slash p) in E. apply String.eqb_eq in E. congruence. }
  unfold fapnut._filename_from_page_url, path_of.
  destruct (Url.urlparse page_url) as [e|r]; cbn [rbind ok]; [split; [reflexivity | discriminate]|].
  cbv zeta. rewrite S.
  destruct (Py.forallb_str Py.is_slash (Url.path r)) eqn:F.
  - split; [reflexivity|]. intros n E. injection E as <-. now exists "fapnut".
  - fold (Py.basename (Py.strip Py.is_slash (Url.path r))).
    pose proof (B _ F) as N. apply String.eqb_neq in N. rewrite N.
    split; [reflexivity|]. intros n E. injection E as <-.
    eexists. split; [reflexivity|]. now apply String.eqb_neq.
Qed.

Lemma fapnut_filename_from_last_segment_witness :
  exists stem, "some-video.mp4" = stem ++ ".mp4" /\ stem <> "".
Proof.
  apply (proj2 (fapnut_filename_from_last_segment "https://fapnut.net/some-video/")).
  vm_compute. reflexivity.
Defined.

Lemma join_empty (p : Path.path) : Path.join p "" = p.
Proof. destruct p as [r ps]. unfold Path.join. cbn. now rewrite app_nil_r. Qed.

(** X12. The streaming downloaders derive an empty name exactly from the
    URLs whose path holds nothing but slashes; for such a URL and no
    [out_path], the only file [download] can open for writing is the working
    directory itself. *)
Theorem streaming_filename_empty_iff :
  forall (w : Env) (url : string),
    (thothub._filename_from_url url = inr ""
     <-> exists p, path_of url = inr p /\ Py.forallb_str Py.is_slash p = true) /\
    (thotfans._filename_from_url url = inr ""
     <-> exists p, path_of url = inr p /\ Py.forallb_str Py.is_slash p = true) /\
    (url <> "" -> thothub._filename_from_url url = inr "" ->
     forall f, In f (opened (snd (run (thothub.download w (Some url) None)))) ->
               f = Path.of_string (os_getcwd w)) /\
    (url <> "" -> thotfans._filename_from_url url = inr "" ->
     forall f, In f (opened (snd (run (thotfans.download w (Some url) None)))) ->
               f = Path.of_string (os_getcwd w)).
Proof.
  intros w url.
  assert (I : thothub._filename_from_url url = inr ""
              <-> exists p, path_of url = inr p /\ Py.forallb_str Py.is_slash p = true).
  { rewrite filename_by_path. destruct (path_of url) as [e|p]; cbn [rbind ok].
    - split; [discriminate | intros (p & E & _); discriminate].
    - split.
      + intro E. injection E as E. apply basename_rstrip_empty in E.
        apply rstrip_empty_iff in E. now exists p.
      + intros (p' & E & F). injection E as <-.
        apply rstrip_empty_iff in F. now rewrite F. }
  split; [exact I | split; [exact I | split]].
  - intros N E f H. apply (thothub_download_opened w url f N) in H.
    rewrite E in H. cbn [default_out_file] in H. injection H as <-. apply join_empty.
  - intros N E f H. apply (thotfans_download_opened w url f N) in H.
    rewrite E in H. cbn [default_out_file] in H. injection H as <-. apply join_empty.
Qed.

Lemma streaming_filename_empty_iff_witness :
  thothub._filename_from_url "https://thothub.to/" = inr "".
Proof.
  apply (proj2 (proj1 (streaming_filename_empty_iff
                         (sample_env text_only (fun _ => page "") (ok 0%Z) 0%Z)
                         "https://thothub.to/"))).
  exists "/". split; reflexivity.
Defined.

(** ** Inferred keys and the registry *)

Lemma inr_inj {A B} (a b : B) : @inr A B a = inr b -> a = b.
Proof. congruence. Qed.

Lemma registry_get (k : string) (info : cli.site_info) :
  In (k, info) cli._site_registry ->
  k <> "" /\ cli.get cli._site_registry k = Some info.
Proof.
  unfold cli._site_registry. cbn [In]. intro H.
  repeat match goal with
         | H : _ \/ _ |- _ => destruct H as [H|H]
         | H : False |- _ => contradiction
         | H : (_, _) = (_, _) |- _ => inversion H; clear H; subst
         end;
  split; first [discriminate | reflexivity].
Qed.

Lemma get_In (reg : list (string * cli.site_info)) (k : string) (info : cli.site_info) :
  cli.get reg k = Some info -> In (k, info) reg.
Proof.
  induction reg as [|[k0 i0] reg IH]; cbn; [discriminate|].
  destruct (String.eqb_spec k0 k) as [->|_].
  - intro E. injection E as ->. now left.
  - intro E. right. now apply IH.
Qed.

Lemma host_matches_inv (n : string) (hs : list string) :
  cli.host_matches n hs = true ->
  exists h, In h hs /\ h <> "" /\ Py.contains n h = true.
Proof.
  unfold cli.host_matches. intro H. apply existsb_exists in H as (h & Hin & H).
  apply andb_true_iff in H as [H1 H2]. exists h. repeat split; auto.
  apply negb_true_iff in H1. now apply String.eqb_neq.
Qed.

Lemma first_match_none (reg : list (string * cli.site_info)) (n : string) :
  cli.first_match reg n = None <->
  forall k info, In (k, info) reg -> cli.host_matches n (cli.hosts info) = false.
Proof.
  induction reg as [|[k0 i0] reg IH]; cbn [cli.first_match In].
  - split; [intros _ k info [] | reflexivity].
  - destruct (cli.host_matches n (cli.hosts i0)) eqn:E0.
    + split; [discriminate|]. intro H. specialize (H k0 i0 (or_introl eq_refl)). congruence.
    + rewrite IH. split.
      * intros H k info [E|Hin]; [now injection E as <- <- | now apply (H k)].
      * intros H k info Hin. apply (H k). now right.
Qed.

(** X13. Whatever the URL is, a key [infer_site_from_url] returns is a
    non-empty key of the registry, and a pattern of its entry occurs in the
    normalized network location; nothing is returned exactly for the empty
    URL and for a network location in which no registered pattern occurs. *)
Theorem inferred_site_is_registered :
  forall (url : string),
    (forall k, cli.infer_site_from_url url = inr (Some k) ->
       k <> "" /\
       exists r info h,
         Url.urlparse url = inr r /\
         cli.get cli._site_registry k = Some info /\
         In h (cli.hosts info) /\
         Py.contains (cli.normalize_netloc (Url.netloc r)) h = true) /\
    (cli.infer_site_from_url url = inr None <->
     url = "" \/
     exists r, Url.urlparse url = inr r /\
       forall k info h, In (k, info) cli._site_registry -> In h (cli.hosts info) ->
                        Py.contains (cli.normalize_netloc (Url.netloc r)) h = false).
Proof.
  intro url. unfold cli.infer_site_from_url.
  destruct (String.eqb_spec url "") as [->|N].
  { split; [discriminate|]. split; [now left | reflexivity]. }
  destruct (Url.urlparse url) as [e|r]; cbn [rbind ok].
  { split; [discriminate|]. split; [discriminate|].
    intros [E|(r & E & _)]; [contradiction | discriminate]. }
  split.
  - intros k E. apply inr_inj in E.
    apply first_match_first in E as (b & info & a & R & M & _).
    assert (Hin : In (k, info) cli._site_registry) by (rewrite R; apply in_elt).
    destruct (registry_get k info Hin) as [Hk G].
    apply host_matches_inv in M as (h & Hh & _ & C).
    split; [exact Hk|]. now exists r, info, h.
  - split.
    + intro E. apply inr_inj in E. right. exists r. split; [reflexivity|].
      intros k info h Hin Hh.
      destruct (Py.contains (cli.normalize_netloc (Url.netloc r)) h) eqn:C; [|reflexivity].
      pose proof (proj1 (first_match_none _ _) E k info Hin) as M.
      destruct (registered_pattern_own_key k h info Hin Hh) as [Hne _].
      rewrite (host_matches_in _ h _ Hh Hne C) in M. discriminate.
    + intros [E|(r' & E & H)]; [contradiction|]. injection E as <-.
      unfold ok. f_equal. apply first_match_none. intros k info Hin.
      destruct (cli.host_matches _ (cli.hosts info)) eqn:M; [|reflexivity].
      apply host_matches_inv in M as (h & Hh & _ & C).
      now rewrite (H k info h Hin Hh) in C.
Qed.

Lemma inferred_site_is_registered_witness :
  "thothub" <> "" /\
  exists r info h,
    Url.urlparse "https://www.thothub.to/videos/1/" = inr r /\
    cli.get cli._site_registry "thothub" = Some info /\
    In h (cli.hosts info) /\
    Py.contains (cli.normalize_netloc (Url.netloc r)) h = true.
Proof.
  apply (proj1 (inferred_site_is_registered "https://www.thothub.to/videos/1/") "thothub").
  reflexivity.
Defined.

(** A module without one of the three interfaces gets the message and the
    exit code 5, and nothing else is done. *)
Lemma unsupported_dispatch (w : Env) (m : cli.PyModule) (args : cli.Args) (t : trace) :
  supported m = false ->
  cli.dispatch w m args t
  = (inr 5%Z,
     (t ++ [Print true "Site module does not expose a supported interface"])%list).
Proof.
  unfold supported, cli.dispatch.
  destruct (cli.m_full_download_from_page m); [discriminate|].
  destruct (cli.m_fetch_page m), (cli.m_extract_mp4_url m), (cli.m_download m),
    (cli.m_extract_iframe_src m), (cli.m_extract_m3u8_from_html m);
    try discriminate; reflexivity.
Qed.

(** X14. Every entry of the registry names a module of the package, and
    that module exposes an interface [main] can drive; the dispatch answers
    with the message about an unsupported interface and the exit code 5 for
    the modules that expose none, so never for a registered site. *)
Theorem registered_modules_are_supported :
  forall (w : Env),
    (forall (k : string) (info : cli.site_info),
       cli.get cli._site_registry k = Some info ->
       exists m,
         cli.site_module w (cli.module info) = Some m /\
         supported m = true /\
         (import_error w (cli.module info) = None ->
          cli.import_module w (cli.module info) = inr m)) /\
    (forall (m : cli.PyModule) (args : cli.Args) (t : trace),
       supported m = false ->
       cli.dispatch w m args t
       = (inr 5%Z,
          (t ++ [Print true "Site module does not expose a supported interface"])%list)).
Proof.
  intro w. split; [|apply unsupported_dispatch].
  intros k info G. apply get_In in G.
  unfold cli._site_registry in G. cbn [In] in G.
  repeat match goal with
         | H : _ \/ _ |- _ => destruct H as [H|H]
         | H : False |- _ => contradiction
         | H : (_, _) = (_, _) |- _ => inversion H; clear H; subst
         end;
  eexists; (split; [reflexivity|]); (split; [reflexivity|]);
  intro E; unfold cli.import_module; rewrite E; reflexivity.
Qed.

Lemma registered_modules_are_supported_witness :
  exists m,
    cli.site_module (sample_env text_only (fun _ => page "") (ok 0%Z) 0%Z)
      "super_dl.sites.thotfans" = Some m /\
    supported m = true /\
    (import_error (sample_env text_only (fun _ => page "") (ok 0%Z) 0%Z)
       "super_dl.sites.thotfans" = None ->
     cli.import_module (sample_env text_only (fun _ => page "") (ok 0%Z) 0%Z)
       "super_dl.sites.thotfans" = inr m).
Proof.
  apply (proj1 (registered_modules_are_supported
                  (sample_env text_only (fun _ => page "") (ok 0%Z) 0%Z))
               "thotfans"
               {| cli.module := "super_dl.sites.thotfans"; cli.hosts := ["thotfans.com"] |}).
  reflexivity.
Defined.

(** ** Exceptions that leave [main] *)







(** ** What a successful streaming download did *)

Lemma write_chunks_trace (f : Path.path) (cs : list string) (t : trace) :
  write_chunks f cs t = (inr tt, (t ++ writes f cs)%list).
Proof.
  revert t. induction cs as [|c cs IH]; intro t; cbn [write_chunks].
  - unfold ret, writes. cbn. now rewrite app_nil_r.
  - unfold bind. unfold writes. cbn [filter].
    destruct (String.eqb c ""); cbn [negb].
    + unfold ret. apply IH.
    + unfold emit. rewrite IH. unfold writes. cbn [map].
      now rewrite <- app_assoc.
Qed.

Lemma written_writes (f : Path.path) (cs : list string) :
  written (writes f cs) = joined cs.
Proof.
  unfold writes, joined. induction cs as [|c cs IH]; [reflexivity|].
  cbn [filter fold_right]. destruct (String.eqb_spec c "") as [->|_]; cbn [negb].
  - exact IH.
  - cbn [map written]. now rewrite IH.
Qed.

Lemma writes_only_write (f : Path.path) (cs : list string) :
  requested (writes f cs) = [] /\ opened (writes f cs) = [] /\
  created (writes f cs) = [] /\ runs (writes f cs) = [].
Proof.
  unfold writes. induction (filter _ cs) as [|c l IH]; [repeat split|exact IH].
Qed.

(** A stream that ends well: one request answered without error, the file
    opened, every non-empty chunk written. *)
Lemma stream_to_file_done (w : Env) (u : string) (hs : headers)
      (f : Path.path) (t t' : trace) :
  stream_to_file w u hs f t = (inr tt, t') ->
  exists r,
    requests_get w u hs = inr r /\ status_error r = None /\
    open_error w f = None /\ stream_error r = None /\
    t' = (t ++ [Get u hs 30; OpenWrite f] ++ writes f (chunks r))%list.
Proof.
  unfold stream_to_file, bind, emit, lift.
  destruct (requests_get w u hs) as [e|r]; [discriminate|].
  destruct (status_error r) as [e|] eqn:S; cbn [fail_if]; [discriminate|].
  unfold ret at 1. destruct (open_error w f) as [e|] eqn:O; cbn [fail_if]; [discriminate|].
  unfold ret at 1. rewrite write_chunks_trace.
  destruct (stream_error r) as [e|] eqn:T; cbn [fail_if]; [discriminate|].
  unfold ret. intro E. injection E as <-. exists r. repeat split; trivial.
  now rewrite <- !app_assoc.
Qed.

Lemma stream_trace_shows (d f : Path.path) (u : string) (hs : headers)
      (cs : list string) :
  let t := ([Mkdir d] ++ [Get u hs 30; OpenWrite f] ++ writes f cs)%list in
  requested t = [u] /\ created t = [d] /\ opened t = [f] /\
  written t = joined cs /\ runs t = [].
Proof.
  destruct (writes_only_write f cs) as (R & O & C & N).
  cbn. now rewrite R, O, C, N, written_writes.
Qed.

(** X16. A streaming [download] that returns has returned 0, and then it
    created the directory of the output file, sent one request, to the
    media URL with the [rnd] parameter, which was answered without error,
    opened the output file and wrote the whole body to it, chunk by chunk
    in order; it started no subprocess. *)
Theorem streaming_download_writes_body :
  forall (w : Env) (url : string) (out : option string) (rc : Z) (t : trace),
    (run (thothub.download w (Some url) out) = (inr rc, t) ->
     rc = 0%Z /\
     exists r f,
       out_file_of (os_getcwd w) out (thothub._filename_from_url url) = inr f /\
       requests_get w (thothub._append_random_rnd w url) thothub.request_headers = inr r /\
       status_error r = None /\ stream_error r = None /\
       requested t = [thothub._append_random_rnd w url] /\
       created t = [Path.parent f] /\ opened t = [f] /\
       written t = joined (chunks r) /\ runs t = []) /\
    (run (thotfans.download w (Some url) out) = (inr rc, t) ->
     rc = 0%Z /\
     exists r f,
       out_file_of (os_getcwd w) out (thotfans._filename_from_url url) = inr f /\
       requests_get w (thotfans._append_random_rnd w url) thotfans.request_headers = inr r /\
       status_error r = None /\ stream_error r = None /\
       requested t = [thotfans._append_random_rnd w url] /\
       created t = [Path.parent f] /\ opened t = [f] /\
       written t = joined (chunks r) /\ runs t = []).
Proof.
  assert (G : forall (w : Env) (u : string) (hs : headers) (fr : res Path.path)
                     (rc : Z) (t : trace),
             (out_file <- lift fr ;;
              mkdir_p w (Path.parent out_file) ;;;
              stream_to_file w u hs out_file ;;;
              ret 0%Z) [] = (inr rc, t) ->
             rc = 0%Z /\
             exists r f,
               fr = inr f /\ requests_get w u hs = inr r /\
               status_error r = None /\ stream_error r = None /\
               requested t = [u] /\ created t = [Path.parent f] /\ opened t = [f] /\
               written t = joined (chunks r) /\ runs t = []).
  { intros w u hs fr rc t. unfold bind at 1, lift.
    destruct fr as [e|f]; [discriminate|].
    unfold bind at 1, mkdir_p, bind at 1, emit.
    destruct (mkdir_error w (Path.parent f)) as [e|]; cbn [fail_if]; [discriminate|].
    unfold ret at 1. unfold bind at 1.
    destruct (stream_to_file w u hs f ([] ++ [Mkdir (Path.parent f)])%list)
      as [[e|[]] t'] eqn:S; [discriminate|].
    unfold ret. intro E. injection E as <- <-.
    apply stream_to_file_done in S as (r & R & S1 & _ & S2 & ->).
    split; [reflexivity|]. exists r, f.
    destruct (stream_trace_shows (Path.parent f) f u hs (chunks r)) as (A & B & C & D & E).
    repeat split; assumption. }
  assert (L : forall (w : Env) (out : option string) (fn : res string),
             (if Py.truthy out then ret (Path.of_string (str_of out))
              else filename <- lift fn ;;
                   ret (Path.join (Path.of_string (os_getcwd w)) filename))
             = lift (out_file_of (os_getcwd w) out fn)).
  { intros w out fn. unfold out_file_of. destruct (Py.truthy out); [reflexivity|].
    unfold bind, lift, ret, rbind, ok. destruct fn; reflexivity. }
  intros w url out rc t. split.
  - unfold run, thothub.download.
    destruct (String.eqb_spec url "") as [->|N]; [discriminate|].
    apply String.eqb_neq in N. cbn [Py.truthy]. rewrite N. cbn [negb str_of].
    rewrite L. apply G.
  - unfold run, thotfans.download.
    destruct (String.eqb_spec url "") as [->|N]; [discriminate|].
    apply String.eqb_neq in N. cbn [Py.truthy]. rewrite N. cbn [negb str_of].
    rewrite L. apply G.
Qed.

Lemma streaming_download_writes_body_witness :
  written (snd (run (thothub.download
                       (sample_env text_only
                          (fun _ => ok {| status_error := None; text := "";
                                          chunks := ["ab"; ""; "cd"];
                                          stream_error := None |})
                          (ok 0%Z) 7%Z)
                       (Some "https://cdn.example.com/v/1.mp4") None)))
  = "abcd".
Proof.
  pose (w := sample_env text_only
               (fun _ => ok {| status_error := None; text := "";
                               chunks := ["ab"; ""; "cd"];
                               stream_error := None |})
               (ok 0%Z) 7%Z).
  destruct (proj1 (streaming_download_writes_body w "https://cdn.example.com/v/1.mp4"
                     None 0%Z
                     (snd (run (thothub.download w (Some "https://cdn.example.com/v/1.mp4") None))))
              eq_refl)
    as (_ & r & f & _ & R & _ & _ & _ & _ & _ & W & _).
  injection R as <-. exact W.
Defined.

(** ** The download by [wget] *)

(** X17. [influencersgonewild.download] with a media URL starts [wget]
    once, with the URL as last argument and [-O out_path] before it only
    when an output path is given, and returns the result of that run as it
    is; it creates the directory of the output path only when there is one
    that does not exist, and gives up before [wget] when that fails.  It
    sends no request and opens no file. *)
Theorem wget_download_exit_code :
  forall (w : Env) (url : string) (out : option string),
    url <> "" ->
    let dir := Path.parent (Path.of_string (str_of out)) in
    let cmd := (["wget"; "--user-agent"; influencersgonewild.USER_AGENT;
                 "--referer"; influencersgonewild.REFERER]
                ++ (if Py.truthy out then ["-O"; str_of out] else [])
                ++ [url])%list in
    let t := snd (run (influencersgonewild.download w (Some url) out)) in
    requested t = [] /\ opened t = [] /\
    created t = (if Py.truthy out && negb (path_exists w dir) then [dir] else []) /\
    match (if Py.truthy out && negb (path_exists w dir) then mkdir_error w dir
           else None) with
    | Some e =>
        fst (run (influencersgonewild.download w (Some url) out)) = inl e /\
        runs t = []
    | None =>
        fst (run (influencersgonewild.download w (Some url) out))
        = subprocess_run w cmd /\
        runs t = [cmd]
    end.
Proof.
  intros w url out N. cbv zeta. unfold run, influencersgonewild.download.
  apply String.eqb_neq in N. cbn [Py.truthy]. rewrite N. cbn [negb str_of].
  destruct (Py.truthy out); cbn [andb].
  - destruct (path_exists w (Path.parent (Path.of_string (str_of out)))); cbn [negb].
    + unfold bind, ret, subprocess_returncode, emit, lift. cbn.
      destruct (subprocess_run w _); repeat split.
    + unfold bind at 1, bind at 1, mkdir_p, bind at 1, emit.
      destruct (mkdir_error w _) as [e|]; cbn [fail_if].
      * unfold throw. cbn. repeat split.
      * unfold ret, bind, subprocess_returncode, emit, lift. cbn.
        destruct (subprocess_run w _); repeat split.
  - unfold bind, ret, subprocess_returncode, emit, lift. cbn.
    destruct (subprocess_run w _); repeat split.
Qed.

Lemma wget_download_exit_code_witness :
  fst (run (influencersgonewild.download
              (sample_env text_only (fun _ => page "") (ok 8%Z) 0%Z)
              (Some "https://cdn.example.com/a.mp4") None))
  = inr 8%Z.
Proof.
  destruct (wget_download_exit_code
              (sample_env text_only (fun _ => page "") (ok 8%Z) 0%Z)
              "https://cdn.example.com/a.mp4" None)
    as (_ & _ & _ & H); [discriminate|].
  exact (proj1 H).
Defined.

(** ** The flows of the modules with [full_download_from_page] *)

Lemma subprocess_returncode_run (w : Env) (cmd : list string) (t : trace) :
  subprocess_returncode w cmd t = (subprocess_run w cmd, (t ++ [Run cmd])%list).
Proof. unfold subprocess_returncode, bind, emit, lift. reflexivity. Qed.

(** X18. When the page itself holds a playlist address,
    [amateurdoporn.full_download_from_page] never looks for an iframe: it
    sends the one request for the page and starts [ffmpeg] on that address;
    without [out_path] the output is named after the playlist address, not
    after the page. *)
Theorem amateurdoporn_page_playlist_first :
  forall (w : Env) (url : string) (out : option string) (r : response) (m : string),
    requests_get w url [("User-Agent", amateurdoporn.USER_AGENT);
                        ("Referer", amateurdoporn.REFERER)] = inr r ->
    status_error r = None ->
    amateurdoporn.extract_m3u8_from_text (text r) = Some m ->
    let cmd := ["ffmpeg"; "-headers"; amateurdoporn.ffmpeg_headers; "-i"; m;
                "-c"; "copy";
                match out with
                | None => amateurdoporn.derive_filename_from_url m ++ ".mp4"
                | Some p => p
                end] in
    run (amateurdoporn.full_download_from_page w url out)
    = (subprocess_run w cmd,
       [Get url [("User-Agent", amateurdoporn.USER_AGENT);
                 ("Referer", amateurdoporn.REFERER)] 15;
        Run cmd]).
Proof.
  intros w url out r m G S E. cbv zeta.
  unfold run, amateurdoporn.full_download_from_page, amateurdoporn.fetch_page.
  unfold bind at 1. rewrite (http_get_text_ok w r _ _ _ _ G S), E.
  assert (T : Py.truthy (Some m) = true).
  { unfold amateurdoporn.extract_m3u8_from_text in E.
    apply bare_url_search_sound in E as (_ & _ & _ & tls & body & -> & _).
    now destruct tls. }
  rewrite T. unfold amateurdoporn.download. rewrite T. cbn [negb str_of].
  now rewrite subprocess_returncode_run.
Qed.

Lemma amateurdoporn_page_playlist_first_witness :
  requested (snd (run (amateurdoporn.full_download_from_page
     (sample_env (iframe_only "https://player.example.com/e/1")
        (fun _ => page "hls: https://cdn.example.com/hls/index.m3u8 <iframe>")
        (ok 0%Z) 0%Z)
     "https://amateurdoporn.com/v/1/" None)))
  = ["https://amateurdoporn.com/v/1/"].
Proof.
  rewrite (amateurdoporn_page_playlist_first
             (sample_env (iframe_only "https://player.example.com/e/1")
                (fun _ => page "hls: https://cdn.example.com/hls/index.m3u8 <iframe>")
                (ok 0%Z) 0%Z)
             "https://amateurdoporn.com/v/1/" None
             {| status_error := None;
                text := "hls: https://cdn.example.com/hls/index.m3u8 <iframe>";
                chunks := ["hls: https://cdn.example.com/hls/index.m3u8 <iframe>"];
                stream_error := None |}
             "https://cdn.example.com/hls/index.m3u8" eq_refl eq_refl eq_refl).
  reflexivity.
Defined.

(** X19. [full_download_from_page] of cumslutx and simpthots names the
    output after the page, not after the media file: without [out_path] the
    [--output] of [curl] is the name derived from the page URL, and the
    derivation [download] would make from the media URL is never used.  A
    page URL that [urlparse] rejects ends the run after the request, before
    [curl]. *)
Theorem page_flow_names_output_after_page :
  forall (w : Env) (url mp4 : string) (out : option string) (r : response),
    status_error r = None -> mp4 <> "" ->
    (requests_get w url [("User-Agent", cumslutx.USER_AGENT); ("Referer", url)] = inr r ->
     cumslutx.extract_mp4_url w (text r) = Some mp4 ->
     run (cumslutx.full_download_from_page w url out)
     = match (match out with
              | None => cumslutx.derive_filename_from_url url
              | Some p => inr p
              end) with
       | inl e => (inl e, [Get url [("User-Agent", cumslutx.USER_AGENT); ("Referer", url)] 15])
       | inr o =>
           (subprocess_run w ["curl"; "-L"; "--fail"; "--output"; o;
                              "--user-agent"; cumslutx.USER_AGENT;
                              "--referer"; "https://cumslutx.com/"; mp4],
            [Get url [("User-Agent", cumslutx.USER_AGENT); ("Referer", url)] 15;
             Run ["curl"; "-L"; "--fail"; "--output"; o;
                  "--user-agent"; cumslutx.USER_AGENT;
                  "--referer"; "https://cumslutx.com/"; mp4]])
       end) /\
    (requests_get w url [("User-Agent", simpthots.USER_AGENT); ("Referer", url)] = inr r ->
     simpthots.extract_mp4_url w (text r) = Some mp4 ->
     run (simpthots.full_download_from_page w url out)
     = match (match out with
              | None => simpthots.derive_filename_from_url url
              | Some p => inr p
              end) with
       | inl e => (inl e, [Get url [("User-Agent", simpthots.USER_AGENT); ("Referer", url)] 15])
       | inr o =>
           (subprocess_run w ["curl"; "-L"; "--fail"; "--output"; o;
                              "--user-agent"; simpthots.USER_AGENT;
                              "--referer"; simpthots.REFERER; mp4],
            [Get url [("User-Agent", simpthots.USER_AGENT); ("Referer", url)] 15;
             Run ["curl"; "-L"; "--fail"; "--output"; o;
                  "--user-agent"; simpthots.USER_AGENT;
                  "--referer"; simpthots.REFERER; mp4]])
       end).
Proof.
  intros w url mp4 out r S N. pose proof (truthy_some mp4 N) as T. split.
  - intros G E.
    unfold run, cumslutx.full_download_from_page, cumslutx.fetch_page.
    unfold bind at 1. rewrite (http_get_text_ok w r _ _ _ _ G S), E, T. cbn [negb].
    unfold bind at 1.
    destruct out as [p|]; [unfold ret|unfold lift;
      destruct (cumslutx.derive_filename_from_url url) as [e|o]; [reflexivity|]];
    unfold cumslutx.download; rewrite T; cbn [negb str_of];
    unfold bind, ret; now rewrite subprocess_returncode_run.
  - intros G E.
    unfold run, simpthots.full_download_from_page, simpthots.fetch_page.
    unfold bind at 1. rewrite (http_get_text_ok w r _ _ _ _ G S), E, T. cbn [negb].
    unfold bind at 1.
    destruct out as [p|]; [unfold ret|unfold lift;
      destruct (simpthots.derive_filename_from_url url) as [e|o]; [reflexivity|]];
    unfold simpthots.download; rewrite T; cbn [negb str_of];
    unfold bind, ret; now rewrite subprocess_returncode_run.
Qed.

Lemma page_flow_names_output_after_page_witness :
  runs (snd (run (cumslutx.full_download_from_page
     (sample_env text_only (fun _ => page "see https://cdn.example.com/files/9.mp4")
        (ok 0%Z) 0%Z)
     "https://cumslutx.com/some-name/" None)))
  = [["curl"; "-L"; "--fail"; "--output"; "some-name.mp4";
      "--user-agent"; cumslutx.USER_AGENT;
      "--referer"; "https://cumslutx.com/"; "https://cdn.example.com/files/9.mp4"]].
Proof.
  rewrite (proj1 (page_flow_names_output_after_page
             (sample_env text_only (fun _ => page "see https://cdn.example.com/files/9.mp4")
                (ok 0%Z) 0%Z)
             "https://cumslutx.com/some-name/" "https://cdn.example.com/files/9.mp4" None
             {| status_error := None;
                text := "see https://cdn.example.com/files/9.mp4";
                chunks := ["see https://cdn.example.com/files/9.mp4"];
                stream_error := None |}
             eq_refl ltac:(discriminate)) eq_refl eq_refl).
  reflexivity.
Defined.

(** ** The iframe of a page *)

Lemma select_node_sound :
  forall (n : Soup.node) (vp rp : bool) (at_ : list (string * string)),
    Soup.select_player_iframe_node vp rp n = Some at_ ->
    In ("iframe", at_) (tags_node n).
Proof.
  fix IH 1. intros [nm a ch|s] vp rp at_; [|discriminate].
  cbn [Soup.select_player_iframe_node tags_node].
  destruct (String.eqb_spec nm "iframe") as [->|_]; cbn [andb].
  - destruct rp.
    + intro E. injection E as ->. now left.
    + intro H. right. revert H.
      generalize (false || vp && Soup.has_class a "responsive-player") as rp'.
      generalize (vp || Soup.has_class a "video-player") as vp'. intros vp' rp'.
      induction ch as [|x ch IHch]; [discriminate|].
      destruct (Soup.select_player_iframe_node vp' rp' x) as [t|] eqn:E.
      * intro H. injection H as ->. apply in_or_app. left. exact (IH _ _ _ _ E).
      * intro H. apply in_or_app. right. exact (IHch H).
  - intro H. right. revert H.
    generalize (rp || vp && Soup.has_class a "responsive-player") as rp'.
    generalize (vp || Soup.has_class a "video-player") as vp'. intros vp' rp'.
    induction ch as [|x ch IHch]; [discriminate|].
    destruct (Soup.select_player_iframe_node vp' rp' x) as [t|] eqn:E.
    + intro H. injection H as ->. apply in_or_app. left. exact (IH _ _ _ _ E).
    + intro H. apply in_or_app. right. exact (IHch H).
Qed.

Lemma select_sound (s : Soup.soup) (at_ : list (string * string)) :
  Soup.select_player_iframe s = Some at_ -> In ("iframe", at_) (tags s).
Proof.
  induction s as [|n s IH]; cbn [Soup.select_player_iframe tags]; [discriminate|].
  destruct (Soup.select_player_iframe_node false false n) as [t|] eqn:E.
  - intro H. injection H as ->. apply in_or_app. left. exact (select_node_sound _ _ _ _ E).
  - intro H. apply in_or_app. right. exact (IH H).
Qed.

Lemma first_of_split p l (at_ : list (string * string)) :
  first_of p l = Some at_ ->
  exists before nm after,
    l = (before ++ (nm, at_) :: after)%list /\ p nm at_ = true /\
    forall x, In x before -> p (fst x) (snd x) = false.
Proof.
  induction l as [|[nm a] l IH]; [discriminate|].
  rewrite first_of_cons. destruct (p nm a) eqn:E.
  - intro H. injection H as ->. exists [], nm, l. repeat split; [exact E|]. intros x [].
  - intro H. destruct (IH H) as (b & nm' & af & -> & P & B).
    exists ((nm, a) :: b), nm', af. repeat split; [exact P|].
    intros x [<-|Hx]; [exact E | now apply B].
Qed.

Lemma find_iframe_first (s : Soup.soup) (at_ : list (string * string)) :
  Soup.find s "iframe" None = Some at_ ->
  exists before after,
    tags s = (before ++ ("iframe", at_) :: after)%list /\
    forall a, ~ In ("iframe", a) before.
Proof.
  unfold Soup.find. rewrite find_first_first. intro H.
  apply first_of_split in H as (b & nm & af & E & P & B).
  rewrite andb_true_r in P. apply String.eqb_eq in P. subst nm.
  exists b, af. split; [exact E|]. intros a Hin.
  specialize (B _ Hin). cbn in B. discriminate.
Qed.

(** X20. The address [extract_iframe_src] returns is the [src] of an
    [iframe] element of the parsed page: for amateurdoporn of the first
    one in document order, and of no other even when the first has no
    [src]; for eroleaked of the one in the player, or else of the first. *)
Theorem extract_iframe_src_sound :
  forall (w : Env) (html src : string),
    (amateurdoporn.extract_iframe_src w html = Some src ->
     exists before at_ after,
       tags (BeautifulSoup w html) = (before ++ ("iframe", at_) :: after)%list /\
       (forall a, ~ In ("iframe", a) before) /\
       Soup.attr at_ "src" = Some src) /\
    (eroleaked.extract_iframe_src w html = Some src ->
     exists at_,
       In ("iframe", at_) (tags (BeautifulSoup w html)) /\
       Soup.attr at_ "src" = Some src /\
       (Soup.select_player_iframe (BeautifulSoup w html) = Some at_ \/
        Soup.find (BeautifulSoup w html) "iframe" None = Some at_)).
Proof.
  intros w html src. split.
  - unfold amateurdoporn.extract_iframe_src. cbv zeta.
    destruct (Soup.find (BeautifulSoup w html) "iframe" None) as [a|] eqn:F; [|discriminate].
    intro A. apply find_iframe_first in F as (b & af & E & B).
    now exists b, a, af.
  - unfold eroleaked.extract_iframe_src. cbv zeta.
    destruct (Soup.select_player_iframe (BeautifulSoup w html)) as [a|] eqn:P.
    + destruct (Soup.attr a "src") as [v|] eqn:A.
      * intro E. injection E as ->. exists a.
        split; [now apply select_sound | split; [exact A | now left]].
      * destruct (Soup.find (BeautifulSoup w html) "iframe" None) as [a'|] eqn:F; [|discriminate].
        intro A'. exists a'. pose proof F as F'.
        apply find_iframe_first in F as (b & af & E & _).
        split; [rewrite E; apply in_elt | split; [exact A' | now right]].
    + destruct (Soup.find (BeautifulSoup w html) "iframe" None) as [a'|] eqn:F; [|discriminate].
      intro A'. exists a'. pose proof F as F'.
      apply find_iframe_first in F as (b & af & E & _).
      split; [rewrite E; apply in_elt | split; [exact A' | now right]].
Qed.

Lemma extract_iframe_src_sound_witness :
  exists at_,
    In ("iframe", at_) (tags (iframe_only "https://player.example.com/e/1" "")) /\
    Soup.attr at_ "src" = Some "https://player.example.com/e/1" /\
    (Soup.select_player_iframe (iframe_only "https://player.example.com/e/1" "") = Some at_ \/
     Soup.find (iframe_only "https://player.example.com/e/1" "") "iframe" None = Some at_).
Proof.
  apply (proj2 (extract_iframe_src_sound
                  (sample_env (iframe_only "https://player.example.com/e/1")
                     (fun _ => page "") (ok 0%Z) 0%Z)
                  "" "https://player.example.com/e/1")).
  reflexivity.
Defined.

(** ** The download of fapnut *)

(** The output file of [fapnut.download]. *)
Lemma fapnut_out_file_pure (w : Env) (m3u8_url : string) (out page : option string) :
  exists fr : res Path.path,
    (if Py.truthy out then ret (Path.of_string (str_of out))
     else if Py.truthy page then
       n <- lift (fapnut._filename_from_page_url (str_of page)) ;;
       ret (Path.join (Path.of_string (os_getcwd w)) n)
     else
       parsed <- lift (Url.urlparse m3u8_url) ;;
       let name := Path.name (Path.of_string (Url.path parsed)) in
       let name := if String.eqb name "" then "fapnut" else name in
       ret (Path.join (Path.of_string (os_getcwd w)) (name ++ ".mp4")))
    = lift fr.
Proof.
  destruct (Py.truthy out); [now exists (inr (Path.of_string (str_of out)))|].
  destruct (Py.truthy page).
  - destruct (fapnut._filename_from_page_url (str_of page)) as [e|n] eqn:E.
    + now exists (inl e).
    + now exists (inr (Path.join (Path.of_string (os_getcwd w)) n)).
  - destruct (Url.urlparse m3u8_url) as [e|r] eqn:E.
    + now exists (inl e).
    + eexists (inr _). unfold bind, lift, ret. reflexivity.
Qed.

(** X21. [fapnut.download] returns nothing but 0: a run that returns has
    found [ffmpeg], created the directory of the output file, started the
    [ffmpeg] that was found exactly once, on the playlist address, and that
    run ended with code 0; every other exit code is raised.  No request is
    sent and no file is opened by the package itself. *)
Theorem fapnut_download_returns_zero :
  forall (w : Env) (m3u8_url out page : option string) (rc : Z),
    fst (run (fapnut.download w m3u8_url out page)) = inr rc ->
    rc = 0%Z /\
    exists ffmpeg f,
      shutil_which w "ffmpeg" = Some ffmpeg /\ ffmpeg <> "" /\
      let cmd := [ffmpeg; "-y"; "-hide_banner"; "-loglevel"; "error";
                  "-headers"; "Referer: https://fapnut.net/" ++ crlf;
                  "-i"; str_of m3u8_url; "-c"; "copy"; Path.to_string f] in
      subprocess_run w cmd = inr 0%Z /\
      snd (run (fapnut.download w m3u8_url out page)) = [Mkdir (Path.parent f); Run cmd].
Proof.
  intros w m3u8_url out page rc.
  destruct (run (fapnut.download w m3u8_url out page)) as [res t] eqn:Q.
  cbn [fst snd]. intros ->. revert Q. unfold run, fapnut.download.
  destruct (Py.truthy m3u8_url); cbn [negb]; [|discriminate].
  destruct (shutil_which w "ffmpeg") as [ff|]; [|discriminate].
  destruct (String.eqb_spec ff "") as [->|N]; [discriminate|].
  destruct (fapnut_out_file_pure w (str_of m3u8_url) out page) as [fr F].
  match goal with
  | |- bind ?m _ [] = _ -> _ => replace m with (lift fr) by (symmetry; exact F)
  end.
  unfold bind at 1, lift. destruct fr as [e|f]; [discriminate|].
  unfold bind at 1, mkdir_p, bind at 1, emit.
  destruct (mkdir_error w (Path.parent f)) as [e|]; cbn [fail_if]; [discriminate|].
  unfold ret at 1. unfold bind at 1. rewrite subprocess_returncode_run.
  destruct (subprocess_run w _) as [e|c] eqn:R; [discriminate|].
  destruct (Z.eqb_spec c 0) as [->|_]; cbn [negb]; [|discriminate].
  intro E. injection E as <- <-. split; [reflexivity|].
  exists ff, f. cbv zeta. split; [reflexivity|]. split; [exact N|].
  split; [exact R | reflexivity].
Qed.

Lemma fapnut_download_returns_zero_witness :
  exists ffmpeg f,
    shutil_which (sample_env text_only (fun _ => page "") (ok 0%Z) 0%Z) "ffmpeg"
    = Some ffmpeg /\ ffmpeg <> "" /\
    subprocess_run (sample_env text_only (fun _ => page "") (ok 0%Z) 0%Z)
      [ffmpeg; "-y"; "-hide_banner"; "-loglevel"; "error";
       "-headers"; "Referer: https://fapnut.net/" ++ crlf;
       "-i"; "https://cdn.example.com/hls/index.m3u8"; "-c"; "copy"; Path.to_string f]
    = inr 0%Z /\
    snd (run (fapnut.download (sample_env text_only (fun _ => page "") (ok 0%Z) 0%Z)
                (Some "https://cdn.example.com/hls/index.m3u8") None
                (Some "https://fapnut.net/some-video/")))
    = [Mkdir (Path.parent f);
       Run [ffmpeg; "-y"; "-hide_banner"; "-loglevel"; "error";
            "-headers"; "Referer: https://fapnut.net/" ++ crlf;
            "-i"; "https://cdn.example.com/hls/index.m3u8"; "-c"; "copy";
            Path.to_string f]].
Proof.
  apply (fapnut_download_returns_zero
           (sample_env text_only (fun _ => page "") (ok 0%Z) 0%Z)
           (Some "https://cdn.example.com/hls/index.m3u8") None
           (Some "https://fapnut.net/some-video/") 0%Z).
  reflexivity.
Defined.

(** ** The flow of eroleaked *)

(** X22. [eroleaked.full_download_from_page], when the page holds an
    iframe and the iframe page a playlist address: two requests, for the
    page and for the rewritten iframe address, then one [ffmpeg] run on the
    playlist address whose result is returned as it is; without [out_path]
    the output is named after the page URL with [.mp4]. *)
Theorem eroleaked_page_flow :
  forall (w : Env) (url src m : string) (out : option string) (r1 r2 : response),
    let hs := [("User-Agent", eroleaked.USER_AGENT); ("Referer", eroleaked.REFERER)] in
    requests_get w url hs = inr r1 -> status_error r1 = None ->
    eroleaked.extract_iframe_src w (text r1) = Some src -> src <> "" ->
    requests_get w (eroleaked.resolve_iframe_src src) hs = inr r2 ->
    status_error r2 = None ->
    eroleaked.extract_m3u8_from_html (text r2) = Some m ->
    let cmd := ["ffmpeg"; "-headers"; eroleaked.ffmpeg_headers; "-i"; m;
                "-c"; "copy";
                match out with
                | None => eroleaked.derive_filename_from_url url ++ ".mp4"
                | Some p => p
                end] in
    run (eroleaked.full_download_from_page w url out)
    = (subprocess_run w cmd,
       [Get url hs 15; Get (eroleaked.resolve_iframe_src src) hs 15; Run cmd]).
Proof.
  intros w url src m out r1 r2 hs G1 S1 I N G2 S2 E. cbv zeta.
  unfold run, eroleaked.full_download_from_page, eroleaked.fetch_page.
  unfold bind at 1. fold hs. rewrite (http_get_text_ok w r1 _ _ _ _ G1 S1), I.
  rewrite (truthy_some src N). cbn [negb str_of].
  unfold bind at 1. rewrite (http_get_text_ok w r2 _ _ _ _ G2 S2), E.
  assert (T : Py.truthy (Some m) = true).
  { unfold eroleaked.extract_m3u8_from_html in E. rewrite first_found_is_search in E.
    apply bare_url_search_sound in E as (_ & _ & _ & tls & body & -> & _).
    now destruct tls. }
  rewrite T. cbn [negb]. unfold eroleaked.download. rewrite T. cbn [negb str_of].
  rewrite subprocess_returncode_run. destruct out; reflexivity.
Qed.

Lemma eroleaked_page_flow_witness :
  runs (snd (run (eroleaked.full_download_from_page
     (sample_env (iframe_only "//player.example.com/e/1")
        (fun _ => page "file: 'https://cdn.example.com/hls/index.m3u8'")
        (ok 0%Z) 0%Z)
     "https://eroleaked.com/2025/08/18/slug/" None)))
  = [["ffmpeg"; "-headers"; eroleaked.ffmpeg_headers; "-i";
      "https://cdn.example.com/hls/index.m3u8"; "-c"; "copy"; "slug.mp4"]].
Proof.
  rewrite (eroleaked_page_flow
             (sample_env (iframe_only "//player.example.com/e/1")
                (fun _ => page "file: 'https://cdn.example.com/hls/index.m3u8'")
                (ok 0%Z) 0%Z)
             "https://eroleaked.com/2025/08/18/slug/" "//player.example.com/e/1"
             "https://cdn.example.com/hls/index.m3u8" None
             {| status_error := None;
                text := "file: 'https://cdn.example.com/hls/index.m3u8'";
                chunks := ["file: 'https://cdn.example.com/hls/index.m3u8'"];
                stream_error := None |}
             {| status_error := None;
                text := "file: 'https://cdn.example.com/hls/index.m3u8'";
                chunks := ["file: 'https://cdn.example.com/hls/index.m3u8'"];
                stream_error := None |}
             eq_refl eq_refl eq_refl ltac:(discriminate) eq_refl eq_refl eq_refl).
  reflexivity.
Defined.

(** ** The player line of thothub *)

(** A greedy star gives back all it took when what follows it matches
    nowhere inside the run. *)
Lemma star_greedy_gives_back {R} (p : ascii -> bool) (x rest : string)
      (prev : option ascii) (k : @Re.cont R) :
  (forall x1 x2 pv, x = x1 ++ x2 -> x1 <> "" -> k pv (x2 ++ rest) = None) ->
  (rest = "" \/ exists c r, rest = String c r /\ p c = false) ->
  Re.star_greedy p prev (x ++ rest) k = k prev (x ++ rest).
Proof.
  intros H Hr. revert prev H. induction x as [|c x IH]; intros prev H.
  - cbn [append]. destruct Hr as [->|(c & r & -> & Pc)]; [reflexivity|].
    cbn. now rewrite Pc.
  - cbn [append Re.star_greedy]. destruct (p c); [|reflexivity].
    rewrite IH.
    + now rewrite (H (String c "") x (Some c) eq_refl).
    + intros x1 x2 pv E N. apply (H (String c x1) x2 pv); [now rewrite E | discriminate].
Qed.

Lemma contains_suffix (y1 y2 q : string) :
  Py.contains (y1 ++ y2) q = false -> Py.startswith y2 q = false.
Proof.
  induction y1 as [|c y1 IH]; cbn [append].
  - destruct y2; cbn [Py.contains]; intro H; now apply orb_false_iff in H as [H _].
  - cbn [Py.contains]. intro H. apply orb_false_iff in H as [_ H]. now apply IH.
Qed.

(** After the address nothing up to the end of the run starts [.mp4]. *)
Lemma no_mp4_after (tail rest x1 x2 : string) :
  Py.contains ("mp4" ++ tail) ".mp4" = false -> ends_run rest = true ->
  ".mp4" ++ tail = x1 ++ x2 -> x1 <> "" ->
  Py.startswith (x2 ++ rest) ".mp4" = false.
Proof.
  intros C R E N. destruct x1 as [|c x1]; [contradiction|].
  cbn [append] in E. injection E as _ E.
  change (String "m" (String "p" (String "4" tail))) with ("mp4" ++ tail) in E.
  rewrite E in C. apply contains_suffix in C.
  destruct rest as [|d rest]; [now rewrite app_nil_r_s|].
  cbn in R. apply Ascii.eqb_eq in R. subst d.
  destruct (Py.startswith (x2 ++ String Re.sq rest) ".mp4") eqn:S; [|exact S].
  apply startswith_before in S; [congruence | reflexivity].
Qed.

(** The group [https?://], a greedy run of a class and [.mp4] on a text
    that starts with such an address: the run gives back what follows the
    address when nothing there starts [.mp4] before the run ends. *)
Lemma match_greedy_mp4 {R} (p : ascii -> bool) (tls : bool) (b : ascii)
      (body tail rest : string) (prev : option ascii) (k : @Re.cont R) (r : R) :
  p b = true -> Py.forallb_str p body = true ->
  p Re.sq = false ->
  Py.contains ("mp4" ++ tail) ".mp4" = false -> ends_run rest = true ->
  k (Some "4"%char) (tail ++ rest) = Some r ->
  Re.match_seq false (Re.http_scheme ++ Re.Plus true p ++ [Re.Lit ".mp4"])%list prev
    (bare_mp4_url tls (String b body) ++ tail ++ rest) k
  = Some r.
Proof.
  intros Hb Hbody Hq C Hr K.
  assert (Es : bare_mp4_url tls (String b body) ++ tail ++ rest
               = (if tls then "https://" else "http://")
                 ++ String b (body ++ (".mp4" ++ tail) ++ rest)).
  { unfold bare_mp4_url. rewrite !app_assoc_s. reflexivity. }
  rewrite Es.
  assert (F : forall p0,
    Re.match_seq false [Re.Cls p; Re.Star true p; Re.Lit ".mp4"] p0
      (String b (body ++ (".mp4" ++ tail) ++ rest)) k = Some r).
  { intro p0. cbn [Re.match_seq Re.match_atom]. rewrite Hb.
    apply (star_greedy_skip p body _ _ _ _ Hbody).
    rewrite star_greedy_gives_back.
    - rewrite app_assoc_s. exact (eq_trans (lit_app ".mp4" _ (tail ++ rest) k) K).
    - intros x1 x2 pv E N. apply lit_mismatch. now apply (no_mp4_after tail rest x1 x2).
    - destruct rest as [|d rest]; [now left|]. right. exists d, rest.
      cbn in Hr. apply Ascii.eqb_eq in Hr. now subst d. }
  destruct tls; [|exact (F (Some "/"%char))].
  apply (opt_first _ _ _ (F (Some "/"%char))).
Qed.

Lemma match_video_url (prev : option ascii) (ws : string) (tls : bool) (b : ascii)
      (body tail rest : string) :
  Py.forallb_str Py.is_space ws = true ->
  Py.forallb_str Re.not_apos (String b body) = true ->
  Py.contains ("mp4" ++ tail) ".mp4" = false -> ends_run rest = true ->
  ends_word (tail ++ rest) = true ->
  exists n,
    Re.match_here thothub.video_url_pattern prev
      (video_url_line ws (bare_mp4_url tls (String b body)) ++ tail ++ rest)
    = Some (bare_mp4_url tls (String b body), n).
Proof.
  intros Hws Hb C Hr Hw. cbn in Hb. apply andb_true_iff in Hb as [Hb1 Hb2].
  set (u := bare_mp4_url tls (String b body)).
  assert (Es : video_url_line ws u ++ tail ++ rest
               = "video_url:" ++ ws ++ "'function/0/" ++ u ++ tail ++ rest).
  { unfold video_url_line. now rewrite !app_assoc_s. }
  rewrite Es. set (s := "video_url:" ++ ws ++ "'function/0/" ++ u ++ tail ++ rest).
  unfold Re.match_here, thothub.video_url_pattern.
  cbn [Re.icase Re.pre Re.grp Re.post]. eexists.
  cbn [Re.match_seq Re.match_atom]. unfold s at 1. rewrite lit_app.
  apply (star_greedy_skip Py.is_space ws _ _ _ _ Hws).
  change ("'function/0/" ++ u ++ tail ++ rest)
    with (String Re.sq ("function/0/" ++ u ++ tail ++ rest)) at 1.
  cbn [Re.star_greedy]. change (Py.is_space Re.sq) with false. cbv iota.
  change (String Re.sq ("function/0/" ++ u ++ tail ++ rest))
    with ("'function/0/" ++ u ++ tail ++ rest).
  rewrite lit_app.
  apply (match_greedy_mp4 Re.not_apos tls b body tail rest _ _ _ Hb1 Hb2 eq_refl C Hr).
  cbn [Re.match_seq Re.match_atom]. unfold ends_word in Hw.
  apply negb_true_iff in Hw. rewrite Hw. cbn [Re.is_word_opt].
  change (Py.is_word "4") with true. cbn [xorb].
  unfold u at 2. rewrite take_app. reflexivity.
Qed.

Lemma match_here_needs_video_url (prev : option ascii) (y : string) :
  Py.startswith y "video_url:" = false ->
  Re.match_here thothub.video_url_pattern prev y = None.
Proof. intro H. unfold Re.match_here. exact (lit_mismatch "video_url:" prev y _ H). Qed.

(** The search reaches the first player line: no [video_url:] before it. *)
Lemma search_video_url (pre ws : string) (tls : bool) (b : ascii)
      (body tail rest : string) :
  Py.contains pre "video_url:" = false ->
  Py.forallb_str Py.is_space ws = true ->
  Py.forallb_str Re.not_apos (String b body) = true ->
  Py.contains ("mp4" ++ tail) ".mp4" = false -> ends_run rest = true ->
  ends_word (tail ++ rest) = true ->
  Re.search thothub.video_url_pattern
    (pre ++ video_url_line ws (bare_mp4_url tls (String b body)) ++ tail ++ rest)
  = Some (bare_mp4_url tls (String b body)).
Proof.
  intros Hpre Hws Hb C Hr Hw. unfold Re.search.
  generalize (@None ascii) as prev.
  induction pre as [|c pre IH]; intro prev.
  - destruct (match_video_url prev ws tls b body tail rest Hws Hb C Hr Hw) as [n M].
    cbn [append]. 
    destruct (video_url_line ws (bare_mp4_url tls (String b body)) ++ tail ++ rest)
      as [|c0 t0] eqn:E; [discriminate E|].
    rewrite search_from_cons, M. reflexivity.
  - cbn [Py.contains] in Hpre. apply orb_false_iff in Hpre as [H1 H2].
    change (String c pre ++ ?x) with (String c (pre ++ x)).
    rewrite search_from_cons, match_here_needs_video_url; [now apply IH|].
    unfold video_url_line. rewrite !app_assoc_s.
    change (String c (pre ++ "video_url:" ++ ?x))
      with (String c pre ++ "video_url:" ++ x).
    apply no_straddle; [discriminate | reflexivity | exact H1].
Qed.

(** X23. On a page that holds the player line [video_url: 'function/0/URL]
    with an absolute [.mp4] address and no [video_url:] before it,
    [thothub.extract_mp4_url] returns that address, whatever other addresses
    the page holds before or after it, when up to the closing quote no
    further [.mp4] follows the address and what follows it does not start
    with a word character. *)
Theorem thothub_player_line_wins :
  forall (pre ws : string) (tls : bool) (b : ascii) (body tail rest : string),
    Py.contains pre "video_url:" = false ->
    Py.forallb_str Py.is_space ws = true ->
    Py.forallb_str Re.not_apos (String b body) = true ->
    Py.contains ("mp4" ++ tail) ".mp4" = false ->
    ends_run rest = true ->
    ends_word (tail ++ rest) = true ->
    thothub.extract_mp4_url
      (pre ++ video_url_line ws (bare_mp4_url tls (String b body)) ++ tail ++ rest)
    = Some (bare_mp4_url tls (String b body)).
Proof.
  intros pre ws tls b body tail rest Hpre Hws Hb C Hr Hw.
  unfold thothub.extract_mp4_url.
  rewrite (search_video_url pre ws tls b body tail rest Hpre Hws Hb C Hr Hw).
  replace (String.eqb _ "") with false; [reflexivity|].
  symmetry. apply app_not_empty. unfold video_url_line. discriminate.
Qed.

Lemma thothub_player_line_wins_witness :
  thothub.extract_mp4_url
    ("<a href='https://other.example/b.mp4'> " ++
     video_url_line " " (bare_mp4_url true "teenager365.to/get_file/3/ab/15000/15879/15879")
     ++ "/" ++ "', x: 'https://third.example/c.mp4'")
  = Some "https://teenager365.to/get_file/3/ab/15000/15879/15879.mp4".
Proof.
  apply (thothub_player_line_wins
           "<a href='https://other.example/b.mp4'> " " " true
           "t" "eenager365.to/get_file/3/ab/15000/15879/15879" "/"
           "', x: 'https://third.example/c.mp4'"); reflexivity.
Defined.

(** ** Where a streaming download stops *)

Lemma stream_tail_outcome (w : Env) (u : string) (hs : headers) (f : Path.path) :
  (mkdir_p w (Path.parent f) ;;;
   stream_to_file w u hs f ;;;
   ret 0%Z) [] = stream_outcome w u hs f.
Proof.
  unfold stream_outcome, mkdir_p, stream_to_file, bind, emit, lift.
  destruct (mkdir_error w (Path.parent f)) as [e|]; cbn [fail_if]; [reflexivity|].
  unfold ret at 1. cbn [app].
  destruct (requests_get w u hs) as [e|r]; [reflexivity|].
  destruct (status_error r) as [e|]; cbn [fail_if]; [reflexivity|].
  unfold ret at 1. cbn [app].
  destruct (open_error w f) as [e|]; cbn [fail_if]; [reflexivity|].
  unfold ret at 1. rewrite write_chunks_trace.
  destruct (stream_error r) as [e|]; cbn [fail_if]; reflexivity.
Qed.

(** X24. A streaming [download] stops at the first step that fails and
    undoes nothing: the directory is created before the request is sent, the
    status is checked before the file is opened, and when the stream breaks
    the file stays with the chunks written so far.  A URL from which no
    name can be derived raises before anything is done. *)
Theorem streaming_download_stops_at_failure :
  forall (w : Env) (url : string) (out : option string),
    url <> "" ->
    run (thothub.download w (Some url) out)
    = match out_file_of (os_getcwd w) out (thothub._filename_from_url url) with
      | inl e => (inl e, [])
      | inr f => stream_outcome w (thothub._append_random_rnd w url)
                   thothub.request_headers f
      end /\
    run (thotfans.download w (Some url) out)
    = match out_file_of (os_getcwd w) out (thotfans._filename_from_url url) with
      | inl e => (inl e, [])
      | inr f => stream_outcome w (thotfans._append_random_rnd w url)
                   thotfans.request_headers f
      end.
Proof.
  assert (L : forall (w : Env) (out : option string) (fn : res string),
             (if Py.truthy out then ret (Path.of_string (str_of out))
              else filename <- lift fn ;;
                   ret (Path.join (Path.of_string (os_getcwd w)) filename))
             = lift (out_file_of (os_getcwd w) out fn)).
  { intros w out fn. unfold out_file_of. destruct (Py.truthy out); [reflexivity|].
    unfold bind, lift, ret, rbind, ok. destruct fn; reflexivity. }
  intros w url out N. apply String.eqb_neq in N. split.
  - unfold run, thothub.download. cbn [Py.truthy]. rewrite N. cbn [negb str_of].
    rewrite L. unfold bind at 1, lift.
    destruct (out_file_of _ _ _) as [e|f]; [reflexivity | apply stream_tail_outcome].
  - unfold run, thotfans.download. cbn [Py.truthy]. rewrite N. cbn [negb str_of].
    rewrite L. unfold bind at 1, lift.
    destruct (out_file_of _ _ _) as [e|f]; [reflexivity | apply stream_tail_outcome].
Qed.

Lemma streaming_download_stops_at_failure_witness :
  run (thothub.download
         (sample_env text_only
            (fun _ => ok {| status_error := None; text := "";
                            chunks := ["ab"; "cd"];
                            stream_error := Some (Other "ChunkedEncodingError" "broken") |})
            (ok 0%Z) 7%Z)
         (Some "https://cdn.example.com/v/1.mp4") (Some "out/1.mp4"))
  = (inl (Other "ChunkedEncodingError" "broken"),
     [Mkdir (Path.of_string "out");
      Get "https://cdn.example.com/v/1.mp4?rnd=7" thothub.request_headers 30;
      OpenWrite (Path.of_string "out/1.mp4");
      Write (Path.of_string "out/1.mp4") "ab";
      Write (Path.of_string "out/1.mp4") "cd"]).
Proof.
  rewrite (proj1 (streaming_download_stops_at_failure
                    (sample_env text_only
                       (fun _ => ok {| status_error := None; text := "";
                                       chunks := ["ab"; "cd"];
                                       stream_error := Some (Other "ChunkedEncodingError" "broken") |})
                       (ok 0%Z) 7%Z)
                    "https://cdn.example.com/v/1.mp4" (Some "out/1.mp4")
                    ltac:(discriminate))).
  reflexivity.
Defined.

(** * Names, scans and tags on whole URLs and pages *)

(** ** The derived name is the last path segment *)

Lemma split_app (c : ascii) (a b : string) :
  Py.split c (a ++ String c b) = (Py.split c a ++ Py.split c b)%list.
Proof.
  induction a as [|x a IH]; cbn [append Py.split].
  - now rewrite Ascii.eqb_refl.
  - destruct (Ascii.eqb x c); rewrite IH; [reflexivity|].
    pose proof (split_not_nil c a) as N.
    destruct (Py.split c a); [contradiction | reflexivity].
Qed.

Lemma last_snoc (l : list string) (x d : string) : last (l ++ [x]) d = x.
Proof.
  induction l as [|a l IH]; [reflexivity|].
  cbn [List.app]. destruct (l ++ [x])%list eqn:E; [now destruct l | exact IH].
Qed.

(** The last field of [a/seg], with or without the empty fields and the
    dots taken out. *)
Lemma last_field_segment (f : string -> bool) (a seg d : string) :
  Py.has_char "/" seg = false -> f seg = true ->
  last (filter f (Py.split "/" (a ++ "/" ++ seg))) d = seg.
Proof.
  intros H F. cbn [append]. rewrite split_app, (split_no_sep _ _ H), filter_app.
  cbn [filter]. rewrite F. apply last_snoc.
Qed.

Lemma last_split_segment (a seg d : string) :
  Py.has_char "/" seg = false ->
  last (Py.split "/" (a ++ "/" ++ seg)) d = seg.
Proof.
  intro H. cbn [append]. rewrite split_app, (split_no_sep _ _ H).
  apply last_snoc.
Qed.

Lemma rstrip_app_free (p : ascii -> bool) (a seg : string) :
  Py.forallb_str (fun c => negb (p c)) seg = true -> seg <> "" ->
  Py.rstrip p (a ++ seg) = a ++ seg.
Proof.
  intros F N. unfold Py.rstrip. rewrite rev_app.
  rewrite <- (forallb_str_rev _ seg) in F.
  destruct (Py.rev seg) as [|c r] eqn:E; [now apply rev_empty in E|].
  cbn [Py.forallb_str] in F. apply andb_true_iff in F as [F _].
  apply negb_true_iff in F. cbn [append]. rewrite (lstrip_id p c _ F).
  change (String c (r ++ Py.rev a)) with (String c r ++ Py.rev a).
  now rewrite <- E, <- rev_app, rev_involutive.
Qed.

Lemma segment_char_props (c : ascii) :
  segment_char c = true ->
  path_char c = true /\ Py.is_slash c = false.
Proof.
  unfold segment_char. intro H. apply andb_true_iff in H as [H1 H2].
  now apply negb_true_iff in H2.
Qed.

Lemma path_char_props (c : ascii) :
  path_char c = true ->
  Ascii.eqb c "?" = false /\ Ascii.eqb c "#" = false /\
  Ascii.eqb c ";" = false /\ Url.unsafe_byte c = false.
Proof.
  unfold path_char. intro H. apply negb_true_iff in H.
  apply orb_false_iff in H as [H H4]. apply orb_false_iff in H as [H H3].
  apply orb_false_iff in H as [H1 H2]. now repeat split.
Qed.

Lemma path_no_char (c : ascii) (p : string) :
  path_char c = false -> Py.forallb_str path_char p = true ->
  Py.has_char c p = false.
Proof. intros H F. now apply (forallb_no_char path_char). Qed.

(** The path of [sch://nl p]. *)
Lemma path_of_url (sch nl p : string) :
  valid_scheme sch = true ->
  Py.forallb_str netloc_char nl = true ->
  Py.forallb_str path_char p = true ->
  starts_rest p = true ->
  path_of (sch ++ "://" ++ nl ++ p) = inr p.
Proof.
  intros Hs Hn Hp Hr. unfold valid_scheme in Hs. apply andb_true_iff in Hs as [Hs1 Hs2].
  destruct sch as [|c0 sch]; [discriminate|]. cbn [Url.first_is_alpha] in Hs1.
  set (s := String c0 sch) in *.
  assert (Hs3 : Py.forallb_str (fun c => negb (Url.unsafe_byte c)) s = true).
  { apply (forallb_str_impl Url.scheme_char); [|exact Hs2].
    intros c Hc. now rewrite (proj1 (scheme_char_props c Hc)). }
  assert (Hs4 : Py.has_char ":" s = false).
  { apply (forallb_no_char Url.scheme_char); [reflexivity | exact Hs2]. }
  assert (Hn1 : Py.forallb_str (fun c => negb (Url.unsafe_byte c)) nl = true).
  { apply (forallb_str_impl netloc_char); [|exact Hn].
    intros c Hc. unfold netloc_char in Hc.
    destruct (Url.netloc_delim c), (Url.unsafe_byte c); cbn in *; congruence. }
  assert (Hn2 : Py.forallb_str (fun c => negb (Url.netloc_delim c)) nl = true).
  { apply (forallb_str_impl netloc_char); [|exact Hn].
    intros c Hc. unfold netloc_char in Hc.
    destruct (Url.netloc_delim c); cbn in *; congruence. }
  assert (Hn3 : Py.has_char "[" nl = false)
    by (apply (forallb_no_char netloc_char); [reflexivity | exact Hn]).
  assert (Hn4 : Py.has_char "]" nl = false)
    by (apply (forallb_no_char netloc_char); [reflexivity | exact Hn]).
  assert (Hp1 : Py.forallb_str (fun c => negb (Url.unsafe_byte c)) p = true).
  { apply (forallb_str_impl path_char); [|exact Hp].
    intros c Hc. now rewrite (proj2 (proj2 (proj2 (path_char_props c Hc)))). }
  assert (C : Py.remove_chars Url.unsafe_byte
                (Py.lstrip Url.c0_or_space (s ++ "://" ++ nl ++ p))
              = s ++ ":" ++ "//" ++ nl ++ p).
  { unfold s at 1. cbn [append]. rewrite lstrip_id by now apply alpha_not_c0.
    change (String c0 (sch ++ String ":" (String "/" (String "/" (nl ++ p)))))
      with (s ++ "://" ++ nl ++ p).
    rewrite !remove_chars_app, (remove_chars_id _ s Hs3), (remove_chars_id _ nl Hn1),
      (remove_chars_id _ p Hp1).
    reflexivity. }
  assert (P : Url.split_scheme (s ++ ":" ++ "//" ++ nl ++ p)
              = (Py.lower s, "//" ++ nl ++ p)).
  { unfold Url.split_scheme. rewrite (partition_app_absent _ _ _ Hs4).
    cbn [append Py.partition]. rewrite Ascii.eqb_refl, app_nil_r_s.
    cbn [Url.first_is_alpha]. unfold s at 2. cbn [append Url.first_is_alpha].
    rewrite Hs1, Hs2. reflexivity. }
  unfold path_of, Url.urlparse, Url.urlsplit. rewrite C, P.
  cbn [append Url.split_netloc]. rewrite (span_until_netloc nl p Hn2 Hr).
  unfold Url.netloc_error, Url.brackets_ok. rewrite Hn3, Hn4.
  cbn [Bool.eqb negb].
  rewrite (partition_no_char "#" p (path_no_char "#" p eq_refl Hp)).
  rewrite (partition_no_char "?" p (path_no_char "?" p eq_refl Hp)).
  cbn [rbind ok Url.scheme Url.path].
  rewrite (path_no_char ";" p eq_refl Hp), andb_false_r. reflexivity.
Qed.

(** The path of a URL that ends with the segment [seg], a slash and a
    query, each optional. *)
Lemma path_of_url_to (sch nl dirs seg : string) (slash : bool)
      (query : option string) :
  url_parts sch nl dirs seg = true ->
  path_of (url_to sch nl dirs seg ++ url_tail slash query)
  = inr (dirs ++ "/" ++ seg ++ (if slash then "/" else "")).
Proof.
  unfold url_parts. intro H.
  apply andb_true_iff in H as [H Hne]. apply andb_true_iff in H as [H Hseg].
  apply andb_true_iff in H as [H Hst]. apply andb_true_iff in H as [H Hdirs].
  apply andb_true_iff in H as [Hsch Hnl].
  assert (Hseg' : Py.forallb_str path_char seg = true).
  { apply (forallb_str_impl segment_char); [|exact Hseg].
    intros c Hc. exact (proj1 (segment_char_props c Hc)). }
  set (p := dirs ++ "/" ++ seg ++ (if slash then "/" else "")).
  assert (Hp : Py.forallb_str path_char p = true).
  { unfold p. rewrite !forallb_str_app, Hdirs, Hseg'. now destruct slash. }
  assert (Hr : starts_rest p = true).
  { unfold p. destruct dirs as [|d dirs]; [reflexivity | exact Hst]. }
  assert (E : url_to sch nl dirs seg ++ url_tail slash query
              = (sch ++ "://" ++ nl ++ p) ++
                match query with Some q => "?" ++ q | None => "" end).
  { unfold url_to, url_tail, p. now rewrite !app_assoc_s. }
  rewrite E. destruct query as [q|].
  - rewrite urlparse_path_query; [now apply path_of_url| |].
    + rewrite !has_char_app, (path_no_char "?" p eq_refl Hp).
      unfold valid_scheme in Hsch. apply andb_true_iff in Hsch as [_ Hsch].
      rewrite (forallb_no_char Url.scheme_char "?" sch eq_refl Hsch).
      now rewrite (forallb_no_char netloc_char "?" nl eq_refl Hnl).
    + rewrite !has_char_app, (path_no_char "#" p eq_refl Hp).
      unfold valid_scheme in Hsch. apply andb_true_iff in Hsch as [_ Hsch].
      rewrite (forallb_no_char Url.scheme_char "#" sch eq_refl Hsch).
      now rewrite (forallb_no_char netloc_char "#" nl eq_refl Hnl).
  - rewrite app_nil_r_s. now apply path_of_url.
Qed.

Lemma segment_no_slash (seg : string) :
  Py.forallb_str segment_char seg = true ->
  Py.forallb_str (fun c => negb (Py.is_slash c)) seg = true.
Proof.
  apply forallb_str_impl. intros c Hc.
  now rewrite (proj2 (segment_char_props c Hc)).
Qed.

Lemma sanitize_app (a b : string) :
  Py.sanitize (a ++ b) = Py.sanitize a ++ Py.sanitize b.
Proof. induction a as [|x a IH]; cbn; [reflexivity | now rewrite IH]. Qed.

(** The name [derive_filename_from_url] of eroleaked gives for a text that
    ends with a slash and a segment. *)
Lemma text_name_segment (base seg : string) :
  Py.has_char "/" seg = false -> seg <> "" -> seg <> "." ->
  eroleaked.derive_filename_from_url (base ++ "/" ++ seg) = Py.sanitize seg.
Proof.
  intros H N D. unfold eroleaked.derive_filename_from_url. cbv zeta.
  assert (F : Py.forallb_str (fun c => negb (Py.is_slash c)) seg = true).
  { clear N D. induction seg as [|c seg IH]; [reflexivity|].
    cbn [Py.has_char] in H. apply orb_false_iff in H as [H1 H2].
    cbn [Py.forallb_str]. unfold Py.is_slash at 1. now rewrite H1, (IH H2). }
  assert (R : Py.rstrip Py.is_slash (base ++ "/" ++ seg) = base ++ "/" ++ seg).
  { rewrite <- app_assoc_s. now apply rstrip_app_free. }
  rewrite R. unfold Path.name, Path.of_string, Path.parts, Py.last_or.
  assert (P : Path.is_part seg = true).
  { unfold Path.is_part. apply String.eqb_neq in N, D. now rewrite N, D. }
  rewrite (last_field_segment Path.is_part base seg "" H P).
  apply String.eqb_neq in N. now rewrite N.
Qed.

(** C7, as stated, fails in two ways: eroleaked, which works on the text
    of the URL, keeps the query string in the name and adds no extension;
    thothub returns the last path segment as it is, neither sanitized nor
    extended. *)
Lemma derived_name_keeps_query_or_unsafe_characters :
  eroleaked.derive_filename_from_url "https://cdn.example.com/videos/12345.mp4?x=1"
  = "12345.mp4-x-1" /\
  thothub._filename_from_url "https://cdn.example.com/videos/my video/?x=1"
  = inr "my video".
Proof. split; reflexivity. Qed.

(** C7 (amended). Take a URL [sch://nl dirs/seg] with a valid scheme, a
    network location without brackets and a non-empty last segment [seg]
    (and no [?], [#], [;], tab or line break in the path), followed or not
    by a slash and followed or not by a query string.  The
    [derive_filename_from_url] of cumslutx and simpthots, which parse the
    URL, drop the slash and the query and return the sanitized [seg], with
    [.mp4] appended unless the name ends with it; the [_filename_from_url]
    of thothub and thotfans drop them too and return [seg] as it is.  The
    [derive_filename_from_url] of eroleaked and amateurdoporn works on the
    text of the URL: it drops trailing slashes and returns the sanitized
    last segment of the text, so that a query string after the segment
    stays in the name, its characters sanitized, and no extension is
    added.  For any URL without [?], [#] and [;], a trailing slash and a
    query do not change the name the parsing functions derive.  The example
    URL gives [12345.mp4] with the parsing functions and [12345.mp4-x-1]
    with eroleaked and amateurdoporn. *)
Theorem filename_derivation_query_and_slash :
  (forall (sch nl dirs seg : string) (slash : bool) (query : option string),
      url_parts sch nl dirs seg = true ->
      cumslutx.derive_filename_from_url
        (url_to sch nl dirs seg ++ url_tail slash query)
      = inr (with_mp4 (Py.sanitize seg)) /\
      simpthots.derive_filename_from_url
        (url_to sch nl dirs seg ++ url_tail slash query)
      = inr (with_mp4 (Py.sanitize seg)) /\
      thothub._filename_from_url
        (url_to sch nl dirs seg ++ url_tail slash query)
      = inr seg /\
      thotfans._filename_from_url
        (url_to sch nl dirs seg ++ url_tail slash query)
      = inr seg) /\
  (forall (base seg : string) (slash : bool),
      Py.has_char "/" seg = false -> seg <> "" -> seg <> "." ->
      eroleaked.derive_filename_from_url
        (base ++ "/" ++ seg ++ (if slash then "/" else ""))
      = Py.sanitize seg /\
      amateurdoporn.derive_filename_from_url
        (base ++ "/" ++ seg ++ (if slash then "/" else ""))
      = Py.sanitize seg) /\
  (forall (base seg q : string),
      Py.has_char "/" seg = false -> Py.has_char "/" q = false ->
      eroleaked.derive_filename_from_url (base ++ "/" ++ seg ++ "?" ++ q)
      = Py.sanitize seg ++ "-" ++ Py.sanitize q /\
      amateurdoporn.derive_filename_from_url (base ++ "/" ++ seg ++ "?" ++ q)
      = Py.sanitize seg ++ "-" ++ Py.sanitize q) /\
  (forall (base q : string),
    Py.has_char "?" base = false -> Py.has_char "#" base = false ->
    Py.has_char ";" base = false ->
    cumslutx.derive_filename_from_url (base ++ "/" ++ "?" ++ q)
    = cumslutx.derive_filename_from_url base /\
    simpthots.derive_filename_from_url (base ++ "/" ++ "?" ++ q)
    = simpthots.derive_filename_from_url base /\
    thothub._filename_from_url (base ++ "/" ++ "?" ++ q)
    = thothub._filename_from_url base /\
    thotfans._filename_from_url (base ++ "/" ++ "?" ++ q)
    = thotfans._filename_from_url base /\
    (forall name, cumslutx.derive_filename_from_url base = inr name ->
                  Py.endswith (Py.lower name) ".mp4" = true) /\
    (forall name, simpthots.derive_filename_from_url base = inr name ->
                  Py.endswith (Py.lower name) ".mp4" = true) /\
    eroleaked.derive_filename_from_url (base ++ "/")
    = eroleaked.derive_filename_from_url base /\
    amateurdoporn.derive_filename_from_url (base ++ "/")
    = amateurdoporn.derive_filename_from_url base) /\
  cumslutx.derive_filename_from_url "https://cdn.example.com/videos/12345.mp4?x=1"
  = inr "12345.mp4" /\
  simpthots.derive_filename_from_url "https://cdn.example.com/videos/12345.mp4?x=1"
  = inr "12345.mp4" /\
  thothub._filename_from_url "https://cdn.example.com/videos/12345.mp4?x=1"
  = inr "12345.mp4" /\
  thotfans._filename_from_url "https://cdn.example.com/videos/12345.mp4?x=1"
  = inr "12345.mp4" /\
  eroleaked.derive_filename_from_url "https://cdn.example.com/videos/12345.mp4?x=1"
  = "12345.mp4-x-1" /\
  amateurdoporn.derive_filename_from_url "https://cdn.example.com/videos/12345.mp4?x=1"
  = "12345.mp4-x-1".
Proof.
  split; [|split; [|split; [|split]]].
  - intros sch nl dirs seg slash query H.
    pose proof (path_of_url_to sch nl dirs seg slash query H) as P.
    unfold url_parts in H. apply andb_true_iff in H as [H Hne].
    apply andb_true_iff in H as [_ Hseg].
    apply negb_true_iff in Hne.
    pose proof (segment_no_slash seg Hseg) as Hns.
    assert (Hsl : Py.has_char "/" seg = false).
    { apply (forallb_no_char segment_char); [reflexivity | exact Hseg]. }
    assert (N : seg <> "") by now apply String.eqb_neq.
    assert (L : Py.last_or (Py.nonempty (Py.split "/"
                  (dirs ++ "/" ++ seg ++ (if slash then "/" else "")))) "video" = seg).
    { assert (L0 : Py.last_or (Py.nonempty (Py.split "/" (dirs ++ "/" ++ seg))) "video"
                   = seg).
      { apply last_field_segment; [exact Hsl | now rewrite Hne]. }
      destruct slash; [|now rewrite app_nil_r_s].
      replace (dirs ++ "/" ++ seg ++ "/") with ((dirs ++ "/" ++ seg) ++ "/")
        by now rewrite !app_assoc_s.
      now rewrite last_segment_slash. }
    assert (B : Py.basename (Py.rstrip Py.is_slash
                  (dirs ++ "/" ++ seg ++ (if slash then "/" else ""))) = seg).
    { assert (R : Py.rstrip Py.is_slash
                    (dirs ++ "/" ++ seg ++ (if slash then "/" else ""))
                  = dirs ++ "/" ++ seg).
      { assert (R0 : Py.rstrip Py.is_slash (dirs ++ "/" ++ seg) = dirs ++ "/" ++ seg).
        { rewrite <- app_assoc_s. now apply rstrip_app_free. }
        destruct slash; [|now rewrite app_nil_r_s].
        replace (dirs ++ "/" ++ seg ++ "/") with ((dirs ++ "/" ++ seg) ++ "/")
          by now rewrite !app_assoc_s.
        now rewrite rstrip_slash_app. }
      rewrite R. unfold Py.basename, Py.last_or.
      now apply last_split_segment. }
    assert (C : cumslutx.derive_filename_from_url
                  (url_to sch nl dirs seg ++ url_tail slash query)
                = inr (with_mp4 (Py.sanitize seg))).
    { rewrite derive_by_path, P. cbn [rbind ok]. cbv zeta. now rewrite L. }
    assert (T : thothub._filename_from_url
                  (url_to sch nl dirs seg ++ url_tail slash query) = inr seg).
    { rewrite filename_by_path, P. cbn [rbind ok]. now rewrite B. }
    repeat split; [exact C | exact C | exact T | exact T].
  - intros base seg slash H N D.
    assert (E : eroleaked.derive_filename_from_url
                  (base ++ "/" ++ seg ++ (if slash then "/" else ""))
                = Py.sanitize seg).
    { destruct slash.
      - replace (base ++ "/" ++ seg ++ "/") with ((base ++ "/" ++ seg) ++ "/")
          by now rewrite !app_assoc_s.
        unfold eroleaked.derive_filename_from_url. rewrite rstrip_slash_app.
        now apply text_name_segment.
      - rewrite app_nil_r_s. now apply text_name_segment. }
    split; exact E.
  - intros base seg q Hs Hq.
    assert (E : eroleaked.derive_filename_from_url (base ++ "/" ++ seg ++ "?" ++ q)
                = Py.sanitize seg ++ "-" ++ Py.sanitize q).
    { rewrite (text_name_segment base (seg ++ "?" ++ q)).
      - now rewrite sanitize_app.
      - rewrite has_char_app, Hs. cbn [append Py.has_char]. now rewrite Hq.
      - destruct seg; discriminate.
      - destruct seg as [|c [|c' seg]]; cbn; discriminate. }
    split; exact E.
  - intros base q Hq Hh Hs.
    assert (Hseg : forall p,
      (fun p => let name := Py.sanitize (Py.last_or (Py.nonempty (Py.split "/" p)) "video") in
                if negb (Py.endswith (Py.lower name) ".mp4") then name ++ ".mp4" else name)
        (p ++ "/")
      = (fun p => let name := Py.sanitize (Py.last_or (Py.nonempty (Py.split "/" p)) "video") in
                if negb (Py.endswith (Py.lower name) ".mp4") then name ++ ".mp4" else name) p).
    { intro p. cbv beta zeta. now rewrite last_segment_slash. }
    assert (Hbase : forall p,
      (fun p => Py.basename (Py.rstrip Py.is_slash p)) (p ++ "/")
      = (fun p => Py.basename (Py.rstrip Py.is_slash p)) p).
    { intro p. cbv beta. now rewrite rstrip_slash_app. }
    assert (Hend : forall name,
      cumslutx.derive_filename_from_url base = inr name ->
      Py.endswith (Py.lower name) ".mp4" = true).
    { intros name. rewrite derive_by_path. destruct (path_of base); [discriminate|].
      cbn [rbind ok]. cbv zeta.
      destruct (Py.endswith (Py.lower (Py.sanitize _)) ".mp4") eqn:E; cbn [negb];
        intro H; inversion H; subst.
      - exact E.
      - rewrite lower_app. apply endswith_app. }
    repeat split.
    + rewrite !derive_by_path. now apply path_function_slash_query.
    + change simpthots.derive_filename_from_url with cumslutx.derive_filename_from_url.
      rewrite !derive_by_path. now apply path_function_slash_query.
    + rewrite !filename_by_path. now apply path_function_slash_query.
    + change thotfans._filename_from_url with thothub._filename_from_url.
      rewrite !filename_by_path. now apply path_function_slash_query.
    + exact Hend.
    + exact Hend.
    + unfold eroleaked.derive_filename_from_url. now rewrite rstrip_slash_app.
    + unfold amateurdoporn.derive_filename_from_url. now rewrite rstrip_slash_app.
  - repeat split; reflexivity.
Qed.

Lemma filename_derivation_query_and_slash_witness :
  cumslutx.derive_filename_from_url
    (url_to "https" "cdn.example.com" "/videos" "my video (1)"
     ++ url_tail true (Some "x=1"))
  = inr (with_mp4 (Py.sanitize "my video (1)")).
Proof.
  apply (proj1 filename_derivation_query_and_slash
               "https" "cdn.example.com" "/videos" "my video (1)" true (Some "x=1")).
  reflexivity.
Defined.

(** ** The textual scan on any page *)

Lemma run_of_app (p : ascii -> bool) (a s : string) :
  Py.forallb_str p a = true -> run_of p (a ++ s) = a ++ run_of p s.
Proof.
  induction a as [|c a IH]; cbn; [reflexivity|].
  intro H. apply andb_true_iff in H as [H1 H2]. now rewrite H1, (IH H2).
Qed.

(** Where a scan matches, an address starts. *)
Lemma match_needs_url_start (g : bool) (p : ascii -> bool) (prev : option ascii)
      (y u : string) (n : nat) :
  Py.forallb_str p ".mp4" = true ->
  Re.match_here (mp4_scan g p) prev y = Some (u, n) ->
  url_starts p y = true.
Proof.
  intros Hp M.
  apply match_here_sound in M as (m0 & m2 & rest & -> & D0 & G & _).
  cbn in D0. subst m0. cbn [append].
  apply url_group_shape in G as (tls & body & -> & N & F).
  destruct body as [|c body]; [contradiction|].
  assert (R : run_of p (String c body ++ ".mp4" ++ m2 ++ rest)
              = String c (body ++ ".mp4" ++ run_of p (m2 ++ rest))).
  { rewrite (run_of_app p (String c body) _ F).
    now rewrite (run_of_app p ".mp4" _ Hp). }
  assert (E : ((if tls then "https://" else "http://") ++ String c body ++ ".mp4")
              ++ m2 ++ rest
              = (if tls then "https://" else "http://")
                ++ String c body ++ ".mp4" ++ m2 ++ rest).
  { now rewrite !app_assoc_s. }
  rewrite E. unfold url_starts. destruct tls.
  - rewrite startswith_app. cbn [append Py.drop].
    change (String c (body ++ String "." (String "m" (String "p" (String "4" (m2 ++ rest))))))
      with (String c body ++ ".mp4" ++ m2 ++ rest).
    rewrite R. cbn [Py.drop]. now rewrite contains_app.
  - rewrite startswith_app. cbn [append Py.drop Py.startswith].
    cbn [Ascii.eqb Bool.eqb andb orb].
    change (String c (body ++ String "." (String "m" (String "p" (String "4" (m2 ++ rest))))))
      with (String c body ++ ".mp4" ++ m2 ++ rest).
    rewrite R. cbn [Py.drop]. now rewrite contains_app.
Qed.

(** The search passes over a text in which no address starts. *)
Lemma search_skips_no_url (g : bool) (p : ascii -> bool) (pre rest : string)
      (prev : option ascii) :
  Py.forallb_str p ".mp4" = true ->
  no_url_in p pre rest = true ->
  exists prev',
    Re.search_from (mp4_scan g p) prev (pre ++ rest)
    = Re.search_from (mp4_scan g p) prev' rest.
Proof.
  intros Hp. revert prev. induction pre as [|c pre IH]; intros prev H.
  - now exists prev.
  - cbn [no_url_in] in H. apply andb_true_iff in H as [H1 H2].
    apply negb_true_iff in H1.
    destruct (IH (Some c) H2) as [prev' E]. exists prev'.
    change (String c pre ++ rest) with (String c (pre ++ rest)) in *.
    rewrite search_from_cons.
    destruct (Re.match_here (mp4_scan g p) prev (String c (pre ++ rest)))
      as [[u n]|] eqn:M; [|exact E].
    apply match_needs_url_start in M; [congruence | exact Hp].
Qed.

(** After the address nothing up to the end of the run starts [.mp4]. *)
Lemma no_mp4_up_to_stop (p : ascii -> bool) (tail rest x1 x2 : string) :
  Py.forallb_str p ".mp4" = true ->
  Py.contains tail ".mp4" = false ->
  (rest = "" \/ exists d r, rest = String d r /\ p d = false) ->
  ".mp4" ++ tail = x1 ++ x2 -> x1 <> "" ->
  Py.startswith (x2 ++ rest) ".mp4" = false.
Proof.
  intros Hp C R E N. destruct x1 as [|c x1]; [contradiction|].
  cbn [append] in E. injection E as _ E.
  assert (C' : Py.contains ("mp4" ++ tail) ".mp4" = false).
  { cbn [append Py.contains Py.startswith]. cbn [Ascii.eqb Bool.eqb andb orb].
    exact C. }
  change (String "m" (String "p" (String "4" tail))) with ("mp4" ++ tail) in E.
  rewrite E in C'. apply contains_suffix in C'.
  destruct R as [->|(d & r & -> & Pd)]; [now rewrite app_nil_r_s|].
  destruct (Py.startswith (x2 ++ String d r) ".mp4") eqn:S; [|reflexivity].
  apply startswith_before in S; [congruence|].
  cbn [Py.forallb_str] in Hp.
  apply andb_true_iff in Hp as [P1 Hp]. apply andb_true_iff in Hp as [P2 Hp].
  apply andb_true_iff in Hp as [P3 Hp]. apply andb_true_iff in Hp as [P4 _].
  cbn [Py.has_char].
  destruct (Ascii.eqb_spec "." d) as [<-|_]; [congruence|].
  destruct (Ascii.eqb_spec "m" d) as [<-|_]; [congruence|].
  destruct (Ascii.eqb_spec "p" d) as [<-|_]; [congruence|].
  destruct (Ascii.eqb_spec "4" d) as [<-|_]; [congruence|].
  reflexivity.
Qed.

(** The greedy scan at an address: the run gives back what follows the
    address when nothing there starts [.mp4] before the run ends. *)
Lemma match_greedy_scan (p : ascii -> bool) (tls : bool) (b : ascii)
      (body tail rest : string) (prev : option ascii) :
  Py.forallb_str p ".mp4" = true ->
  Py.forallb_str p (String b body) = true ->
  Py.contains tail ".mp4" = false ->
  (rest = "" \/ exists d r, rest = String d r /\ p d = false) ->
  Re.match_here (mp4_scan true p) prev
    (bare_mp4_url tls (String b body) ++ tail ++ rest)
  = Some (bare_mp4_url tls (String b body),
          String.length (bare_mp4_url tls (String b body))).
Proof.
  intros Hp Hb C Hr. cbn [Py.forallb_str] in Hb.
  apply andb_true_iff in Hb as [Hb1 Hb2].
  unfold Re.match_here.
  assert (Es : bare_mp4_url tls (String b body) ++ tail ++ rest
               = (if tls then "https://" else "http://")
                 ++ String b (body ++ (".mp4" ++ tail) ++ rest)).
  { unfold bare_mp4_url. rewrite !app_assoc_s. reflexivity. }
  rewrite Es.
  set (s := (if tls then "https://" else "http://")
            ++ String b (body ++ (".mp4" ++ tail) ++ rest)).
  assert (F : forall p0,
    Re.match_seq false [Re.Cls p; Re.Star true p; Re.Lit ".mp4"] p0
      (String b (body ++ (".mp4" ++ tail) ++ rest))
      (fun p2 s2 =>
         Re.match_seq false [] p2 s2
           (fun _ s3 => Some (Py.take (String.length s - String.length s2) s,
                              String.length s - String.length s3)))
    = Some (bare_mp4_url tls (String b body),
            String.length (bare_mp4_url tls (String b body)))).
  { intro p0. cbn [Re.match_seq Re.match_atom]. rewrite Hb1.
    apply (star_greedy_skip p body _ _ _ _ Hb2).
    rewrite star_greedy_gives_back.
    - rewrite app_assoc_s.
      etransitivity; [exact (lit_app ".mp4" _ (tail ++ rest) _)|].
      unfold s. rewrite <- Es, take_app, length_app_s, Nat.add_sub. reflexivity.
    - intros x1 x2 pv E N. apply lit_mismatch.
      now apply (no_mp4_up_to_stop p tail rest x1 x2).
    - exact Hr. }
  destruct tls; [|exact (F (Some "/"%char))].
  apply (opt_first _ _ _ (F (Some "/"%char))).
Qed.

Lemma ends_url_stop (rest : string) :
  ends_url rest = true ->
  rest = "" \/ exists d r, rest = String d r /\ Re.not_space_quote d = false.
Proof.
  destruct rest as [|d r]; [now left|]. cbn. intro H. right.
  exists d, r. split; [reflexivity | now apply negb_true_iff].
Qed.

(** A scan returns the first address of the text that it matches. *)
Lemma search_first_url (g : bool) (p : ascii -> bool) (pre u post : string) :
  Py.forallb_str p ".mp4" = true ->
  no_url_in p pre (u ++ post) = true ->
  (forall prev, Re.match_here (mp4_scan g p) prev (u ++ post)
                = Some (u, String.length u)) ->
  Re.search (mp4_scan g p) (pre ++ u ++ post) = Some u.
Proof.
  intros Hp Hpre M. unfold Re.search.
  destruct (search_skips_no_url g p pre (u ++ post) None Hp Hpre) as [prev' S].
  rewrite S. destruct (u ++ post) eqn:B.
  - cbn [Re.search_from]. now rewrite M.
  - rewrite search_from_cons. now rewrite M.
Qed.

(** A star followed by a part that matches after the run [a] matches. *)
Lemma star_reaches {R} (g : bool) (p : ascii -> bool) (a s : string)
      (prev : option ascii) (k : @Re.cont R) :
  Py.forallb_str p a = true ->
  (forall pv, exists r, k pv s = Some r) ->
  exists r, Re.match_atom false (Re.Star g p) prev (a ++ s) k = Some r.
Proof.
  intros Ha K. cbn [Re.match_atom]. revert prev.
  induction a as [|c a IH]; intro prev.
  - cbn [append]. destruct (K prev) as [r Kr]. destruct g.
    + destruct s as [|d s]; cbn [Re.star_greedy]; [now exists r|].
      destruct (p d); [|now exists r].
      destruct (Re.star_greedy p (Some d) s k) as [r'|]; [now exists r' | now exists r].
    + rewrite star_lazy_eq, Kr. now exists r.
  - cbn [Py.forallb_str] in Ha. apply andb_true_iff in Ha as [Hc Ha].
    destruct (IH Ha (Some c)) as [r Hr]. cbn [append]. destruct g.
    + cbn [Re.star_greedy]. rewrite Hc, Hr. now exists r.
    + rewrite star_lazy_eq.
      destruct (k prev (String c (a ++ s))) as [r'|]; [now exists r'|].
      rewrite Hc. now exists r.
Qed.

(** A scan matches at every address whose body stays in its class. *)
Lemma scan_matches_at_url (g : bool) (p : ascii -> bool) (tls : bool)
      (b : ascii) (body post : string) (prev : option ascii) :
  Py.forallb_str p (String b body) = true ->
  exists r, Re.match_here (mp4_scan g p) prev
              (bare_mp4_url tls (String b body) ++ post) = Some r.
Proof.
  intro Hb. cbn [Py.forallb_str] in Hb. apply andb_true_iff in Hb as [Hb1 Hb2].
  unfold Re.match_here.
  assert (Es : bare_mp4_url tls (String b body) ++ post
               = (if tls then "https://" else "http://")
                 ++ String b (body ++ ".mp4" ++ post)).
  { unfold bare_mp4_url. rewrite !app_assoc_s. reflexivity. }
  rewrite Es.
  set (s := (if tls then "https://" else "http://")
            ++ String b (body ++ ".mp4" ++ post)).
  assert (F : forall p0, exists r,
    Re.match_seq false [Re.Cls p; Re.Star g p; Re.Lit ".mp4"] p0
      (String b (body ++ ".mp4" ++ post))
      (fun p2 s2 =>
         Re.match_seq false [] p2 s2
           (fun _ s3 => Some (Py.take (String.length s - String.length s2) s,
                              String.length s - String.length s3)))
    = Some r).
  { intro p0. cbn [Re.match_seq]. cbn [Re.match_atom]. rewrite Hb1.
    apply (star_reaches g p body (".mp4" ++ post) (Some b)); [exact Hb2|].
    intro pv. rewrite lit_app. eexists. reflexivity. }
  destruct (F (Some "/"%char)) as [r Hr]. exists r.
  destruct tls; [|exact Hr].
  exact (opt_first _ _ _ Hr).
Qed.

(** A scan finds an address in every text that holds one. *)
Lemma search_finds_url (g : bool) (p : ascii -> bool) (pre : string) (tls : bool)
      (b : ascii) (body post : string) :
  Py.forallb_str p (String b body) = true ->
  exists u, Re.search (mp4_scan g p)
              (pre ++ bare_mp4_url tls (String b body) ++ post) = Some u.
Proof.
  intro Hb. unfold Re.search. generalize (@None ascii) as prev.
  induction pre as [|c pre IH]; intro prev.
  - cbn [append].
    destruct (scan_matches_at_url g p tls b body post prev Hb) as [[u n] M].
    exists u. destruct (bare_mp4_url tls (String b body) ++ post) eqn:B.
    + cbn [Re.search_from]. now rewrite M.
    + rewrite search_from_cons. now rewrite M.
  - change (String c pre ++ ?x) with (String c (pre ++ x)).
    rewrite search_from_cons.
    destruct (Re.match_here (mp4_scan g p) prev _) as [[u n]|]; [now exists u|].
    apply IH.
Qed.

(** C4 (amended). Let the document be [pre ++ u ++ tail ++ rest] with [u]
    an absolute URL [http(s)://body.mp4], and let no address of the scan
    start in [pre]: at no position of [pre] does the document go on with
    [http://] or [https://] and a run of the scan's class that holds [.mp4]
    after its first character ([pre] may hold other URLs).  Without a
    structured match, the [extract_mp4_url] of cumslutx and of simpthots
    returns [u] when [body] has no white space or quote, [tail] holds no
    [.mp4] and [rest] is empty or starts with a white space or a quote (the
    greedy scan takes the last [.mp4] of the run); the [extract_mp4_url] of
    thothub and of thotfans returns [u] when [body] stays in the class of
    their scan and holds no earlier [.mp4] (the lazy scan).  Whatever
    stands before and after [u], these four functions return some URL and
    not [None].  The [extract_mp4_url] of influencersgonewild has no
    textual scan and returns [None]. *)
Theorem fallback_scan_returns_bare_url :
  forall (w : Env) (pre tail rest : string) (tls : bool) (b : ascii)
         (body : string),
    (Py.forallb_str Re.not_space_quote (String b body) = true ->
     no_url_in Re.not_space_quote pre
       (bare_mp4_url tls (String b body) ++ tail ++ rest) = true ->
     Py.contains tail ".mp4" = false ->
     ends_url rest = true ->
     (cumslutx.meta_url
        (BeautifulSoup w (pre ++ bare_mp4_url tls (String b body) ++ tail ++ rest))
      = None ->
      cumslutx.source_url
        (BeautifulSoup w (pre ++ bare_mp4_url tls (String b body) ++ tail ++ rest))
      = None ->
      cumslutx.extract_mp4_url w
        (pre ++ bare_mp4_url tls (String b body) ++ tail ++ rest)
      = Some (bare_mp4_url tls (String b body))) /\
     (simpthots.og_content
        (BeautifulSoup w (pre ++ bare_mp4_url tls (String b body) ++ tail ++ rest))
        "og:video" = None ->
      simpthots.og_content
        (BeautifulSoup w (pre ++ bare_mp4_url tls (String b body) ++ tail ++ rest))
        "og:video:secure_url" = None ->
      simpthots.extract_mp4_url w
        (pre ++ bare_mp4_url tls (String b body) ++ tail ++ rest)
      = Some (bare_mp4_url tls (String b body)))) /\
    (Py.forallb_str Re.not_dquote_space (String b body) = true ->
     no_early_mp4 body = true ->
     no_url_in Re.not_dquote_space pre
       (bare_mp4_url tls (String b body) ++ tail ++ rest) = true ->
     Re.search thothub.video_url_pattern
       (pre ++ bare_mp4_url tls (String b body) ++ tail ++ rest) = None ->
     thothub.extract_mp4_url
       (pre ++ bare_mp4_url tls (String b body) ++ tail ++ rest)
     = Some (bare_mp4_url tls (String b body))) /\
    (Py.forallb_str Re.not_quote_space_gt (String b body) = true ->
     no_early_mp4 body = true ->
     no_url_in Re.not_quote_space_gt pre
       (bare_mp4_url tls (String b body) ++ tail ++ rest) = true ->
     Re.search thotfans.source_pattern
       (pre ++ bare_mp4_url tls (String b body) ++ tail ++ rest) = None ->
     Re.search thotfans.anchor_pattern
       (pre ++ bare_mp4_url tls (String b body) ++ tail ++ rest) = None ->
     thotfans.extract_mp4_url
       (pre ++ bare_mp4_url tls (String b body) ++ tail ++ rest)
     = Some (bare_mp4_url tls (String b body))) /\
    (Py.forallb_str Re.not_space_quote (String b body) = true ->
     (exists g, cumslutx.extract_mp4_url w
                  (pre ++ bare_mp4_url tls (String b body) ++ tail ++ rest)
                = Some g) /\
     (exists g, simpthots.extract_mp4_url w
                  (pre ++ bare_mp4_url tls (String b body) ++ tail ++ rest)
                = Some g)) /\
    (Py.forallb_str Re.not_dquote_space (String b body) = true ->
     exists g, thothub.extract_mp4_url
                 (pre ++ bare_mp4_url tls (String b body) ++ tail ++ rest)
               = Some g) /\
    (Py.forallb_str Re.not_quote_space_gt (String b body) = true ->
     exists g, thotfans.extract_mp4_url
                 (pre ++ bare_mp4_url tls (String b body) ++ tail ++ rest)
               = Some g) /\
    (Soup.find
       (BeautifulSoup w (pre ++ bare_mp4_url tls (String b body) ++ tail ++ rest))
       "source" (Some ("type", "video/mp4")) = None ->
     influencersgonewild.extract_mp4_url w
       (pre ++ bare_mp4_url tls (String b body) ++ tail ++ rest)
     = None).
Proof.
  intros w pre tail rest tls b body.
  set (u := bare_mp4_url tls (String b body)).
  set (html := pre ++ u ++ tail ++ rest).
  assert (Hne : String.eqb html "" = false)
    by apply app_not_empty, bare_mp4_url_not_empty.
  assert (L : forall p,
             Py.forallb_str p ".mp4" = true ->
             Py.forallb_str p (String b body) = true ->
             no_early_mp4 body = true ->
             no_url_in p pre (u ++ tail ++ rest) = true ->
             Re.search (mp4_scan false p) html = Some u).
  { intros p Hp Hb Hn Hpre. apply search_first_url; [exact Hp | exact Hpre|].
    intro prev. cbn [Py.forallb_str] in Hb. apply andb_true_iff in Hb as [Hb1 Hb2].
    exact (match_lazy_mp4 p tls b body (tail ++ rest) prev Hb1 Hb2 Hn). }
  split; [|split; [|split; [|split; [|split; [|split]]]]].
  - intros Hb Hpre Ht Hr.
    assert (S : Re.search (bare_url_pattern ".mp4") html = Some u).
    { change (bare_url_pattern ".mp4") with (mp4_scan true Re.not_space_quote).
      apply search_first_url; [reflexivity | exact Hpre|].
      intro prev. apply match_greedy_scan;
        [reflexivity | exact Hb | exact Ht | now apply ends_url_stop]. }
    split.
    + intros H1 H2. unfold cumslutx.extract_mp4_url. now rewrite H1, H2.
    + intros H1 H2. unfold simpthots.extract_mp4_url. now rewrite H1, H2.
  - intros Hb Hn Hpre Hs. unfold thothub.extract_mp4_url. rewrite Hne, Hs.
    change thothub.any_mp4_pattern with (mp4_scan false Re.not_dquote_space).
    now rewrite (L Re.not_dquote_space eq_refl Hb Hn Hpre).
  - intros Hb Hn Hpre Hs Ha. unfold thotfans.extract_mp4_url. rewrite Hne, Hs, Ha.
    change thotfans.any_mp4_pattern with (mp4_scan false Re.not_quote_space_gt).
    now rewrite (L Re.not_quote_space_gt eq_refl Hb Hn Hpre).
  - intro Hb.
    destruct (search_finds_url true Re.not_space_quote pre tls b body
                (tail ++ rest) Hb) as [g S].
    change (mp4_scan true Re.not_space_quote) with (bare_url_pattern ".mp4") in S.
    split.
    + unfold cumslutx.extract_mp4_url.
      destruct (cumslutx.meta_url _) as [m|]; [now exists m|].
      destruct (cumslutx.source_url _) as [m|]; [now exists m|].
      now exists g.
    + unfold simpthots.extract_mp4_url.
      destruct (simpthots.og_content _ "og:video") as [m|]; [now exists m|].
      destruct (simpthots.og_content _ "og:video:secure_url") as [m|]; [now exists m|].
      now exists g.
  - intro Hb.
    destruct (search_finds_url false Re.not_dquote_space pre tls b body
                (tail ++ rest) Hb) as [g S].
    unfold thothub.extract_mp4_url. rewrite Hne.
    destruct (Re.search thothub.video_url_pattern html) as [m|]; [now exists m|].
    change thothub.any_mp4_pattern with (mp4_scan false Re.not_dquote_space).
    fold u in S. fold html in S. rewrite S. now exists g.
  - intro Hb.
    destruct (search_finds_url false Re.not_quote_space_gt pre tls b body
                (tail ++ rest) Hb) as [g S].
    unfold thotfans.extract_mp4_url. rewrite Hne.
    destruct (Re.search thotfans.source_pattern html) as [m|]; [now exists m|].
    destruct (Re.search thotfans.anchor_pattern html) as [m|]; [now exists m|].
    change thotfans.any_mp4_pattern with (mp4_scan false Re.not_quote_space_gt).
    fold u in S. fold html in S. rewrite S. now exists g.
  - intro H. unfold influencersgonewild.extract_mp4_url. fold u html in H.
    now rewrite H.
Qed.

Lemma fallback_scan_returns_bare_url_witness :
  cumslutx.extract_mp4_url
    (sample_env text_only (fun _ => page "") (ok 0%Z) 0%Z)
    (("<html xmlns=" ++ String Re.dq "http://www.w3.org/1999/xhtml"
      ++ String Re.dq "> watch: ")
     ++ bare_mp4_url true "cdn.example.com/a" ++ "?token=1" ++ " now")
  = Some "https://cdn.example.com/a.mp4".
Proof.
  apply (proj1 (fallback_scan_returns_bare_url
           (sample_env text_only (fun _ => page "") (ok 0%Z) 0%Z)
           ("<html xmlns=" ++ String Re.dq "http://www.w3.org/1999/xhtml"
            ++ String Re.dq "> watch: ")
           "?token=1" " now" true "c" "dn.example.com/a"));
    reflexivity.
Defined.

(** ** The first matching source tag of thotfans *)

Lemma length_lower (s : string) : String.length (Py.lower s) = String.length s.
Proof. induction s as [|c s IH]; cbn; [reflexivity | now rewrite IH]. Qed.

Lemma quoted_value_app (g rest : string) (q : ascii) :
  Py.forallb_str Re.not_quote g = true -> Re.quote q = true ->
  quoted_value (g ++ String q rest) = Some g.
Proof.
  intros Hg Hq. induction g as [|c g IH]; cbn [append quoted_value].
  - now rewrite Hq.
  - cbn [Py.forallb_str] in Hg. apply andb_true_iff in Hg as [Hc Hg].
    rewrite not_quote_quote in Hc. apply negb_true_iff in Hc.
    now rewrite Hc, (IH Hg).
Qed.

(** The values the group of the source pattern can match. *)
Lemma group_is_mp4_value (g : string) :
  seq_text true
    (Re.http_scheme ++ Re.Plus false Re.not_quote ++ [Re.Lit ".mp4"])%list g ->
  mp4_value g = true /\ Py.forallb_str Re.not_quote g = true.
Proof.
  intro G. apply url_group_shape_ic in G as (s & body & e & -> & Hs & N & F & He).
  change (Py.lower ".mp4") with ".mp4" in He.
  destruct body as [|c body]; [contradiction|].
  split.
  - unfold mp4_value. rewrite !lower_app, He. destruct Hs as [-> | ->].
    + cbn [append Py.startswith Py.drop Py.lower].
      cbn [Ascii.eqb Bool.eqb andb orb].
      now rewrite endswith_app.
    + cbn [append Py.startswith Py.drop Py.lower].
      cbn [Ascii.eqb Bool.eqb andb orb].
      now rewrite endswith_app.
  - rewrite !forallb_str_app, F.
    assert (A : Py.forallb_str Re.not_quote s = true).
    { destruct Hs as [H|H]; apply (lower_eq_not_quote s _ H); reflexivity. }
    rewrite A, (lower_eq_not_quote e _ He); reflexivity.
Qed.

(** [src=] in any case, a quote, a value of the group and a quote make
    the attribute. *)
Lemma src_attr_parts (m : string) (c : ascii) (g : string) (q2 : ascii)
      (rest : string) :
  Py.lower m = "src=" -> Re.quote c = true ->
  seq_text true
    (Re.http_scheme ++ Re.Plus false Re.not_quote ++ [Re.Lit ".mp4"])%list g ->
  Re.quote q2 = true ->
  src_attr_at (m ++ String c (g ++ String q2 rest)) = true.
Proof.
  intros Hm Hc G Hq. destruct (group_is_mp4_value g G) as [V F].
  assert (L : String.length m = 4) by now rewrite <- length_lower, Hm.
  unfold src_attr_at, attr_start.
  rewrite lower_app, Hm, startswith_app.
  destruct m as [|a1 [|a2 [|a3 [|a4 [|a5 m]]]]]; try discriminate L.
  cbn [append Py.drop]. rewrite Hc.
  now rewrite (quoted_value_app g rest q2 F Hq), V.
Qed.

(** What follows [src=] and the quote in the source pattern, whatever the
    pattern hands over in the end: the group and the closing quote. *)
Lemma group_cont_sound {R} (k3 : string -> option ascii -> string -> option R)
      (p1 : option ascii) (s1 : string) (r : R) :
  Re.match_seq true
    (Re.http_scheme ++ Re.Plus false Re.not_quote ++ [Re.Lit ".mp4"])%list p1 s1
    (fun p2 s2 => Re.match_seq true [Re.Cls Re.quote] p2 s2 (k3 s2)) = Some r ->
  exists g q2 rest,
    s1 = g ++ String q2 rest /\
    seq_text true
      (Re.http_scheme ++ Re.Plus false Re.not_quote ++ [Re.Lit ".mp4"])%list g /\
    Re.quote q2 = true.
Proof.
  intro H. apply match_seq_sound in H as (g & s2 & p2 & -> & G & H).
  cbn [Re.match_seq Re.match_atom] in H.
  destruct s2 as [|q2 rest]; [discriminate|].
  destruct (Re.quote q2) eqn:Q; [|discriminate].
  now exists g, q2, rest.
Qed.

(** Where [src=], the quote and what follows them match, the attribute
    starts. *)
Lemma after_run_needs_attr {R} (k : @Re.cont R) (prev : option ascii)
      (y : string) (r : R) :
  (forall p1 s1 r', k p1 s1 = Some r' ->
     exists g q2 rest,
       s1 = g ++ String q2 rest /\
       seq_text true
         (Re.http_scheme ++ Re.Plus false Re.not_quote ++ [Re.Lit ".mp4"])%list g /\
       Re.quote q2 = true) ->
  after_run k prev y = Some r -> src_attr_at y = true.
Proof.
  intros HK H. unfold after_run in H.
  apply match_seq_sound in H as (m & s1 & p1 & -> & D & H).
  cbn in D. destruct D as (m1 & m2 & -> & L & m3 & m4 & -> & (c & -> & Q) & ->).
  apply HK in H as (g & q2 & rest & -> & G & Q2).
  rewrite app_nil_r_s, app_assoc_s. cbn [append].
  now apply src_attr_parts.
Qed.

(** The run after a position from which no attribute starts gives the
    pattern nothing. *)
Lemma star_fails_in_run {R} (k : @Re.cont R) (prev : option ascii) (y : string) :
  (forall p1 s1 r', k p1 s1 = Some r' ->
     exists g q2 rest,
       s1 = g ++ String q2 rest /\
       seq_text true
         (Re.http_scheme ++ Re.Plus false Re.not_quote ++ [Re.Lit ".mp4"])%list g /\
       Re.quote q2 = true) ->
  src_attr_in_run y = false ->
  Re.star_greedy Re.not_gt prev y (after_run k) = None.
Proof.
  intro HK. revert prev.
  assert (A : forall pv z, src_attr_at z = false -> after_run k pv z = None).
  { intros pv z Hz. destruct (after_run k pv z) as [r|] eqn:E; [|reflexivity].
    apply (after_run_needs_attr k pv z r HK) in E. congruence. }
  induction y as [|c y IH]; intros prev H.
  - cbn [Re.star_greedy]. apply A. cbn [src_attr_in_run] in H.
    now apply orb_false_iff in H as [H _].
  - cbn [src_attr_in_run] in H. apply orb_false_iff in H as [H1 H2].
    cbn [Re.star_greedy]. destruct (Re.not_gt c).
    + cbn [andb] in H2. rewrite (IH _ H2). now apply A.
    + now apply A.
Qed.

Lemma src_attr_in_run_app (x z : string) :
  Py.forallb_str Re.not_gt x = true -> src_attr_at z = true ->
  src_attr_in_run (x ++ z) = true.
Proof.
  intros Hx Hz. induction x as [|c x IH]; cbn [append].
  - destruct z; cbn [src_attr_in_run]; now rewrite Hz.
  - cbn [Py.forallb_str] in Hx. apply andb_true_iff in Hx as [Hc Hx].
    cbn [src_attr_in_run]. rewrite Hc, (IH Hx). apply orb_true_r.
Qed.

(** Where the source pattern matches, a source tag with the attribute
    starts. *)
Lemma match_needs_source_tag (prev : option ascii) (y g : string) (n : nat) :
  Re.match_here thotfans.source_pattern prev y = Some (g, n) ->
  source_tag_at y = true.
Proof.
  intro M. apply match_here_sound in M as (m0 & m2 & rest & -> & D0 & G & D2).
  cbn in D0, D2.
  destruct D0 as (t & r1 & -> & Ht & c1 & r2 & -> & (c & -> & Hc) &
                  x & r3 & -> & Hx & s & r4 & -> & Hs & q1 & r5 & -> &
                  (q & -> & Hq) & ->).
  destruct D2 as (q2' & r6 & -> & (q2 & -> & Hq2) & ->).
  change (Py.lower "<source") with "<source" in Ht.
  change (Py.lower "src=") with "src=" in Hs.
  assert (L : String.length t = 7) by now rewrite <- length_lower, Ht.
  assert (A : src_attr_at (s ++ String q (g ++ String q2 rest)) = true)
    by now apply src_attr_parts.
  assert (E : (t ++ String c "" ++ x ++ s ++ String q "" ++ "")
              ++ g ++ (String q2 "" ++ "") ++ rest
              = t ++ String c (x ++ s ++ String q (g ++ String q2 rest))).
  { rewrite !app_assoc_s. cbn [append]. now rewrite ?app_assoc_s. }
  rewrite E. unfold source_tag_at.
  rewrite lower_app, Ht, startswith_app.
  destruct t as [|a1 [|a2 [|a3 [|a4 [|a5 [|a6 [|a7 [|a8 t]]]]]]]];
    try discriminate L.
  cbn [append Py.drop]. rewrite Hc. now rewrite (src_attr_in_run_app x _ Hx A).
Qed.

(** The search passes over a text in which no such tag starts. *)
Lemma search_skips_no_source (pre rest : string) (prev : option ascii) :
  no_source_in pre rest = true ->
  exists prev',
    Re.search_from thotfans.source_pattern prev (pre ++ rest)
    = Re.search_from thotfans.source_pattern prev' rest.
Proof.
  revert prev. induction pre as [|c pre IH]; intros prev H.
  - now exists prev.
  - cbn [no_source_in] in H. apply andb_true_iff in H as [H1 H2].
    apply negb_true_iff in H1.
    destruct (IH (Some c) H2) as [prev' E]. exists prev'.
    change (String c pre ++ rest) with (String c (pre ++ rest)) in *.
    rewrite search_from_cons.
    destruct (Re.match_here thotfans.source_pattern prev (String c (pre ++ rest)))
      as [[u n]|] eqn:M; [|exact E].
    apply match_needs_source_tag in M. congruence.
Qed.

Lemma src_attr_needs_start (y : string) :
  attr_start y = false -> src_attr_at y = false.
Proof. unfold src_attr_at. now intros ->. Qed.

Lemma src_attr_in_run_cons (c : ascii) (y : string) :
  src_attr_in_run (String c y)
  = src_attr_at (String c y) || (Re.not_gt c && src_attr_in_run y).
Proof. reflexivity. Qed.

Lemma no_attr_quote (c : ascii) (rest : string) :
  Re.quote c = true -> src_attr_in_run rest = false ->
  src_attr_in_run (String c rest) = false.
Proof.
  intros Hc Hr. rewrite src_attr_in_run_cons, Hr, andb_false_r, orb_false_r.
  apply src_attr_needs_start.
  destruct (quote_cases c Hc) as [-> | ->]; reflexivity.
Qed.

(** Inside a URL without quotes that ends in [.mp4] and is closed by a
    quote, no attribute starts. *)
Lemma no_attr_in_url (v0 rest : string) (q2 : ascii) :
  Py.forallb_str Re.not_quote v0 = true ->
  Re.quote q2 = true -> src_attr_in_run rest = false ->
  src_attr_in_run (v0 ++ ".mp4" ++ String q2 rest) = false.
Proof.
  intros Hv Hq Hr. induction v0 as [|c v0 IH].
  - cbn [append]. do 4 rewrite src_attr_in_run_cons.
    rewrite (no_attr_quote q2 rest Hq Hr).
    rewrite !src_attr_needs_start by reflexivity. reflexivity.
  - cbn [Py.forallb_str] in Hv. apply andb_true_iff in Hv as [Hc Hv].
    change (String c v0 ++ ".mp4" ++ String q2 rest)
      with (String c (v0 ++ ".mp4" ++ String q2 rest)).
    rewrite src_attr_in_run_cons, (IH Hv), andb_false_r, orb_false_r.
    apply src_attr_needs_start. unfold attr_start.
    change (Py.drop 4 (String c (v0 ++ ".mp4" ++ String q2 rest)))
      with (Py.drop 3 (v0 ++ ".mp4" ++ String q2 rest)).
    destruct (drop_in_run Re.not_quote 3 (v0 ++ ".mp4") (String q2 rest))
      as (d & r & D1 & D2).
    + rewrite forallb_str_app, Hv. reflexivity.
    + rewrite length_app_s. cbn. lia.
    + rewrite app_assoc_s in D1. rewrite D1. rewrite not_quote_quote in D2.
      apply negb_true_iff in D2. rewrite D2. apply andb_false_r.
Qed.

Lemma no_attr_in_tail (v0 rest : string) (q1 q2 : ascii) :
  Re.quote q1 = true -> Re.quote q2 = true ->
  Py.forallb_str Re.not_quote v0 = true -> src_attr_in_run rest = false ->
  src_attr_in_run ("rc=" ++ String q1 (v0 ++ ".mp4" ++ String q2 rest)) = false.
Proof.
  intros H1 H2 Hv Hr.
  pose proof (no_attr_quote q1 _ H1 (no_attr_in_url v0 rest q2 Hv H2 Hr)) as T.
  set (t := String q1 (v0 ++ ".mp4" ++ String q2 rest)) in *.
  cbn [append]. do 3 rewrite src_attr_in_run_cons. rewrite T.
  rewrite !src_attr_needs_start by reflexivity. reflexivity.
Qed.

(** The source pattern at a tag: the run gives back what follows the
    attribute when no further attribute starts before the tag is closed. *)
Lemma match_source_tag_last (a0 : ascii) (attrs : string) (q1 q2 : ascii)
      (tls : bool) (b : ascii) (body rest : string) (prev : option ascii) :
  Re.not_gt a0 = true -> Py.forallb_str Re.not_gt attrs = true ->
  Re.quote q1 = true -> Re.quote q2 = true ->
  Py.forallb_str Re.not_quote (String b body) = true ->
  src_attr_in_run rest = false ->
  exists n,
    Re.match_here thotfans.source_pattern prev
      (source_tag (String a0 attrs) q1 (bare_mp4_url tls (String b body)) q2 rest)
    = Some (bare_mp4_url tls (String b body), n).
Proof.
  intros Ha0 Ha Hq1 Hq2 Hb Hr.
  cbn [Py.forallb_str] in Hb. apply andb_true_iff in Hb as [Hb1 Hb2].
  set (u := bare_mp4_url tls (String b body)).
  set (s := source_tag (String a0 attrs) q1 u q2 rest).
  eexists. unfold Re.match_here.
  set (fin := fun (s1 : string) (p2 : option ascii) (s2 : string) =>
         Re.match_seq true [Re.Cls Re.quote] p2 s2
           (fun _ s3 => Some (Py.take (String.length s1 - String.length s2) s1,
                              String.length s - String.length s3))).
  assert (Eu : u ++ String q2 rest
               = (if tls then "https://" else "http://")
                 ++ String b body ++ ".mp4" ++ String q2 rest).
  { unfold u, bare_mp4_url. now rewrite !app_assoc_s. }
  assert (G : forall p1,
    Re.match_seq true
      (Re.http_scheme ++ Re.Plus false Re.not_quote ++ [Re.Lit ".mp4"])%list p1
      (u ++ String q2 rest) (fin (u ++ String q2 rest))
    = Some (u, String.length s - String.length rest)).
  { intro p1.
    assert (F : forall p0,
      Re.match_seq true [Re.Cls Re.not_quote; Re.Star false Re.not_quote; Re.Lit ".mp4"]
        p0 (String b body ++ ".mp4" ++ String q2 rest) (fin (u ++ String q2 rest))
      = Some (u, String.length s - String.length rest)).
    { intro p0. cbn [Re.match_seq Re.match_atom append]. rewrite Hb1.
      apply (star_lazy_to_quoted_mp4 body rest q2 (Some b) _ _ Hb2).
      - intros pv c s' Hc. unfold fin. cbn [Re.match_seq Re.match_atom].
        rewrite not_quote_quote in Hc. apply negb_true_iff in Hc. now rewrite Hc.
      - unfold fin. cbn [Re.match_seq Re.match_atom]. rewrite Hq2.
        now rewrite take_app. }
    rewrite Eu in *. destruct tls; [|exact (F (Some "/"%char))].
    apply (opt_first _ _ _ (F (Some "/"%char))). }
  match goal with
  | |- ?L = _ => change L
    with (Re.lit true "<source" prev
            ("<source" ++ String a0 attrs ++ "src=" ++ String q1 (u ++ String q2 rest))
            (fun p s' =>
               Re.match_seq true [Re.Cls Re.not_gt; Re.Star true Re.not_gt] p s'
                 (after_run (fun p1 s1 =>
                    Re.match_seq true
                      (Re.http_scheme ++ Re.Plus false Re.not_quote ++ [Re.Lit ".mp4"])%list
                      p1 s1 (fin s1)))))
  end.
  rewrite lit_app_ic. cbn [Re.match_seq Re.match_atom append]. rewrite Ha0.
  apply star_greedy_skip; [exact Ha|].
  change (String "s" (String "r" (String "c" (String "=" (String q1 (u ++ String q2 rest))))))
    with (String "s" ("rc=" ++ String q1 (u ++ String q2 rest))).
  cbn [Re.star_greedy]. change (Re.not_gt "s") with true. cbv iota.
  rewrite star_fails_in_run.
  - unfold after_run. cbn [Re.match_seq Re.match_atom].
    change (String "s" ("rc=" ++ String q1 (u ++ String q2 rest)))
      with ("src=" ++ String q1 (u ++ String q2 rest)).
    rewrite lit_app_ic. rewrite Hq1. apply G.
  - intros p1 s1 r' H.
    exact (group_cont_sound
             (fun s2 _ s3 => Some (Py.take (String.length s1 - String.length s2) s1,
                                   String.length s - String.length s3))
             p1 s1 r' H).
  - assert (E : u ++ String q2 rest
                = ((if tls then "https://" else "http://") ++ String b body)
                  ++ ".mp4" ++ String q2 rest).
    { unfold u, bare_mp4_url. now rewrite !app_assoc_s. }
    rewrite E.
    apply no_attr_in_tail; try assumption.
    rewrite forallb_str_app. cbn [Py.forallb_str]. rewrite Hb1, Hb2.
    now destruct tls.
Qed.

(** The search returns the URL of the first source tag that the pattern
    matches. *)
Lemma search_first_source_tag (pre : string) (a0 : ascii) (attrs : string)
      (q1 q2 : ascii) (tls : bool) (b : ascii) (body rest : string) :
  no_source_in pre
    (source_tag (String a0 attrs) q1 (bare_mp4_url tls (String b body)) q2 rest)
  = true ->
  Re.not_gt a0 = true -> Py.forallb_str Re.not_gt attrs = true ->
  Re.quote q1 = true -> Re.quote q2 = true ->
  Py.forallb_str Re.not_quote (String b body) = true ->
  src_attr_in_run rest = false ->
  Re.search thotfans.source_pattern
    (pre ++ source_tag (String a0 attrs) q1 (bare_mp4_url tls (String b body)) q2 rest)
  = Some (bare_mp4_url tls (String b body)).
Proof.
  intros Hpre Ha0 Ha Hq1 Hq2 Hb Hr. unfold Re.search.
  destruct (search_skips_no_source pre _ None Hpre) as [prev' S]. rewrite S.
  destruct (match_source_tag_last a0 attrs q1 q2 tls b body rest prev'
              Ha0 Ha Hq1 Hq2 Hb Hr) as [n M].
  unfold source_tag in *. cbn [append] in *.
  rewrite search_from_cons, M. reflexivity.
Qed.

(** C3 (amended). Whatever else the text of the document holds:
    influencersgonewild returns the [src] of the first [source] element
    of type [video/mp4]; cumslutx returns the content of the first
    [meta] with [itemprop] [contentURL] when it ends in [.mp4], and the
    [src] of the first such [source] element when the meta tag gives
    nothing; simpthots returns the content of the first [og:video] meta
    element, or of the first [og:video:secure_url] one when the former
    gives nothing; thotfans returns the URL of the first [source] tag of
    the text whose quoted [src] is an absolute URL ending in [.mp4]: the
    text before the tag may hold other [source] tags, as long as none of
    them has such a [src] before it is closed, and of several such
    attributes in the tag itself the last one counts. *)
Theorem structured_match_wins :
  forall (w : Env) (html : string),
    (forall attrs u,
       first_tag (BeautifulSoup w html) "source" "type" "video/mp4" attrs ->
       Soup.attr attrs "src" = Some u ->
       influencersgonewild.extract_mp4_url w html = Some u) /\
    (forall attrs c,
       first_tag (BeautifulSoup w html) "meta" "itemprop" "contentURL" attrs ->
       Soup.attr attrs "content" = Some c -> Py.endswith c ".mp4" = true ->
       cumslutx.extract_mp4_url w html = Some c) /\
    (forall attrs u,
       cumslutx.meta_url (BeautifulSoup w html) = None ->
       first_tag (BeautifulSoup w html) "source" "type" "video/mp4" attrs ->
       Soup.attr attrs "src" = Some u ->
       cumslutx.extract_mp4_url w html = Some u) /\
    (forall attrs c,
       first_tag (BeautifulSoup w html) "meta" "property" "og:video" attrs ->
       Soup.attr attrs "content" = Some c ->
       simpthots.extract_mp4_url w html = Some c) /\
    (forall attrs c,
       simpthots.og_content (BeautifulSoup w html) "og:video" = None ->
       first_tag (BeautifulSoup w html) "meta" "property" "og:video:secure_url" attrs ->
       Soup.attr attrs "content" = Some c ->
       simpthots.extract_mp4_url w html = Some c) /\
    (forall pre a0 attrs q1 q2 tls b body rest,
       html = pre ++ source_tag (String a0 attrs) q1
                       (bare_mp4_url tls (String b body)) q2 rest ->
       no_source_in pre
         (source_tag (String a0 attrs) q1 (bare_mp4_url tls (String b body)) q2 rest)
       = true ->
       Re.not_gt a0 = true -> Py.forallb_str Re.not_gt attrs = true ->
       Re.quote q1 = true -> Re.quote q2 = true ->
       Py.forallb_str Re.not_quote (String b body) = true ->
       src_attr_in_run rest = false ->
       thotfans.extract_mp4_url html = Some (bare_mp4_url tls (String b body))).
Proof.
  intros w html. repeat split.
  - intros attrs u F S. unfold influencersgonewild.extract_mp4_url.
    now rewrite (find_first_tag _ _ _ _ _ F), S.
  - intros attrs c F C E. unfold cumslutx.extract_mp4_url, cumslutx.meta_url.
    now rewrite (find_first_tag _ _ _ _ _ F), C, E.
  - intros attrs u M F S. unfold cumslutx.extract_mp4_url, cumslutx.source_url.
    now rewrite M, (find_first_tag _ _ _ _ _ F), S.
  - intros attrs c F C. unfold simpthots.extract_mp4_url, simpthots.og_content.
    now rewrite (find_first_tag _ _ _ _ _ F), C.
  - intros attrs c O F C. unfold simpthots.extract_mp4_url. rewrite O.
    unfold simpthots.og_content. now rewrite (find_first_tag _ _ _ _ _ F), C.
  - intros pre a0 attrs q1 q2 tls b body rest -> Hpre Ha0 Ha Hq1 Hq2 Hb Hr.
    unfold thotfans.extract_mp4_url.
    rewrite app_not_empty by (unfold source_tag; discriminate).
    now rewrite search_first_source_tag.
Qed.

Lemma structured_match_wins_witness :
  thotfans.extract_mp4_url
    (("https://other.example/b.mp4 " ++
      source_tag " " "'" "https://cdn.example.com/a.webm" "'" " type='video/webm'> ")
     ++ source_tag " type='video/mp4' " "'" (bare_mp4_url true "cdn.example.com/a") "'"
                   " /> https://third.example/c.mp4")
  = Some "https://cdn.example.com/a.mp4".
Proof.
  apply (proj2 (proj2 (proj2 (proj2 (proj2
           (structured_match_wins
              (sample_env text_only (fun _ => page "") (ok 0%Z) 0%Z) _)))))
           ("https://other.example/b.mp4 " ++
            source_tag " " "'" "https://cdn.example.com/a.webm" "'"
                       " type='video/webm'> ")
           " "%char "type='video/mp4' " "'"%char "'"%char
           true "c"%char "dn.example.com/a" " /> https://third.example/c.mp4");
    reflexivity.
Defined.
